(** * JUNGBUB365: the daily-quote application

    A shallow embedding of the quote resolver ([generateQuoteOfDay] in
    services/geminiService.ts, [loadQuoteByDate] in the App component), of the
    book-mode navigation ([handleBookNavigate], [getDateFromKey]), of the
    favourites list ([toggleFavorite]) and of the note handlers
    ([handleOpenNote], [handleSaveNote]) together with the date signature
    they append and strip.  The sources hold two revisions of the App
    component; where they differ ([loadQuoteByDate], [handleBookNavigate])
    both are embedded, the second under a primed name.

    JavaScript strings are represented by their UTF-8 encoding in
    [string]: every character the program inspects (digits, the full
    stop, the space, the line feed, the em dash of the signature and the
    white space removed by [trim]) has a self-synchronising encoding, so the
    byte-level functions below agree with the code-unit-level ones of the
    runtime. *)

From Stdlib Require Import ZArith Ascii String List Lia Bool Floats.
From stdpp Require Import gmap strings list.

Local Open Scope string_scope.
Local Open Scope Z_scope.

(** ** The JavaScript runtime the program relies on *)

Module JS.

(** Numbers: the program only ever holds integers or NaN. *)
Inductive num : Type :=
| NaN
| Num (z : Z).

Definition add (a b : num) : num :=
  match a, b with
  | Num x, Num y => Num (x + y)
  | _, _ => NaN
  end.

Definition sub (a b : num) : num :=
  match a, b with
  | Num x, Num y => Num (x - y)
  | _, _ => NaN
  end.

(** *** Decimal text of an integer (template literals, [String(n)]) *)

Definition digit_char (d : Z) : ascii := ascii_of_N (48 + Z.to_N d).

Fixpoint dec_go (fuel : nat) (n : Z) (acc : string) : string :=
  match fuel with
  | O => acc
  | S fuel' =>
      let acc' := String (digit_char (n mod 10)) acc in
      if n / 10 =? 0 then acc' else dec_go fuel' (n / 10) acc'
  end.

Definition dec_nat (n : Z) : string := dec_go (S (Z.to_nat (Z.log2 n))) n "".

Definition dec (z : Z) : string :=
  if z <? 0 then String "-" (dec_nat (- z)) else dec_nat z.

Definition to_string (n : num) : string :=
  match n with
  | NaN => "NaN"
  | Num z => dec z
  end.

(** [s.padStart(2, '0')] *)
Definition padStart2 (s : string) : string :=
  match s with
  | "" => "00"
  | String c "" => String "0" (String c "")
  | _ => s
  end.

(** *** White space and [String.prototype.trim]

    The characters removed by [trim] are the WhiteSpace and LineTerminator
    code points: U+0009..U+000D, U+0020, U+00A0, U+1680, U+2000..U+200A,
    U+2028, U+2029, U+202F, U+205F, U+3000 and U+FEFF, here by their UTF-8
    encodings of one, two or three bytes. *)

Definition is_ws1 (c : ascii) : bool :=
  let n := N_of_ascii c in
  ((9 <=? n) && (n <=? 13) || (n =? 32))%N.

Definition is_ws2 (c1 c2 : ascii) : bool :=
  ((N_of_ascii c1 =? 194) && (N_of_ascii c2 =? 160))%N.

Definition is_ws3 (c1 c2 c3 : ascii) : bool :=
  let a := N_of_ascii c1 in
  let b := N_of_ascii c2 in
  let c := N_of_ascii c3 in
  ((a =? 225) && (b =? 154) && (c =? 128)
   || (a =? 226) && (b =? 128)
      && ((128 <=? c) && (c <=? 138) || (c =? 168) || (c =? 169) || (c =? 175))
   || (a =? 226) && (b =? 129) && (c =? 159)
   || (a =? 227) && (b =? 128) && (c =? 128)
   || (a =? 239) && (b =? 187) && (c =? 191))%N.

(** Dropping the white space a text begins with, for white-space
    characters of one, two and three bytes given by [w1], [w2] and [w3]. *)
Section Scan.

Variable w1 : ascii → bool.
Variable w2 : ascii → ascii → bool.
Variable w3 : ascii → ascii → ascii → bool.

Fixpoint dropSpace (s : string) : string :=
  match s with
  | String c1 r1 =>
      if w1 c1 then dropSpace r1
      else
        match r1 with
        | String c2 r2 =>
            if w2 c1 c2 then dropSpace r2
            else
              match r2 with
              | String c3 r3 => if w3 c1 c2 c3 then dropSpace r3 else s
              | EmptyString => s
              end
        | EmptyString => s
        end
  | EmptyString => s
  end.

(** Whether the text begins with a white-space character. *)
Definition startsWithSpace (s : string) : bool :=
  match s with
  | String c1 r1 =>
      w1 c1
      || match r1 with
         | String c2 r2 =>
             w2 c1 c2
             || match r2 with
                | String c3 _ => w3 c1 c2 c3
                | EmptyString => false
                end
         | EmptyString => false
         end
  | EmptyString => false
  end.

End Scan.

Definition trimStart : string → string := dropSpace is_ws1 is_ws2 is_ws3.

(** The same scan on the reversed text: the bytes of a character come
    last byte first. *)
Definition trimStartRev : string → string :=
  dropSpace is_ws1 (fun c1 c2 => is_ws2 c2 c1) (fun c1 c2 c3 => is_ws3 c3 c2 c1).

Definition trimEnd (s : string) : string := String.rev (trimStartRev (String.rev s)).

Definition trim (s : string) : string := trimEnd (trimStart s).

(** *** [Number(s)] on the pieces of a date key

    Modelled for the texts a date key can hold: surrounding white space is
    dropped, the empty text is 0, an optionally signed run of decimal digits
    is its value, and text that is not numeric is NaN.  The numeric
    literals with a fraction, an exponent, a radix prefix or the word
    Infinity, which the runtime also accepts, are outside the model and
    read as NaN; no key written by the program holds one. *)

Definition is_digit (c : ascii) : bool :=
  let n := N_of_ascii c in ((48 <=? n) && (n <=? 57))%N.

Definition digit_val (c : ascii) : Z := Z.of_N (N_of_ascii c) - 48.

Fixpoint digits_go (s : string) (acc : Z) : num :=
  match s with
  | EmptyString => Num acc
  | String c r => if is_digit c then digits_go r (10 * acc + digit_val c) else NaN
  end.

Definition digits (s : string) : num :=
  match s with
  | EmptyString => NaN
  | _ => digits_go s 0
  end.

Definition neg (n : num) : num :=
  match n with
  | NaN => NaN
  | Num z => Num (- z)
  end.

Definition Number (s : string) : num :=
  match trim s with
  | EmptyString => Num 0
  | String "-" r => neg (digits r)
  | String "+" r => digits r
  | t => digits t
  end.

(** [s.split('/')]: never empty. *)
Fixpoint split_slash (s : string) : list string :=
  match s with
  | EmptyString => [""]
  | String c r =>
      if Ascii.eqb c "/" then "" :: split_slash r
      else
        match split_slash r with
        | h :: t => String c h :: t
        | [] => [String c ""]
        end
  end.

(** *** Dates

    A [Date] object holds a time value or NaN.  Every operation the program
    performs keeps the local time of day, so a valid date is represented by
    its local day number (days since 1 January 1970); the proleptic Gregorian
    calendar converts between day numbers and year, month, day. *)

Inductive Date : Type :=
| InvalidDate
| DateAt (day : Z).

(** Day number of the civil date [y]-[m]-[d], [m] in 1..12. *)
Definition days_from_civil (y m d : Z) : Z :=
  let y' := if m <=? 2 then y - 1 else y in
  let era := y' / 400 in
  let yoe := y' - era * 400 in
  let doy := (153 * (if 2 <? m then m - 3 else m + 9) + 2) / 5 + d - 1 in
  let doe := yoe * 365 + yoe / 4 - yoe / 100 + doy in
  era * 146097 + doe - 719468.

(** Year, month (1..12) and day of month of a day number. *)
Definition civil_from_days (z : Z) : Z * Z * Z :=
  let z' := z + 719468 in
  let era := z' / 146097 in
  let doe := z' - era * 146097 in
  let yoe := (doe - doe / 1460 + doe / 36524 - doe / 146096) / 365 in
  let doy := doe - (365 * yoe + yoe / 4 - yoe / 100) in
  let mp := (5 * doy + 2) / 153 in
  let d := doy - (153 * mp + 2) / 5 + 1 in
  let m := if mp <? 10 then mp + 3 else mp - 9 in
  let y := yoe + era * 400 in
  (if m <=? 2 then y + 1 else y, m, d).

Definition getFullYear (t : Date) : num :=
  match t with
  | InvalidDate => NaN
  | DateAt z => let '(y, _, _) := civil_from_days z in Num y
  end.

(** Zero-based, as in the runtime. *)
Definition getMonth (t : Date) : num :=
  match t with
  | InvalidDate => NaN
  | DateAt z => let '(_, m, _) := civil_from_days z in Num (m - 1)
  end.

Definition getDate (t : Date) : num :=
  match t with
  | InvalidDate => NaN
  | DateAt z => let '(_, _, d) := civil_from_days z in Num d
  end.

(** MakeDay: the month index may lie outside 0..11 and the day outside the
    month; both carry over. *)
Definition MakeDay (year month date : Z) : Z :=
  let ym := year + month / 12 in
  let mn := month mod 12 in
  days_from_civil ym (mn + 1) 1 + date - 1.

Definition setMonth (t : Date) (month : num) : Date :=
  match t, month with
  | DateAt z, Num m => let '(y, _, d) := civil_from_days z in DateAt (MakeDay y m d)
  | _, _ => InvalidDate
  end.

Definition setDate (t : Date) (date : num) : Date :=
  match t, date with
  | DateAt z, Num dt => let '(y, m, _) := civil_from_days z in DateAt (MakeDay y (m - 1) dt)
  | _, _ => InvalidDate
  end.

(** [new Date(y, m - 1, d)] for a civil date, used to write inputs down. *)
Definition civil (y m d : Z) : Date := DateAt (days_from_civil y m d).

End JS.

Import JS.

(** ** types.ts *)

Record Quote : Type := mkQuote {
  quote : string;
  author : string;
  meaning : string;
  tags : list string
}.

(** *** Values at run time

    The types of the source are erased when it runs: a variable of type
    [Quote] holds whatever was assigned to it, and what
    [JSON.parse(text) as Quote] returns is whatever value the text denotes;
    nothing checks that it is a record of the interface.  [Value] is a value
    of JSON other than [null], with the doubles of the runtime as numbers and
    the own properties of an object as a list (each key once);
    [option Value] adds [null], as [None]. *)
#[warnings="-register-all"]
Inductive Value : Type :=
| VBool (b : bool)
| VNumber (x : float)
| VString (s : string)
| VArray (items : list (option Value))
| VObject (fields : list (string * option Value)).

(** The object an object literal with the four properties of the interface
    builds. *)
Definition record (q : Quote) : Value :=
  VObject [("quote", Some (VString (quote q)));
           ("author", Some (VString (author q)));
           ("meaning", Some (VString (meaning q)));
           ("tags", Some (VArray (map (fun t => Some (VString t)) (tags q))))].

(** What reading a property gives: [undefined] where there is none, else
    its value, which may be [null]. *)
Inductive Property : Type :=
| Undefined
| Holds (v : option Value).

Fixpoint ownProperty (key : string) (fields : list (string * option Value)) : Property :=
  match fields with
  | [] => Undefined
  | (k, v) :: rest => if String.eqb k key then Holds v else ownProperty key rest
  end.

(** [v.quote] for a value [v] that is not [null]: the own property of an
    object; booleans, numbers, strings and arrays have no such property, on
    themselves or on their prototypes. *)
Definition quoteOf (v : Value) : Property :=
  match v with
  | VObject fields => ownProperty "quote" fields
  | _ => Undefined
  end.

(** The text a value shows: its [quote] property when that is a string. *)
Definition textOf (v : Value) : option string :=
  match quoteOf v with
  | Holds (Some (VString s)) => Some s
  | _ => None
  end.

(** Truthiness of a value: [false], [0], [-0], [NaN] and the empty string
    are falsy, as is [null]; every array and object is truthy. *)
Definition truthyValue (v : option Value) : bool :=
  match v with
  | None => false
  | Some (VBool b) => b
  | Some (VNumber x) => negb (PrimFloat.eqb x 0%float) && negb (PrimFloat.is_nan x)
  | Some (VString s) => negb (String.eqb s "")
  | Some (VArray _) => true
  | Some (VObject _) => true
  end.

(** [a === b] for two property values.  Booleans, numbers and strings are
    compared by value (numbers as doubles); two arrays or objects are equal
    only when they are one and the same object, which the values do not
    tell: [same] says whether [a] and [b] were read from the same object. *)
Definition strictEquals (same : bool) (a b : Property) : bool :=
  match a, b with
  | Undefined, Undefined => true
  | Holds None, Holds None => true
  | Holds (Some x), Holds (Some y) =>
      match x, y with
      | VBool p, VBool q => Bool.eqb p q
      | VNumber p, VNumber q => PrimFloat.eqb p q
      | VString p, VString q => String.eqb p q
      | VArray _, VArray _ => same
      | VObject _, VObject _ => same
      | _, _ => false
      end
  | _, _ => false
  end.

(** Whether a value is a record of the interface [Quote]: an object whose
    [quote], [author] and [meaning] are strings and whose [tags] is an array
    of strings. *)
Definition isString (p : Property) : bool :=
  match p with
  | Holds (Some (VString _)) => true
  | _ => false
  end.

Definition isStringArray (p : Property) : bool :=
  match p with
  | Holds (Some (VArray items)) =>
      forallb (fun item => match item with Some (VString _) => true | _ => false end) items
  | _ => false
  end.

Definition isQuote (v : option Value) : bool :=
  match v with
  | Some (VObject fields) =>
      isString (ownProperty "quote" fields)
      && isString (ownProperty "author" fields)
      && isString (ownProperty "meaning" fields)
      && isStringArray (ownProperty "tags" fields)
  | _ => false
  end.

(** [StoredQuote extends QuoteResponse]: [date] is the ISO date text,
    [viewedAt] the epoch milliseconds of [Date.now()].  [data] is the value
    that was on screen when the favourite was saved; [toggleFavorite] saves
    none that is falsy, so it is not [null]. *)
Record StoredQuote : Type := mkStoredQuote {
  data : Value;
  date : string;
  viewedAt : Z
}.

(** ** Collaborators

    [JSON.stringify] and [JSON.parse] at the types the program stores;
    [JSON_parse] is [None] where the runtime throws a SyntaxError.  For a
    quote the type is [option Value]: the text may denote any value, [null]
    included. *)
Class JSON (A : Type) : Type := {
  JSON_stringify : A → string;
  JSON_parse : string → option A
}.

(** What one call of [ai.models.generateContent] does: the promise rejects,
    or it resolves to a response whose [text] may be undefined. *)
Inductive AiOutcome : Type :=
| AiRejects
| AiResponds (text : option string).

(** Exceptions, and how a promise settles. *)
Inductive Exn : Type :=
| ApiError
| Error (message : string)
| SyntaxError.

Inductive Settled (A : Type) : Type :=
| Fulfilled (a : A)
| Rejected (e : Exn).
Arguments Fulfilled {A} a.
Arguments Rejected {A} e.

(** The body of a [try] block: it completes with a value or throws. *)
Inductive Try (A : Type) : Type :=
| Completes (a : A)
| Throws (e : Exn).
Arguments Completes {A} a.
Arguments Throws {A} e.

#[export] Instance Try_ret : MRet Try := fun A a => Completes a.
#[export] Instance Try_bind : MBind Try := fun A B k m =>
  match m with
  | Completes a => k a
  | Throws e => Throws e
  end.

Definition throw {A} (e : Exn) : Try A := Throws e.

(** [try { m } catch (error) { handler }] *)
Definition catch {A} (m : Try A) (handler : Exn → Try A) : Try A :=
  match m with
  | Completes a => Completes a
  | Throws e => handler e
  end.

(** The promise of an [async] function: fulfilled with the value its body
    returns, rejected with what its body throws. *)
Definition async {A} (body : Try A) : Settled A :=
  match body with
  | Completes a => Fulfilled a
  | Throws e => Rejected e
  end.

(** Truthiness of a text that may be undefined or null: defined and not
    empty. *)
Definition truthy (v : option string) : bool :=
  match v with
  | Some (String _ _) => true
  | _ => false
  end.

(** [await ai.models.generateContent(...)] *)
Definition await_generateContent (out : AiOutcome) : Try (option string) :=
  match out with
  | AiRejects => throw ApiError
  | AiResponds text => mret text
  end.

(** ** The date signature of a note *)

Definition LF : ascii := "010"%char.

(** Matchers in continuation-passing style, so that a greedy optional
    digit backtracks the way the regular-expression engine does. *)
Definition Matcher : Type := (string → bool) → string → bool.

Fixpoint lit (l : string) : Matcher := fun k s =>
  match l with
  | EmptyString => k s
  | String c l' =>
      match s with
      | String c' s' => if Ascii.eqb c c' then lit l' k s' else false
      | EmptyString => false
      end
  end.

(** [\d] *)
Definition digit : Matcher := fun k s =>
  match s with
  | String c s' => if is_digit c then k s' else false
  | EmptyString => false
  end.

(** [\d?], greedy *)
Definition opt_digit : Matcher := fun k s => digit k s || k s.

(** [$] without the multiline flag *)
Definition eos (s : string) : bool :=
  match s with
  | EmptyString => true
  | _ => false
  end.

(** [/\n\n — \d{4}\. \d{1,2}\. \d{1,2}\.$/] tried at the start of [s]. *)
Definition DATE_SIGNATURE_REGEX (s : string) : bool :=
  lit (String LF (String LF " — "))
    (digit (digit (digit (digit
      (lit ". " (digit (opt_digit
        (lit ". " (digit (opt_digit
          (lit "." eos))))))))))) s.

(** [text.match(DATE_SIGNATURE_REGEX)]: the leftmost match, if any. *)
Fixpoint matchSignature (s : string) : option string :=
  if DATE_SIGNATURE_REGEX s then Some s
  else
    match s with
    | EmptyString => None
    | String _ r => matchSignature r
    end.

(** [text.replace(DATE_SIGNATURE_REGEX, '')]: the text without its leftmost
    match, unchanged when there is none.  [handleOpenNote] applies it to the
    stored note. *)
Fixpoint stripSignature (s : string) : string :=
  if DATE_SIGNATURE_REGEX s then ""
  else
    match s with
    | EmptyString => ""
    | String c r => String c (stripSignature r)
    end.

Definition extractSignature (s : string) : option string := matchSignature s.

Definition hasSignature (s : string) : bool :=
  match matchSignature s with
  | Some _ => true
  | None => false
  end.

(** The signature [handleSaveNote] builds from [new Date()]. *)
Definition signatureText (y m d : string) : string :=
  String LF (String LF " — ") +:+ y +:+ ". " +:+ m +:+ ". " +:+ d +:+ ".".

Definition signature (now : Date) : string :=
  signatureText (to_string (getFullYear now))
                (to_string (add (getMonth now) (Num 1)))
                (to_string (getDate now)).

(** What [handleSaveNote] stores for the trimmed text [t]. *)
Definition appendSignature (t : string) (now : Date) : string := t +:+ signature now.

(** ** Persistence keys *)

Definition FAVORITES_KEY : string := "favorite_quotes_v2".
Definition NOTES_KEY : string := "user_notes_v1".
Definition BOOKMARK_KEY : string := "last_read_page_v1".

(** The fallback quote of [generateQuoteOfDay]. *)
Definition fallbackQuote : Quote :=
  {| quote := "위대한 업적은 대개 커다란 희생을 치른 결과이다.";
     author := ""; meaning := ""; tags := [] |}.

(** A fixed text shown as a quote: author, meaning and tags are hidden. *)
Definition fixedQuote (text : string) : Quote :=
  {| quote := text; author := ""; meaning := ""; tags := [] |}.

(** [`${date.getMonth() + 1}/${date.getDate()}`] *)
Definition dateKeyOf (d : Date) : string :=
  to_string (add (getMonth d) (Num 1)) +:+ "/" +:+ to_string (getDate d).

(** [`quote_cache_v5_${month}_${day}`] *)
Definition cacheKeyOf (d : Date) : string :=
  "quote_cache_v5_" +:+ to_string (add (getMonth d) (Num 1)) +:+ "_"
    +:+ to_string (getDate d).

(** [getLocalDateString]: YYYY-MM-DD with month and day padded. *)
Definition getLocalDateString (d : Date) : string :=
  to_string (getFullYear d) +:+ "-"
    +:+ padStart2 (to_string (add (getMonth d) (Num 1))) +:+ "-"
    +:+ padStart2 (to_string (getDate d)).

(** [getDateFromKey]: today's date with the month, then the day of the
    key written into it.  [now] is the day number [new Date()] reads. *)
Definition getDateFromKey (now : Z) (key : string) : Date :=
  let parts := map Number (split_slash key) in
  let month := nth 0 parts NaN in
  let day := nth 1 parts NaN in
  let date := DateAt now in
  let date := setMonth date (sub month (Num 1)) in
  setDate date day.

(** ** The application state

    The React state of the App component, the local storage it writes, and
    the number of requests sent to the generation service so far.  The
    view and reading modes only select what is rendered and are left
    out.

    [currentQuote] is [None] for [null].  [lastFavoriteIsShown] is a fact of
    the heap that the values do not tell: the [data] of the last favourite
    is the very object that is on screen (the favourite was saved from it,
    and nothing has been put on screen since).  [toggleFavorite] compares
    [quote] properties with [===], which for arrays and objects is object
    identity; favourites are appended at the end, and every load puts a new
    object on screen, so no other favourite can hold the object on screen,
    and no two favourites hold the same one. *)
Record App : Type := mkApp {
  currentQuote : option Value;
  loading : bool;
  favorites : list StoredQuote;
  notes : gmap string string;
  selectedDateKey : option string;
  isNoteModalOpen : bool;
  noteText : string;
  toastMessage : option string;
  localStorage : gmap string string;
  aiCalls : nat;
  lastFavoriteIsShown : bool
}.

(** [setCurrentQuote(value)]: the loads pass a value they have just built or
    parsed, so no favourite holds it. *)
Definition setCurrentQuote (q : option Value) (st : App) : App :=
  mkApp q (loading st) (favorites st) (notes st) (selectedDateKey st)
        (isNoteModalOpen st) (noteText st) (toastMessage st) (localStorage st) (aiCalls st)
        false.
Definition setLoading (b : bool) (st : App) : App :=
  mkApp (currentQuote st) b (favorites st) (notes st) (selectedDateKey st)
        (isNoteModalOpen st) (noteText st) (toastMessage st) (localStorage st) (aiCalls st)
        (lastFavoriteIsShown st).
Definition setFavorites (l : list StoredQuote) (st : App) : App :=
  mkApp (currentQuote st) (loading st) l (notes st) (selectedDateKey st)
        (isNoteModalOpen st) (noteText st) (toastMessage st) (localStorage st) (aiCalls st)
        (lastFavoriteIsShown st).
Definition setLastFavoriteIsShown (b : bool) (st : App) : App :=
  mkApp (currentQuote st) (loading st) (favorites st) (notes st) (selectedDateKey st)
        (isNoteModalOpen st) (noteText st) (toastMessage st) (localStorage st) (aiCalls st)
        b.
Definition setNotes (m : gmap string string) (st : App) : App :=
  mkApp (currentQuote st) (loading st) (favorites st) m (selectedDateKey st)
        (isNoteModalOpen st) (noteText st) (toastMessage st) (localStorage st) (aiCalls st)
        (lastFavoriteIsShown st).
Definition setSelectedDateKey (k : option string) (st : App) : App :=
  mkApp (currentQuote st) (loading st) (favorites st) (notes st) k
        (isNoteModalOpen st) (noteText st) (toastMessage st) (localStorage st) (aiCalls st)
        (lastFavoriteIsShown st).
Definition setIsNoteModalOpen (b : bool) (st : App) : App :=
  mkApp (currentQuote st) (loading st) (favorites st) (notes st) (selectedDateKey st)
        b (noteText st) (toastMessage st) (localStorage st) (aiCalls st)
        (lastFavoriteIsShown st).
Definition setNoteText (s : string) (st : App) : App :=
  mkApp (currentQuote st) (loading st) (favorites st) (notes st) (selectedDateKey st)
        (isNoteModalOpen st) s (toastMessage st) (localStorage st) (aiCalls st)
        (lastFavoriteIsShown st).
(** [showToast]; the timer that clears the message later is not modelled. *)
Definition showToast (msg : string) (st : App) : App :=
  mkApp (currentQuote st) (loading st) (favorites st) (notes st) (selectedDateKey st)
        (isNoteModalOpen st) (noteText st) (Some msg) (localStorage st) (aiCalls st)
        (lastFavoriteIsShown st).
(** [localStorage.setItem(key, value)] *)
Definition setItem (key value : string) (st : App) : App :=
  mkApp (currentQuote st) (loading st) (favorites st) (notes st) (selectedDateKey st)
        (isNoteModalOpen st) (noteText st) (toastMessage st)
        (<[key := value]> (localStorage st)) (aiCalls st)
        (lastFavoriteIsShown st).
Definition setAiCalls (n : nat) (st : App) : App :=
  mkApp (currentQuote st) (loading st) (favorites st) (notes st) (selectedDateKey st)
        (isNoteModalOpen st) (noteText st) (toastMessage st) (localStorage st) n
        (lastFavoriteIsShown st).

(** The state before the first render. *)
Definition initialApp : App :=
  mkApp None true [] ∅ None false "" None ∅ 0 false.

(** *** Comparing the [quote] of the favourites

    [favorites.some(f => f.data.quote === v.quote)] and
    [favorites.filter(f => f.data.quote !== v.quote)] for the value [v] on
    screen; [shown] says whether the last favourite holds the object [v]
    (see [lastFavoriteIsShown]). *)
Definition isLast {A : Type} (rest : list A) : bool :=
  match rest with
  | [] => true
  | _ => false
  end.

Fixpoint savedAs (shown : bool) (v : Value) (l : list StoredQuote) : bool :=
  match l with
  | [] => false
  | f :: rest =>
      strictEquals (shown && isLast rest) (quoteOf (data f)) (quoteOf v)
      || savedAs shown v rest
  end.

Fixpoint othersThan (shown : bool) (v : Value) (l : list StoredQuote) : list StoredQuote :=
  match l with
  | [] => []
  | f :: rest =>
      if strictEquals (shown && isLast rest) (quoteOf (data f)) (quoteOf v)
      then othersThan shown v rest
      else f :: othersThan shown v rest
  end.

(** [favorites.filter(f => f.data.quote !== fav.data.quote)] for the
    favourite [fav] at index [i]; [j] is the index of the head of [l].  The
    favourite at [i] is compared with itself. *)
Fixpoint othersThanCard (i : nat) (fav : StoredQuote) (j : nat) (l : list StoredQuote)
    : list StoredQuote :=
  match l with
  | [] => []
  | f :: rest =>
      if strictEquals (j =? i)%nat (quoteOf (data f)) (quoteOf (data fav))
      then othersThanCard i fav (S j) rest
      else f :: othersThanCard i fav (S j) rest
  end.

(** Whether a filter keeps the last favourite, given its comparison with
    the value filtered out. *)
Definition keepsLast (same : bool) (v : Value) (l : list StoredQuote) : bool :=
  match last l with
  | Some f => negb (strictEquals same (quoteOf (data f)) (quoteOf v))
  | None => false
  end.

Inductive Direction : Type := next | prev.

(** services/quotesData.ts is not part of the sources at hand: the fixed
    dataset is a parameter, a map from the key M/D to the quote text. *)
Class Dataset : Type := FIXED_QUOTES : gmap string string.

(** The generation service: the outcome of its [n]-th request. *)
Class Generation : Type := ai : nat → AiOutcome.

Section Program.

Context {dataset : Dataset} {generation : Generation}.
Context {JSON_Quote : JSON (option Value)}.
Context {JSON_favorites : JSON (list StoredQuote)}.
Context {JSON_notes : JSON (gmap string string)}.

(** *** services/geminiService.ts *)

(** The [try] block of [generateQuoteOfDay], given the outcome of the
    request it sends.  It returns what [JSON.parse] returns, unvalidated. *)
Definition requestQuote (out : AiOutcome) : Try (option Value) :=
  jsonText ← await_generateContent out;
  if negb (truthy jsonText) then throw (Error "Empty response")
  else
    match JSON_parse (default "" jsonText) with
    | Some v => mret v
    | None => throw SyntaxError
    end.

(** [generateQuoteOfDay]: how the promise settles, and the request count
    afterwards ([calls] before).  A request is sent only when the fixed
    dataset has no text for the date. *)
Definition generateQuoteOfDay (d : Date) (calls : nat) : Settled (option Value) * nat :=
  let dateKey := dateKeyOf d in
  let fixedContent := FIXED_QUOTES !! dateKey in
  if truthy fixedContent then
    (async (mret (Some (record (fixedQuote (default "" fixedContent))))), calls)
  else
    (async (catch (requestQuote (ai calls)) (fun error => mret (Some (record fallbackQuote)))),
     S calls).

(** *** The App component *)

(** [loadQuoteByDate] of the revision with the [silent] flag.  The
    function runs to its end, the awaited generation included, before
    another handler runs.  It rejects when the cached text does not
    parse. *)
Definition loadQuoteByDate (targetDate : Date) (forceRefresh silent : bool)
    (st : App) : Settled unit * App :=
  let st := if negb silent then setLoading true st else st in
  let dateKey := dateKeyOf targetDate in
  let cacheKey := cacheKeyOf targetDate in
  let cachedData := localStorage st !! cacheKey in
  if truthy (FIXED_QUOTES !! dateKey) then
    let st :=
      setCurrentQuote (Some (record (fixedQuote (default "" (FIXED_QUOTES !! dateKey))))) st in
    let st := setSelectedDateKey (Some dateKey) st in
    let st := if negb silent then setLoading false st else st in
    (Fulfilled (), st)
  else if negb forceRefresh && truthy cachedData then
    match JSON_parse (default "" cachedData) with
    | None => (Rejected SyntaxError, st)
    | Some q =>
        let st := setCurrentQuote q st in
        let st := setSelectedDateKey (Some dateKey) st in
        let st := if negb silent then setLoading false st else st in
        (Fulfilled (), st)
    end
  else
    let '(settled, calls) := generateQuoteOfDay targetDate (aiCalls st) in
    let st := setAiCalls calls st in
    let st :=
      match settled with
      | Fulfilled q =>
          let st := setCurrentQuote q st in
          let st := setSelectedDateKey (Some dateKey) st in
          setItem cacheKey (JSON_stringify q) st
      | Rejected _ => st
      end in
    let st := if negb silent then setLoading false st else st in
    (Fulfilled (), st).

(** [loadQuoteByDate] of the other revision: no [silent] flag, and the
    fixed quote is written to the cache as well. *)
Definition loadQuoteByDate' (targetDate : Date) (forceRefresh : bool)
    (st : App) : Settled unit * App :=
  let st := setLoading true st in
  let cacheKey := cacheKeyOf targetDate in
  let cachedData := localStorage st !! cacheKey in
  let dateKey := dateKeyOf targetDate in
  if truthy (FIXED_QUOTES !! dateKey) then
    let q := Some (record (fixedQuote (default "" (FIXED_QUOTES !! dateKey)))) in
    let st := setCurrentQuote q st in
    let st := setSelectedDateKey (Some dateKey) st in
    let st := setLoading false st in
    let st := setItem cacheKey (JSON_stringify q) st in
    (Fulfilled (), st)
  else if negb forceRefresh && truthy cachedData then
    match JSON_parse (default "" cachedData) with
    | None => (Rejected SyntaxError, st)
    | Some q =>
        let st := setCurrentQuote q st in
        let st := setSelectedDateKey (Some dateKey) st in
        let st := setLoading false st in
        (Fulfilled (), st)
    end
  else
    let '(settled, calls) := generateQuoteOfDay targetDate (aiCalls st) in
    let st := setAiCalls calls st in
    let st :=
      match settled with
      | Fulfilled q =>
          let st := setCurrentQuote q st in
          let st := setSelectedDateKey (Some dateKey) st in
          setItem cacheKey (JSON_stringify q) st
      | Rejected _ => st
      end in
    let st := setLoading false st in
    (Fulfilled (), st).

(** [handleBookNavigate]: one day forward or back from the selected key,
    the new key saved as the bookmark, then the quote of the new date
    loaded.  [now] is the day number [new Date()] reads. *)
Definition handleBookNavigate (now : Z) (direction : Direction) (st : App) : App :=
  if negb (truthy (selectedDateKey st)) then st
  else
    let currentDate := getDateFromKey now (default "" (selectedDateKey st)) in
    let nextDate := currentDate in
    let nextDate :=
      setDate nextDate
        (add (getDate currentDate)
             (match direction with next => Num 1 | prev => Num (-1) end)) in
    let nextKey := dateKeyOf nextDate in
    let st := setItem BOOKMARK_KEY nextKey st in
    snd (loadQuoteByDate nextDate false false st).

(** The same handler in the other revision. *)
Definition handleBookNavigate' (now : Z) (direction : Direction) (st : App) : App :=
  if negb (truthy (selectedDateKey st)) then st
  else
    let currentDate := getDateFromKey now (default "" (selectedDateKey st)) in
    let nextDate := currentDate in
    let nextDate :=
      match direction with
      | next => setDate nextDate (add (getDate currentDate) (Num 1))
      | prev => setDate nextDate (sub (getDate currentDate) (Num 1))
      end in
    let nextKey := dateKeyOf nextDate in
    let st := setItem BOOKMARK_KEY nextKey st in
    snd (loadQuoteByDate' nextDate false st).

(** The date whose note is open: that of the selected key, or today. *)
Definition displayDate (now : Z) (st : App) : Date :=
  if truthy (selectedDateKey st)
  then getDateFromKey now (default "" (selectedDateKey st))
  else DateAt now.

Definition currentNoteDateKey (now : Z) (st : App) : string :=
  getLocalDateString (displayDate now st).

(** [toggleFavorite]; [millis] is what [Date.now()] reads.  A falsy value
    on screen ([null] among them) is left alone. *)
Definition toggleFavorite (now : Z) (millis : Z) (st : App) : App :=
  match currentQuote st with
  | None => st
  | Some cur =>
      if negb (truthyValue (Some cur)) then st
      else
        let shown := lastFavoriteIsShown st in
        let isSaved := savedAs shown cur (favorites st) in
        let '(newFavorites, shown, st) :=
          if isSaved then
            (othersThan shown cur (favorites st),
             shown && keepsLast shown cur (favorites st),
             showToast "보관함에서 삭제되었습니다." st)
          else
            let newFavorite :=
              {| data := cur;
                 date := if truthy (selectedDateKey st)
                         then getLocalDateString
                                (getDateFromKey now (default "" (selectedDateKey st)))
                         else getLocalDateString (DateAt now);
                 viewedAt := millis |} in
            ((favorites st ++ [newFavorite])%list, true,
             showToast "보관함에 저장되었습니다." st) in
        let st := setLastFavoriteIsShown shown (setFavorites newFavorites st) in
        setItem FAVORITES_KEY (JSON_stringify newFavorites) st
  end.

(** The delete button of a card in the favourites view: every favourite
    whose [quote] is that of the card at index [i] goes. *)
Definition removeFavorite (i : nat) (st : App) : App :=
  match favorites st !! i with
  | None => st
  | Some fav =>
      let newFavs := othersThanCard i fav 0 (favorites st) in
      let shown :=
        lastFavoriteIsShown st
        && keepsLast (S i =? length (favorites st))%nat (data fav) (favorites st) in
      let st := setLastFavoriteIsShown shown (setFavorites newFavs st) in
      let st := setItem FAVORITES_KEY (JSON_stringify newFavs) st in
      showToast "삭제되었습니다" st
  end.

(** [handleOpenNote]: the stored note without its signature goes to the
    editor. *)
Definition handleOpenNote (now : Z) (st : App) : App :=
  let text := default "" (notes st !! currentNoteDateKey now st) in
  let st := setNoteText (stripSignature text) st in
  setIsNoteModalOpen true st.

(** [handleSaveNote] *)
Definition handleSaveNote (now : Z) (st : App) : App :=
  let key := currentNoteDateKey now st in
  if negb (truthy (Some (trim (noteText st)))) then
    let newNotes := delete key (notes st) in
    let st := setNotes newNotes st in
    let st := setItem NOTES_KEY (JSON_stringify newNotes) st in
    let st := showToast "메모가 삭제되었습니다." st in
    setIsNoteModalOpen false st
  else
    let newNotes := <[key := appendSignature (trim (noteText st)) (DateAt now)]> (notes st) in
    let st := setNotes newNotes st in
    let st := setItem NOTES_KEY (JSON_stringify newNotes) st in
    let st := showToast "메모가 저장되었습니다." st in
    setIsNoteModalOpen false st.

(** *** Events

    What the user and the component do, one handler at a time; each event
    carries the clock reading of the moment. *)
Inductive Event : Type :=
| Load (targetDate : Date) (forceRefresh silent : bool)
| Load' (targetDate : Date) (forceRefresh : bool)
| BookNavigate (now : Z) (direction : Direction)
| BookNavigate' (now : Z) (direction : Direction)
| ToggleFavorite (now millis : Z)
| RemoveFavorite (i : nat)
| OpenNote (now : Z)
| EditNote (text : string)
| SaveNote (now : Z).

Definition dispatch (e : Event) (st : App) : App :=
  match e with
  | Load d f s => snd (loadQuoteByDate d f s st)
  | Load' d f => snd (loadQuoteByDate' d f st)
  | BookNavigate now dir => handleBookNavigate now dir st
  | BookNavigate' now dir => handleBookNavigate' now dir st
  | ToggleFavorite now millis => toggleFavorite now millis st
  | RemoveFavorite i => removeFavorite i st
  | OpenNote now => handleOpenNote now st
  | EditNote text => setNoteText text st
  | SaveNote now => handleSaveNote now st
  end.

Definition run (es : list Event) (st : App) : App :=
  fold_left (fun st e => dispatch e st) es st.

End Program.

(** ** Test doubles for the collaborators

    An in-memory stand-in for [JSON] at each stored type, a small fixed
    dataset and generation services with a fixed behaviour, used to run the
    program on concrete inputs.  The stand-in for quotes reads the texts
    [null] and [42] as JSON does, a text Q... as the record with that quote
    and the other properties empty, and a text P... as an object with the
    [quote] property only. *)

Definition stubJSON_Quote : JSON (option Value) :=
  {| JSON_stringify v :=
       match v with
       | None => "null"
       | Some v' =>
           match textOf v' with
           | Some t => String "Q" t
           | None => "42"
           end
       end;
     JSON_parse s :=
       match s with
       | String "Q" r => Some (Some (record (fixedQuote r)))
       | String "P" r => Some (Some (VObject [("quote", Some (VString r))]))
       | _ =>
           if String.eqb s "null" then Some None
           else if String.eqb s "42" then Some (Some (VNumber 42))
           else None
       end |}.

Definition stubJSON_favorites : JSON (list StoredQuote) :=
  {| JSON_stringify _ := "[]"; JSON_parse _ := None |}.

Definition stubJSON_notes : JSON (gmap string string) :=
  {| JSON_stringify _ := "{}"; JSON_parse _ := None |}.

Definition emptyDataset : Dataset := (∅ : gmap string string).

Definition sampleDataset : Dataset :=
  ({[ "3/5" := "오늘의 문장" ]} : gmap string string).

(** A dataset whose entry for 1 January is the empty text. *)
Definition blankEntryDataset : Dataset := ({[ "1/1" := "" ]} : gmap string string).

Definition aiDown : Generation := fun _ => AiRejects.

Definition aiAnswers (text : string) : Generation := fun _ => AiResponds (Some text).

(** A service that fails once and answers from then on. *)
Definition aiRecovers : Generation :=
  fun n =>
    match n with
    | O => AiRejects
    | S _ => AiResponds (Some "Qrecovered")
    end.

(** ** Checking a property of every number of a range by evaluation *)

Fixpoint forall_from (n : nat) (i : Z) (P : Z → bool) : bool :=
  match n with
  | O => true
  | S k => P i && forall_from k (i + 1) P
  end.

(** Shapes of decimal texts. *)
Definition fourDigits (s : string) : bool :=
  match s with
  | String a (String b (String c (String d EmptyString))) =>
      is_digit a && is_digit b && is_digit c && is_digit d
  | _ => false
  end.

Definition oneOrTwoDigits (s : string) : bool :=
  match s with
  | String a EmptyString => is_digit a
  | String a (String b EmptyString) => is_digit a && is_digit b
  | _ => false
  end.

(** Whether the month and the day of month that [civil_from_days] computes
    from the day [doe] of a 400-year era lie in 1..12 and in 1..31. *)
Definition month_day_ok (doe : Z) : bool :=
  let yoe := (doe - doe / 1460 + doe / 36524 - doe / 146096) / 365 in
  let doy := doe - (365 * yoe + yoe / 4 - yoe / 100) in
  let mp := (5 * doy + 2) / 153 in
  let d := doy - (153 * mp + 2) / 5 + 1 in
  let m := if mp <? 10 then mp + 3 else mp - 9 in
  (1 <=? m) && (m <=? 12) && (1 <=? d) && (d <=? 31).

(** The year of a valid date is written with four digits. *)
Definition fourDigitYear (now : Z) : Prop :=
  ∃ y, getFullYear (DateAt now) = Num y ∧ 1000 <= y <= 9999.

(** ** Notions used to state the properties *)

(** A request to the generation service fails: the call rejects, or the
    response has no text, an empty text, or a text that does not parse. *)
Definition generationFails `{JSON (option Value)} (out : AiOutcome) : Prop :=
  match out with
  | AiRejects => True
  | AiResponds None => True
  | AiResponds (Some t) => t = "" ∨ JSON_parse (A := option Value) t = None
  end.

(** The texts of the favourites, in list order: the [quote] of each one
    that has a string there. *)
Definition favoriteTexts (l : list StoredQuote) : list string :=
  omap (fun f => textOf (data f)) l.

(** The favourite shows the text [t]. *)
Definition hasText (t : string) (f : StoredQuote) : bool :=
  match textOf (data f) with
  | Some t' => String.eqb t' t
  | None => false
  end.

(** A stored note carries exactly one trailing signature, and what is left
    when it is stripped, trimmed or not, carries none. *)
Definition oneSignature (n : string) : Prop :=
  hasSignature n = true
  ∧ hasSignature (stripSignature n) = false
  ∧ hasSignature (trim (stripSignature n)) = false.

Definition notesSigned (st : App) : Prop :=
  ∀ k n, notes st !! k = Some n → oneSignature n.

(** The text in the editor does not end with a signature once trimmed. *)
Definition editorPlain (text : string) : Prop := hasSignature (trim text) = false.

(** The user types no signature, and notes are saved in a year of four
    digits. *)
Definition plainEvent (e : Event) : Prop :=
  match e with
  | EditNote text => editorPlain text
  | SaveNote now => fourDigitYear now
  | _ => True
  end.

(** ** The calendar of the runtime, for stating what the date code does *)

(** Leap years and month lengths of the proleptic Gregorian calendar. *)
Definition isLeap (y : Z) : bool :=
  (y mod 4 =? 0) && (negb (y mod 100 =? 0) || (y mod 400 =? 0)).

Definition daysInMonth (y m : Z) : Z :=
  if (m =? 2) then (if isLeap y then 29 else 28)
  else if (m =? 4) || (m =? 6) || (m =? 9) || (m =? 11) then 30
  else if (1 <=? m) && (m <=? 12) then 31 else 0.

(** The day of the 400-year era of a date, and back, as [days_from_civil]
    and [civil_from_days] compute them. *)
Definition doe_of (yoe m d : Z) : Z :=
  yoe * 365 + yoe / 4 - yoe / 100 + ((153 * (if 2 <? m then m - 3 else m + 9) + 2) / 5 + d - 1).

Definition decode (doe : Z) : Z * Z * Z :=
  let yoe := (doe - doe / 1460 + doe / 36524 - doe / 146096) / 365 in
  let doy := doe - (365 * yoe + yoe / 4 - yoe / 100) in
  let mp := (5 * doy + 2) / 153 in
  let d := doy - (153 * mp + 2) / 5 + 1 in
  let m := if mp <? 10 then mp + 3 else mp - 9 in
  (yoe, m, d).

Definition date_ok (yoe m d : Z) : bool :=
  let y := if m <=? 2 then yoe + 1 else yoe in
  if (1 <=? d) && (d <=? daysInMonth y m) then
    let doe := doe_of yoe m d in
    (0 <=? doe) && (doe <? 146097) &&
    (let '(yoe', m', d') := decode doe in (yoe' =? yoe) && (m' =? m) && (d' =? d))
  else true.

Definition year_ok (yoe : Z) : bool :=
  forall_from 12 1 (fun m => forall_from 31 1 (fun d => date_ok yoe m d)).


(** The key text of a month and a day, as the templates of the source
    write it. *)
Definition keyText (m d : Z) : string := dec m +:+ "/" +:+ dec d.

Definition opposite (dir : Direction) : Direction :=
  match dir with
  | next => prev
  | prev => next
  end.

(** Month and day of the day after and of the day before, in year [y]. *)
Definition dayAfter (y m d : Z) : Z * Z :=
  if d <? daysInMonth y m then (m, d + 1)
  else if m <? 12 then (m + 1, 1) else (1, 1).

Definition dayBefore (y m d : Z) : Z * Z :=
  if 1 <? d then (m, d - 1)
  else if 1 <? m then (m - 1, daysInMonth y (m - 1)) else (12, 31).

Definition neighbour (dir : Direction) (y m d : Z) : Z * Z :=
  match dir with
  | next => dayAfter y m d
  | prev => dayBefore y m d
  end.

Definition keys_parse (m : Z) : bool :=
  forall_from 31 1
    (fun d =>
       match map Number (split_slash (keyText m d)) with
       | [Num m'; Num d'] => (m' =? m) && (d' =? d)
       | _ => false
       end).


(** ** The rest of the App component and of the service *)

(** What is on screen besides the application state: the view and the
    reading mode. *)
Inductive ViewMode : Type := ViewMain | ViewFavorites | ViewList | ViewNotes.

Inductive ReadingMode : Type := daily | random | book.

Record Screen : Type := mkScreen {
  appState : App;
  viewMode : ViewMode;
  readingMode : ReadingMode
}.

(** A state as the component has it before its first render, over a given
    local storage and request count. *)
Definition freshApp (storage : gmap string string) (calls : nat) : App :=
  mkApp None true [] ∅ None false "" None storage calls false.

(** [s.split('-')] *)
Fixpoint split_dash (s : string) : list string :=
  match s with
  | EmptyString => [""]
  | String c r =>
      if Ascii.eqb c "-" then "" :: split_dash r
      else
        match split_dash r with
        | h :: t => String c h :: t
        | [] => [String c ""]
        end
  end.

(** A template literal over a value that may be undefined. *)
Definition template (v : option string) : string := default "undefined" v.

Definition templateNum (v : option num) : string :=
  match v with
  | Some n => to_string n
  | None => "undefined"
  end.

(** [s.replace(/\n\n — /, '')]: the first occurrence, wherever it is. *)
Fixpoint stripPrefix (p s : string) : option string :=
  match p with
  | EmptyString => Some s
  | String c p' =>
      match s with
      | String c' s' => if Ascii.eqb c c' then stripPrefix p' s' else None
      | EmptyString => None
      end
  end.

Fixpoint removeFirst (p s : string) : string :=
  match stripPrefix p s with
  | Some r => r
  | None =>
      match s with
      | EmptyString => ""
      | String c r => String c (removeFirst p r)
      end
  end.

(** [s.replace(/\. /g, '-')] *)
Fixpoint replaceDotSpace (s : string) : string :=
  match s with
  | EmptyString => ""
  | String c r =>
      match r with
      | String c2 r2 =>
          if Ascii.eqb c "." && Ascii.eqb c2 " "
          then String "-" (replaceDotSpace r2)
          else String c (replaceDotSpace r)
      | EmptyString => String c ""
      end
  end.

(** [s.endsWith('.') ? s.slice(0, -1) : s] *)
Definition dropFinalDot (s : string) : string :=
  match String.rev s with
  | String "." r => String.rev r
  | _ => s
  end.

(** *** The card of a note in the notes view *)

(** First revision: the content, and the label after RECORDED AT (empty
    when the note has no signature; the label is then not rendered). *)
Definition noteContent (textStr : string) : string := stripSignature textStr.

Definition noteRecordedAt (textStr : string) : string :=
  let signature :=
    match matchSignature textStr with
    | Some m0 => replaceDotSpace (removeFirst (String LF (String LF " — ")) m0)
    | None => ""
    end in
  dropFinalDot signature.

(** The key its arrow button selects. *)
Definition noteLinkKey (dateStr : string) : string :=
  let parts := split_dash dateStr in
  template (parts !! 1%nat) +:+ "/" +:+ template (parts !! 2%nat).

(** Second revision: the key of the quote shown with the note (and selected
    by a click), the content and the signature. *)
Definition noteQuoteKey (dateStr : string) : string :=
  let parts := map Number (split_dash dateStr) in
  templateNum (parts !! 1%nat) +:+ "/" +:+ templateNum (parts !! 2%nat).

Definition noteContent' (fullText : string) : string :=
  match matchSignature fullText with
  | Some _ => stripSignature fullText
  | None => fullText
  end.

Definition noteSignature' (fullText : string) : string :=
  match matchSignature fullText with
  | Some m0 => trim m0
  | None => ""
  end.

Section Program2.

Context {dataset : Dataset} {generation : Generation}.
Context {JSON_Quote : JSON (option Value)}.
Context {JSON_favorites : JSON (list StoredQuote)}.
Context {JSON_notes : JSON (gmap string string)}.

(** The quote shown with a note in the second revision. *)
Definition noteQuote (dateStr : string) : string :=
  let q := FIXED_QUOTES !! noteQuoteKey dateStr in
  if truthy q then default "" q else "저장된 명언 데이터가 없습니다.".

(** [getRandomQuoteKey].  [Object.keys] is taken in the order of
    [map_to_list]; [randomIndex] is the value of
    [Math.floor(Math.random() * keys.length)], and the result is [None]
    where the source reads past the end of the array. *)
Definition getRandomQuoteKey (randomIndex : nat) : option string :=
  let keys := (map_to_list FIXED_QUOTES).*1 in
  if (length keys =? 0)%nat then Some "1/1"
  else keys !! randomIndex.

(** [loadRandomQuote]; it throws where the random key is undefined. *)
Definition loadRandomQuote (now : Z) (randomIndex : nat) (st : App) : Try App :=
  match getRandomQuoteKey randomIndex with
  | Some randomKey => mret (snd (loadQuoteByDate (getDateFromKey now randomKey) false false st))
  | None => throw (Error "randomKey is undefined")
  end.

Definition loadRandomQuote' (now : Z) (randomIndex : nat) (st : App) : Try App :=
  match getRandomQuoteKey randomIndex with
  | Some randomKey => mret (snd (loadQuoteByDate' (getDateFromKey now randomKey) false st))
  | None => throw (Error "randomKey is undefined")
  end.




(** [handleDateSelect], both revisions. *)
Definition handleDateSelect (now : Z) (dateKey : string) (scr : Screen) : Screen :=
  let st := setSelectedDateKey (Some dateKey) (appState scr) in
  let st := snd (loadQuoteByDate (getDateFromKey now dateKey) false false st) in
  mkScreen st ViewMain daily.

Definition handleDateSelect' (now : Z) (dateKey : string) (scr : Screen) : Screen :=
  let st := setSelectedDateKey (Some dateKey) (appState scr) in
  let st := snd (loadQuoteByDate' (getDateFromKey now dateKey) false st) in
  mkScreen st ViewMain daily.

(** The effect run once when the component mounts, first revision: the
    stored favourites and notes are read back, then today's quote is loaded
    silently.  It throws where a stored text does not parse.  The favourites
    read back are new objects. *)
Definition mountEffect (now : Z) (st : App) : Try App :=
  let storedFavs := localStorage st !! FAVORITES_KEY in
  st ← (if truthy storedFavs then
          match JSON_parse (default "" storedFavs) with
          | Some l => mret (setLastFavoriteIsShown false (setFavorites l st))
          | None => throw SyntaxError
          end
        else mret st);
  let storedNotes := localStorage st !! NOTES_KEY in
  st ← (if truthy storedNotes then
          match JSON_parse (default "" storedNotes) with
          | Some m => mret (setNotes m st)
          | None => throw SyntaxError
          end
        else mret st);
  mret (snd (loadQuoteByDate (DateAt now) false true st)).

(** The two mount effects of the second revision, in their order. *)
Definition mountEffect' (now : Z) (st : App) : Try App :=
  let storedFavs := localStorage st !! FAVORITES_KEY in
  st ← (if truthy storedFavs then
          match JSON_parse (default "" storedFavs) with
          | Some l => mret (setLastFavoriteIsShown false (setFavorites l st))
          | None => throw SyntaxError
          end
        else mret st);
  let storedNotes := localStorage st !! NOTES_KEY in
  st ← (if truthy storedNotes then
          match JSON_parse (default "" storedNotes) with
          | Some m => mret (setNotes m st)
          | None => throw SyntaxError
          end
        else mret st);
  mret (snd (loadQuoteByDate' (DateAt now) false st)).

(** The star of the card and its note mark. *)
Definition isCurrentSaved (st : App) : bool :=
  match currentQuote st with
  | Some cur =>
      if truthyValue (Some cur)
      then savedAs (lastFavoriteIsShown st) cur (favorites st)
      else false
  | None => false
  end.

Definition hasNote (now : Z) (st : App) : bool :=
  truthy (notes st !! currentNoteDateKey now st).

End Program2.

(** ** Notions used to state what the rest of the program does *)

(** The local storage holds the favourites and the notes of the state: an
    entry is the serialisation of the value, and no entry means the value is
    still empty. *)
Definition persisted `{JSON (list StoredQuote)} `{JSON (gmap string string)}
    (st : App) : Prop :=
  match localStorage st !! FAVORITES_KEY with
  | Some text => text = JSON_stringify (favorites st)
  | None => favorites st = []
  end
  ∧ match localStorage st !! NOTES_KEY with
    | Some text => text = JSON_stringify (notes st)
    | None => notes st = ∅
    end.

(** Every key of the dataset is the key of a day of year [y] and has a text. *)
Definition datasetOfYear `{Dataset} (y : Z) : Prop :=
  ∀ key text,
    FIXED_QUOTES !! key = Some text →
    text ≠ ""
    ∧ ∃ m d, key = keyText m d ∧ 1 <= m <= 12 ∧ 1 <= d <= daysInMonth y m.

(** Month [m] and every day number, written with two digits and joined by a
    dash, split and parse back to the two numbers; joined by a slash after
    the split, they parse as the key of the day does. *)
Definition padded_parse (m : Z) : bool :=
  forall_from 31 1
    (fun d =>
       match split_dash (padStart2 (dec m) +:+ "-" +:+ padStart2 (dec d)) with
       | [pm; pd] =>
           match Number pm, Number pd, map Number (split_slash (pm +:+ "/" +:+ pd)) with
           | Num m1, Num d1, [Num m2; Num d2] =>
               (m1 =? m) && (d1 =? d) && (m2 =? m) && (d2 =? d)
           | _, _, _ => false
           end
       | _ => false
       end).

(** A value survives a trip through the storage: its serialisation is not
    the empty text, and parses back to it. *)
Definition roundTrips {A : Type} `{JSON A} (x : A) : Prop :=
  JSON_stringify x ≠ "" ∧ JSON_parse (JSON_stringify x) = Some x.

(** A JSON that knows one document. *)
Definition recallJSON {A : Type} (x : A) : JSON A :=
  {| JSON_stringify _ := "#";
     JSON_parse s := if String.eqb s "#" then Some x else None |}.

(** The cache keys of two days, given by month and day, are the same text
    only if the days are the same; no key of a day is the key of an invalid
    date. *)
Definition cacheKeyText (m d : string) : string := "quote_cache_v5_" +:+ m +:+ "_" +:+ d.

Definition cache_keys_differ (m1 : Z) : bool :=
  forall_from 31 1 (fun d1 =>
    negb (String.eqb (cacheKeyText (dec m1) (dec d1)) (cacheKeyText "NaN" "NaN"))
    && forall_from 12 1 (fun m2 =>
         forall_from 31 1 (fun d2 =>
           implb (String.eqb (cacheKeyText (dec m1) (dec d1)) (cacheKeyText (dec m2) (dec d2)))
                 ((m1 =? m2) && (d1 =? d2))))).

(** The day [doe] of an era decodes to a year of the era, and to a date
    that encodes back to it. *)
Definition decode_ok (doe : Z) : bool :=
  let '(yoe, m, d) := decode doe in
  (0 <=? yoe) && (yoe <? 400) && (doe_of yoe m d =? doe).

(** The decimal text of a number reads back as the number. *)
Definition dec_reads_back (n : Z) : bool :=
  match Number (dec n) with
  | Num n' => n' =? n
  | NaN => false
  end.

(** ** Sample inputs *)

(** 15 June 2025, a screen on the list view, a favourite, and a state whose
    storage holds one favourite and one note. *)
Definition sampleNow : Z := days_from_civil 2025 6 15.

Definition sampleScreen : Screen := mkScreen initialApp ViewList random.

Definition sampleFavorite (text : string) : StoredQuote :=
  mkStoredQuote (record (fixedQuote text)) "2025-06-15" 0.

Definition sampleNotes : gmap string string :=
  {[ "2025-06-15" := "memo" +:+ String LF (String LF " — 2025. 6. 15.") ]}.

Definition storedApp : App :=
  mkApp None false [sampleFavorite "a"] sampleNotes None false "" None
    {[ FAVORITES_KEY := "#"; NOTES_KEY := "#" ]} 0 false.

(** * Properties *)

(** ** Evaluation over a range, decimal texts, the calendar *)

Lemma forall_from_spec n P : ∀ i,
  forall_from n i P = true → ∀ j, i <= j < i + Z.of_nat n → P j = true.
Proof.
  induction n as [|k IH]; simpl; intros i H j Hj; [lia|].
  apply andb_true_iff in H as [Hi Hrest].
  destruct (Z.eq_dec j i) as [->|Hne]; [exact Hi|].
  apply (IH (i + 1)); [exact Hrest | lia].
Qed.

Lemma dec_fourDigits y : 1000 <= y <= 9999 → fourDigits (dec y) = true.
Proof.
  intros Hy.
  assert (H : forall_from (Z.to_nat 9000) 1000 (fun y => fourDigits (dec y)) = true)
    by (vm_compute; reflexivity).
  apply (forall_from_spec _ _ _ H). lia.
Qed.

Lemma dec_oneOrTwoDigits n : 0 <= n <= 99 → oneOrTwoDigits (dec n) = true.
Proof.
  intros Hn.
  assert (H : forall_from (Z.to_nat 100) 0 (fun n => oneOrTwoDigits (dec n)) = true)
    by (vm_compute; reflexivity).
  apply (forall_from_spec _ _ _ H). lia.
Qed.

(** The calendar on known dates, and back. *)
Example civil_from_days_epoch : civil_from_days 0 = (1970, 1, 1).
Proof. reflexivity. Qed.

Example civil_from_days_leap_day : civil_from_days (days_from_civil 2024 2 29) = (2024, 2, 29).
Proof. reflexivity. Qed.

Example civil_from_days_2024_3_5 : civil_from_days 19787 = (2024, 3, 5).
Proof. reflexivity. Qed.

Lemma days_from_civil_from_days z :
  0 <= z < 40000 →
  let '(y, m, d) := civil_from_days z in days_from_civil y m d = z.
Proof.
  intros Hz.
  assert (H : forall_from (Z.to_nat 40000) 0
                (fun z => let '(y, m, d) := civil_from_days z in
                          days_from_civil y m d =? z) = true)
    by (vm_compute; reflexivity).
  pose proof (forall_from_spec _ _ _ H z ltac:(lia)) as Hz'. cbv beta in Hz'.
  destruct (civil_from_days z) as [[y m] d]. apply Z.eqb_eq, Hz'.
Qed.

(** The carry of [setMonth]: 31 January set to February is 3 March. *)
Example setMonth_carries : setMonth (civil 2025 1 31) (Num 1) = civil 2025 3 3.
Proof. reflexivity. Qed.

Lemma month_day_ok_all : forall_from (Z.to_nat 146097) 0 month_day_ok = true.
Proof. vm_compute. reflexivity. Qed.

Lemma civil_from_days_range z :
  ∃ y m d, civil_from_days z = (y, m, d) ∧ 1 <= m <= 12 ∧ 1 <= d <= 31.
Proof.
  assert (Hr : 0 <= (z + 719468) mod 146097 < 146097)
    by (apply Z.mod_pos_bound; lia).
  assert (Hdoe : month_day_ok ((z + 719468) mod 146097) = true).
  { apply (forall_from_spec _ _ _ month_day_ok_all).
    rewrite Z2Nat.id by lia. lia. }
  unfold civil_from_days.
  replace (z + 719468 - (z + 719468) / 146097 * 146097) with ((z + 719468) mod 146097)
    by (rewrite Z.mod_eq by lia; lia).
  unfold month_day_ok in Hdoe. cbv zeta in *.
  repeat (apply andb_true_iff in Hdoe as [Hdoe ?]).
  eexists _, _, _. split; [reflexivity|]. lia.
Qed.

(** ** Texts *)

Lemma str_app_cons c s t : String c s +:+ t = String c (s +:+ t).
Proof. reflexivity. Qed.

Lemma str_app_nil_l s : "" +:+ s = s.
Proof. reflexivity. Qed.

Lemma str_app_nil_r s : s +:+ "" = s.
Proof. induction s as [|c s IH]; [reflexivity|]. rewrite str_app_cons, IH. reflexivity. Qed.

Lemma str_app_assoc s t u : (s +:+ t) +:+ u = s +:+ (t +:+ u).
Proof.
  induction s as [|c s IH]; [reflexivity|].
  rewrite !str_app_cons, IH. reflexivity.
Qed.

Lemma str_length_app s t : String.length (s +:+ t) = (String.length s + String.length t)%nat.
Proof.
  induction s as [|c s IH]; [reflexivity|].
  rewrite str_app_cons. simpl. rewrite IH. reflexivity.
Qed.

(** ** The matchers *)

Lemma lit_app l k r : lit l k (l +:+ r) = k r.
Proof.
  induction l as [|c l IH]; [reflexivity|].
  rewrite str_app_cons. simpl. rewrite Ascii.eqb_refl. exact IH.
Qed.

Lemma lit_true l k s : lit l k s = true → ∃ r, s = l +:+ r ∧ k r = true.
Proof.
  revert s. induction l as [|c l IH]; intros s H.
  - exists s. split; [reflexivity | exact H].
  - destruct s as [|c' s']; simpl in H; [discriminate|].
    destruct (Ascii.eqb_spec c c') as [->|]; [|discriminate].
    destruct (IH _ H) as (r & -> & Hk).
    exists r. split; [reflexivity | exact Hk].
Qed.

Lemma digit_true k s :
  digit k s = true → ∃ c r, s = String c r ∧ is_digit c = true ∧ k r = true.
Proof.
  destruct s as [|c r]; cbn [digit]; [discriminate|].
  destruct (is_digit c) eqn:Hc; [|discriminate].
  intros Hk. exists c, r. auto.
Qed.

Lemma opt_digit_true k s : opt_digit k s = true → digit k s = true ∨ k s = true.
Proof. unfold opt_digit. intros H. apply orb_true_iff in H. exact H. Qed.

Lemma eos_true s : eos s = true → s = "".
Proof. destruct s; [reflexivity | discriminate]. Qed.

Lemma fourDigits_inv s :
  fourDigits s = true →
  ∃ a b c d, s = String a (String b (String c (String d "")))
             ∧ is_digit a = true ∧ is_digit b = true
             ∧ is_digit c = true ∧ is_digit d = true.
Proof.
  destruct s as [|a [|b [|c [|d [|e s]]]]]; cbn [fourDigits]; try discriminate.
  intros H. do 3 (apply andb_true_iff in H as [H ?]).
  exists a, b, c, d. repeat split; assumption.
Qed.

Lemma oneOrTwoDigits_inv s :
  oneOrTwoDigits s = true →
  (∃ a, s = String a "" ∧ is_digit a = true)
  ∨ (∃ a b, s = String a (String b "") ∧ is_digit a = true ∧ is_digit b = true).
Proof.
  destruct s as [|a [|b [|c s]]]; cbn [oneOrTwoDigits]; try discriminate.
  - intros H. left. exists a. auto.
  - intros H. apply andb_true_iff in H as [? ?]. right. exists a, b. auto.
Qed.

(** The regular expression accepts every signature text whose year has
    four digits and whose month and day have one or two. *)
Lemma DATE_SIGNATURE_REGEX_signatureText y m d :
  fourDigits y = true → oneOrTwoDigits m = true → oneOrTwoDigits d = true →
  DATE_SIGNATURE_REGEX (signatureText y m d) = true.
Proof.
  intros Hy Hm Hd.
  destruct (fourDigits_inv _ Hy) as (a & b & c & e & -> & Ha & Hb & Hc & He).
  assert (Hyear : ∀ k rest,
            digit (digit (digit (digit k)))
              (String a (String b (String c (String e ""))) +:+ rest) = k rest).
  { intros k rest.
    change (String a (String b (String c (String e ""))) +:+ rest)
      with (String a (String b (String c (String e rest)))).
    cbn [digit]. rewrite Ha, Hb, Hc, He. reflexivity. }
  assert (Htail : ∀ k s rest, oneOrTwoDigits s = true →
            k rest = true → digit (opt_digit k) (s +:+ rest) = true).
  { intros k s rest Hs Hk.
    destruct (oneOrTwoDigits_inv _ Hs) as [(x & -> & Hx)|(x & x' & -> & Hx & Hx')].
    - rewrite str_app_cons, str_app_nil_l. cbn [digit]. rewrite Hx.
      unfold opt_digit. rewrite Hk. apply orb_true_r.
    - rewrite !str_app_cons, str_app_nil_l. cbn [digit]. rewrite Hx.
      unfold opt_digit. cbn [digit]. rewrite Hx', Hk. reflexivity. }
  unfold DATE_SIGNATURE_REGEX, signatureText.
  rewrite lit_app, Hyear, lit_app.
  apply Htail; [exact Hm|].
  rewrite lit_app. apply Htail; [exact Hd|].
  reflexivity.
Qed.

(** What the regular expression accepts is such a signature text. *)
Lemma DATE_SIGNATURE_REGEX_inv s :
  DATE_SIGNATURE_REGEX s = true →
  ∃ y m d, s = signatureText y m d
           ∧ fourDigits y = true ∧ oneOrTwoDigits m = true ∧ oneOrTwoDigits d = true.
Proof.
  unfold DATE_SIGNATURE_REGEX. intros H.
  apply lit_true in H as (r0 & -> & H).
  apply digit_true in H as (a & r1 & -> & Ha & H).
  apply digit_true in H as (b & r2 & -> & Hb & H).
  apply digit_true in H as (c & r3 & -> & Hc & H).
  apply digit_true in H as (e & r4 & -> & He & H).
  apply lit_true in H as (r5 & -> & H).
  assert (Htail : ∀ k s, digit (opt_digit k) s = true →
            ∃ n rest, s = n +:+ rest ∧ oneOrTwoDigits n = true ∧ k rest = true).
  { intros k s Hs.
    apply digit_true in Hs as (x & r & -> & Hx & Hs).
    apply opt_digit_true in Hs as [Hs|Hs].
    - apply digit_true in Hs as (x' & r' & -> & Hx' & Hs).
      exists (String x (String x' "")), r'. cbn [oneOrTwoDigits]. rewrite Hx, Hx'.
      repeat split; assumption.
    - exists (String x ""), r. cbn [oneOrTwoDigits]. repeat split; assumption. }
  apply Htail in H as (m & r6 & -> & Hm & H).
  apply lit_true in H as (r7 & -> & H).
  apply Htail in H as (d & r8 & -> & Hd & H).
  apply lit_true in H as (r9 & -> & H).
  apply eos_true in H as ->.
  exists (String a (String b (String c (String e "")))), m, d.
  split; [|cbn [fourDigits]; rewrite Ha, Hb, Hc, He; repeat split; assumption].
  unfold signatureText. rewrite !str_app_cons, !str_app_nil_l. reflexivity.
Qed.

Lemma fourDigits_length s : fourDigits s = true → String.length s = 4%nat.
Proof.
  intros H. destruct (fourDigits_inv _ H) as (a & b & c & d & -> & _). reflexivity.
Qed.

Lemma oneOrTwoDigits_length s :
  oneOrTwoDigits s = true → (1 <= String.length s <= 2)%nat.
Proof.
  intros H.
  destruct (oneOrTwoDigits_inv _ H) as [(a & -> & _)|(a & b & -> & _)]; simpl; lia.
Qed.

Lemma signatureText_length y m d :
  String.length (signatureText y m d)
  = (12 + String.length y + String.length m + String.length d)%nat.
Proof. unfold signatureText. rewrite !str_length_app. simpl. lia. Qed.

Lemma signatureText_head y m d :
  ∃ r, signatureText y m d = String LF (String LF (String " " r)).
Proof. unfold signatureText. eexists. reflexivity. Qed.

Lemma DATE_SIGNATURE_REGEX_length s :
  DATE_SIGNATURE_REGEX s = true → (18 <= String.length s <= 20)%nat.
Proof.
  intros H. destruct (DATE_SIGNATURE_REGEX_inv _ H) as (y & m & d & -> & Hy & Hm & Hd).
  rewrite signatureText_length.
  pose proof (fourDigits_length _ Hy).
  pose proof (oneOrTwoDigits_length _ Hm).
  pose proof (oneOrTwoDigits_length _ Hd). lia.
Qed.

Lemma DATE_SIGNATURE_REGEX_head s :
  DATE_SIGNATURE_REGEX s = true → ∃ r, s = String LF (String LF (String " " r)).
Proof.
  intros H. destruct (DATE_SIGNATURE_REGEX_inv _ H) as (y & m & d & -> & _).
  apply signatureText_head.
Qed.

(** A match ends the text, and no text that ends with a match and is
    longer than it is itself a match. *)
Lemma DATE_SIGNATURE_REGEX_not_longer x s :
  DATE_SIGNATURE_REGEX s = true → x ≠ "" → DATE_SIGNATURE_REGEX (x +:+ s) = false.
Proof.
  intros Hs Hx.
  destruct (DATE_SIGNATURE_REGEX (x +:+ s)) eqn:Hxs; [exfalso|reflexivity].
  pose proof (DATE_SIGNATURE_REGEX_length _ Hs) as Hls.
  pose proof (DATE_SIGNATURE_REGEX_length _ Hxs) as Hlxs.
  rewrite str_length_app in Hlxs.
  destruct (DATE_SIGNATURE_REGEX_head _ Hs) as (r & ->).
  destruct (DATE_SIGNATURE_REGEX_head _ Hxs) as (r' & Hr').
  destruct x as [|c1 [|c2 [|c3 x]]]; [congruence| | |simpl in Hls, Hlxs; lia].
  - rewrite !str_app_cons, str_app_nil_l in Hr'. discriminate Hr'.
  - rewrite !str_app_cons, str_app_nil_l in Hr'. discriminate Hr'.
Qed.

Lemma stripSignature_app t s :
  DATE_SIGNATURE_REGEX s = true → stripSignature (t +:+ s) = t.
Proof.
  intros Hs. induction t as [|c t IH].
  - rewrite str_app_nil_l. destruct s; cbn [stripSignature]; rewrite Hs; reflexivity.
  - rewrite str_app_cons. cbn [stripSignature].
    rewrite <- str_app_cons.
    rewrite (DATE_SIGNATURE_REGEX_not_longer (String c t) s Hs) by discriminate.
    rewrite IH. reflexivity.
Qed.

Lemma matchSignature_app t s :
  DATE_SIGNATURE_REGEX s = true → matchSignature (t +:+ s) = Some s.
Proof.
  intros Hs. induction t as [|c t IH].
  - rewrite str_app_nil_l. destruct s; cbn [matchSignature]; rewrite Hs; reflexivity.
  - rewrite str_app_cons. cbn [matchSignature].
    rewrite <- str_app_cons.
    rewrite (DATE_SIGNATURE_REGEX_not_longer (String c t) s Hs) by discriminate.
    exact IH.
Qed.

Lemma hasSignature_app t s :
  DATE_SIGNATURE_REGEX s = true → hasSignature (t +:+ s) = true.
Proof. intros Hs. unfold hasSignature. rewrite matchSignature_app by exact Hs. reflexivity. Qed.

Lemma signature_accepted now :
  fourDigitYear now → DATE_SIGNATURE_REGEX (signature (DateAt now)) = true.
Proof.
  intros (y & Hy & Hrange).
  unfold signature. rewrite Hy.
  unfold getFullYear, getMonth, getDate in *.
  destruct (civil_from_days_range now) as (y' & m & d & Hc & Hm & Hd).
  rewrite Hc in *. cbn [add to_string].
  apply DATE_SIGNATURE_REGEX_signatureText.
  - apply dec_fourDigits. exact Hrange.
  - replace (m - 1 + 1) with m by lia. apply dec_oneOrTwoDigits. lia.
  - apply dec_oneOrTwoDigits. lia.
Qed.

Lemma signature_round_trip t now :
  fourDigitYear now → stripSignature (appendSignature t (DateAt now)) = t.
Proof.
  intros Hnow. unfold appendSignature.
  apply stripSignature_app, signature_accepted, Hnow.
Qed.

(** C4 (as amended): for every text [t] that does not itself end with a
    signature and every date [now] whose year is written with four digits
    (1000 to 9999), stripping the signature from [t] with the signature of
    [now] appended gives [t] back. *)
Theorem signature_round_trip_law (t : string) (now : Z) :
  hasSignature t = false →
  fourDigitYear now →
  stripSignature (appendSignature t (DateAt now)) = t.
Proof. intros _ Hnow. apply signature_round_trip, Hnow. Qed.

(** ** White space *)

Lemma rev_app_app s t : String.rev_app s t = String.rev s +:+ t.
Proof.
  unfold String.rev. revert t.
  induction s as [|c s IH]; intros t; [reflexivity|].
  cbn [String.rev_app]. rewrite (IH (String c t)), (IH (String c "")).
  rewrite str_app_assoc. reflexivity.
Qed.

Lemma rev_cons c s : String.rev (String c s) = String.rev s +:+ String c "".
Proof. unfold String.rev at 1. cbn [String.rev_app]. apply rev_app_app. Qed.

Lemma rev_app_distr s t : String.rev (s +:+ t) = String.rev t +:+ String.rev s.
Proof.
  induction s as [|c s IH].
  - rewrite str_app_nil_l. change (String.rev "") with "". rewrite str_app_nil_r. reflexivity.
  - rewrite str_app_cons, !rev_cons, IH, str_app_assoc. reflexivity.
Qed.

Lemma rev_involutive s : String.rev (String.rev s) = s.
Proof.
  induction s as [|c s IH]; [reflexivity|].
  rewrite rev_cons, rev_app_distr, IH. reflexivity.
Qed.

Section ScanFacts.

Variable w1 : ascii → bool.
Variable w2 : ascii → ascii → bool.
Variable w3 : ascii → ascii → ascii → bool.

Local Abbreviation drop := (dropSpace w1 w2 w3).
Local Abbreviation starts := (startsWithSpace w1 w2 w3).

Lemma dropSpace_fixed s : starts s = false → drop s = s.
Proof.
  destruct s as [|c1 [|c2 [|c3 r]]]; cbn [startsWithSpace dropSpace]; intros H;
    repeat (apply orb_false_iff in H as [? H]);
    repeat match goal with Hw : _ = false |- _ => rewrite Hw; clear Hw end;
    reflexivity.
Qed.

Lemma dropSpace_suffix s : ∃ p, s = p +:+ drop s.
Proof.
  remember (String.length s) as n eqn:Hn.
  revert s Hn. induction n as [n IH] using lt_wf_ind. intros s Hn.
  destruct s as [|c1 r1]; [exists ""; reflexivity|].
  cbn [dropSpace]. destruct (w1 c1).
  { destruct (IH (String.length r1) ltac:(simpl in Hn; lia) r1 eq_refl) as (p & Hp).
    exists (String c1 p). rewrite str_app_cons, <- Hp. reflexivity. }
  destruct r1 as [|c2 r2]; [exists ""; reflexivity|].
  destruct (w2 c1 c2).
  { destruct (IH (String.length r2) ltac:(simpl in Hn; lia) r2 eq_refl) as (p & Hp).
    exists (String c1 (String c2 p)). rewrite !str_app_cons, <- Hp. reflexivity. }
  destruct r2 as [|c3 r3]; [exists ""; reflexivity|].
  destruct (w3 c1 c2 c3); [|exists ""; reflexivity].
  destruct (IH (String.length r3) ltac:(simpl in Hn; lia) r3 eq_refl) as (p & Hp).
  exists (String c1 (String c2 (String c3 p))). rewrite !str_app_cons, <- Hp. reflexivity.
Qed.

Lemma dropSpace_clean s : starts (drop s) = false.
Proof.
  remember (String.length s) as n eqn:Hn.
  revert s Hn. induction n as [n IH] using lt_wf_ind. intros s Hn.
  destruct s as [|c1 r1]; [reflexivity|].
  cbn [dropSpace]. destruct (w1 c1) eqn:H1.
  { apply (IH (String.length r1)); [simpl in Hn; lia | reflexivity]. }
  destruct r1 as [|c2 r2].
  { cbn [startsWithSpace]. rewrite H1. reflexivity. }
  destruct (w2 c1 c2) eqn:H2.
  { apply (IH (String.length r2)); [simpl in Hn; lia | reflexivity]. }
  destruct r2 as [|c3 r3].
  { cbn [startsWithSpace]. rewrite H1, H2. reflexivity. }
  destruct (w3 c1 c2 c3) eqn:H3.
  { apply (IH (String.length r3)); [simpl in Hn; lia | reflexivity]. }
  cbn [startsWithSpace]. rewrite H1, H2, H3. reflexivity.
Qed.

Lemma dropSpace_idempotent s : drop (drop s) = drop s.
Proof. apply dropSpace_fixed, dropSpace_clean. Qed.

(** A text that begins with white space still does when it is extended. *)
Lemma startsWithSpace_app p q : starts p = true → starts (p +:+ q) = true.
Proof.
  destruct p as [|c1 [|c2 [|c3 r]]]; cbn [startsWithSpace]; intros H.
  - discriminate.
  - rewrite orb_false_r in H. rewrite str_app_cons. cbn [startsWithSpace].
    rewrite H. reflexivity.
  - rewrite orb_false_r in H. rewrite !str_app_cons. cbn [startsWithSpace].
    apply orb_true_iff in H as [->| ->]; [reflexivity|].
    rewrite orb_true_l. apply orb_true_r.
  - rewrite !str_app_cons. cbn [startsWithSpace]. exact H.
Qed.

End ScanFacts.

Lemma trimEnd_prefix s : ∃ q, s = trimEnd s +:+ q.
Proof.
  unfold trimEnd, trimStartRev.
  destruct (dropSpace_suffix is_ws1 (fun c1 c2 => is_ws2 c2 c1)
              (fun c1 c2 c3 => is_ws3 c3 c2 c1) (String.rev s)) as (p & Hp).
  exists (String.rev p).
  rewrite <- rev_app_distr, <- Hp, rev_involutive. reflexivity.
Qed.

Lemma trimEnd_idempotent s : trimEnd (trimEnd s) = trimEnd s.
Proof.
  unfold trimEnd, trimStartRev.
  rewrite rev_involutive, dropSpace_idempotent. reflexivity.
Qed.

Lemma trim_idempotent s : trim (trim s) = trim s.
Proof.
  unfold trim.
  assert (Hfix : trimStart (trimEnd (trimStart s)) = trimEnd (trimStart s)).
  { apply dropSpace_fixed.
    destruct (startsWithSpace is_ws1 is_ws2 is_ws3 (trimEnd (trimStart s))) eqn:Hst;
      [|reflexivity].
    destruct (trimEnd_prefix (trimStart s)) as (q & Hq).
    pose proof (startsWithSpace_app _ _ _ _ q Hst) as Happ.
    rewrite <- Hq in Happ.
    unfold trimStart in Happ. rewrite dropSpace_clean in Happ. discriminate Happ. }
  rewrite Hfix. apply trimEnd_idempotent.
Qed.

(** ** The quote resolver *)

Lemma truthy_Some text : text ≠ "" → truthy (Some text) = true.
Proof. destruct text; [congruence | reflexivity]. Qed.

Section Resolver.

Context {dataset : Dataset} {generation : Generation} {JSON_Quote : JSON (option Value)}.

Lemma requestQuote_fails out :
  generationFails out → ∃ e, requestQuote out = Throws e.
Proof.
  destruct out as [|[t|]]; cbn; intros H; eauto.
  destruct H as [->|H]; [eauto|].
  destruct t; cbn; [eauto|]. rewrite H. eauto.
Qed.

Lemma generateQuoteOfDay_fixed d text calls :
  FIXED_QUOTES !! dateKeyOf d = Some text → text ≠ "" →
  generateQuoteOfDay d calls = (Fulfilled (Some (record (fixedQuote text))), calls).
Proof.
  intros Hk Ht. unfold generateQuoteOfDay.
  rewrite Hk, (truthy_Some _ Ht). reflexivity.
Qed.

Lemma generateQuoteOfDay_generated d calls :
  truthy (FIXED_QUOTES !! dateKeyOf d) = false →
  generateQuoteOfDay d calls
  = (async (catch (requestQuote (ai calls)) (fun _ => mret (Some (record fallbackQuote)))),
     S calls).
Proof. intros H. unfold generateQuoteOfDay. rewrite H. reflexivity. Qed.

Lemma generateQuoteOfDay_settles d calls :
  ∃ q, fst (generateQuoteOfDay d calls) = Fulfilled q.
Proof.
  unfold generateQuoteOfDay.
  destruct (truthy (FIXED_QUOTES !! dateKeyOf d)); [eexists; reflexivity|].
  cbn [fst]. destruct (requestQuote (ai calls)); eexists; reflexivity.
Qed.

Lemma generateQuoteOfDay_fallback d calls :
  truthy (FIXED_QUOTES !! dateKeyOf d) = false →
  generationFails (ai calls) →
  generateQuoteOfDay d calls = (Fulfilled (Some (record fallbackQuote)), S calls).
Proof.
  intros Hk Hf. rewrite generateQuoteOfDay_generated by exact Hk.
  destruct (requestQuote_fails _ Hf) as (e & ->). reflexivity.
Qed.

(** C1 (as amended): for every date whose key M/D has a non-empty text in
    the fixed dataset, [generateQuoteOfDay] and both revisions of
    [loadQuoteByDate] resolve to the quote with exactly that text and with
    empty author, meaning and tags, whatever [forceRefresh], [silent] and
    the state (the cache included) are, and no request is sent to the
    generation service: the request count is unchanged. *)
Theorem fixed_quote_resolution (d : Date) (text : string)
    (forceRefresh silent : bool) (st : App) (calls : nat) :
  FIXED_QUOTES !! dateKeyOf d = Some text →
  text ≠ "" →
  generateQuoteOfDay d calls = (Fulfilled (Some (record (fixedQuote text))), calls)
  ∧ (let r := loadQuoteByDate d forceRefresh silent st in
     fst r = Fulfilled ()
     ∧ currentQuote (snd r) = Some (record (fixedQuote text))
     ∧ aiCalls (snd r) = aiCalls st)
  ∧ (let r := loadQuoteByDate' d forceRefresh st in
     fst r = Fulfilled ()
     ∧ currentQuote (snd r) = Some (record (fixedQuote text))
     ∧ aiCalls (snd r) = aiCalls st)
  ∧ quote (fixedQuote text) = text
  ∧ author (fixedQuote text) = ""
  ∧ meaning (fixedQuote text) = ""
  ∧ tags (fixedQuote text) = [].
Proof.
  intros Hk Ht. split; [apply generateQuoteOfDay_fixed; assumption|].
  cbv zeta. unfold loadQuoteByDate, loadQuoteByDate'.
  rewrite Hk, (truthy_Some _ Ht).
  repeat split; destruct silent; reflexivity.
Qed.


Lemma truthy_None_lookup (m : gmap string string) k : m !! k = None → truthy (m !! k) = false.
Proof. intros ->. reflexivity. Qed.

Lemma generation_path_condition forceRefresh cached :
  forceRefresh = true ∨ truthy cached = false →
  negb forceRefresh && truthy cached = false.
Proof. intros [->| ->]; [reflexivity | apply andb_false_r]. Qed.

(** What [loadQuoteByDate] does when it reaches the generation call. *)
Lemma loadQuoteByDate_generates d forceRefresh silent st q :
  truthy (FIXED_QUOTES !! dateKeyOf d) = false →
  forceRefresh = true ∨ truthy (localStorage st !! cacheKeyOf d) = false →
  fst (generateQuoteOfDay d (aiCalls st)) = Fulfilled q →
  let r := loadQuoteByDate d forceRefresh silent st in
  fst r = Fulfilled ()
  ∧ currentQuote (snd r) = q
  ∧ selectedDateKey (snd r) = Some (dateKeyOf d)
  ∧ localStorage (snd r) = <[cacheKeyOf d := JSON_stringify q]> (localStorage st)
  ∧ aiCalls (snd r) = S (aiCalls st).
Proof.
  intros Hk Hc Hq. apply generation_path_condition in Hc.
  rewrite generateQuoteOfDay_generated in Hq by exact Hk. cbn [fst] in Hq.
  cbv zeta. unfold loadQuoteByDate.
  rewrite Hk.
  destruct silent; cbn [negb setLoading localStorage aiCalls];
    rewrite Hc, generateQuoteOfDay_generated by exact Hk;
    rewrite Hq; repeat split.
Qed.

Lemma loadQuoteByDate'_generates d forceRefresh st q :
  truthy (FIXED_QUOTES !! dateKeyOf d) = false →
  forceRefresh = true ∨ truthy (localStorage st !! cacheKeyOf d) = false →
  fst (generateQuoteOfDay d (aiCalls st)) = Fulfilled q →
  let r := loadQuoteByDate' d forceRefresh st in
  fst r = Fulfilled ()
  ∧ currentQuote (snd r) = q
  ∧ selectedDateKey (snd r) = Some (dateKeyOf d)
  ∧ localStorage (snd r) = <[cacheKeyOf d := JSON_stringify q]> (localStorage st)
  ∧ aiCalls (snd r) = S (aiCalls st).
Proof.
  intros Hk Hc Hq. apply generation_path_condition in Hc.
  rewrite generateQuoteOfDay_generated in Hq by exact Hk. cbn [fst] in Hq.
  cbv zeta. unfold loadQuoteByDate'.
  rewrite Hk. cbn [negb setLoading localStorage aiCalls].
  rewrite Hc, generateQuoteOfDay_generated by exact Hk.
  rewrite Hq. repeat split.
Qed.

(** What it does when it serves the cache. *)
Lemma loadQuoteByDate_cached d silent st text q :
  truthy (FIXED_QUOTES !! dateKeyOf d) = false →
  localStorage st !! cacheKeyOf d = Some text →
  text ≠ "" →
  JSON_parse text = Some q →
  let r := loadQuoteByDate d false silent st in
  fst r = Fulfilled ()
  ∧ currentQuote (snd r) = q
  ∧ localStorage (snd r) = localStorage st
  ∧ aiCalls (snd r) = aiCalls st.
Proof.
  intros Hk Hc Ht Hq. cbv zeta. unfold loadQuoteByDate. rewrite Hk.
  destruct silent; cbn [negb setLoading localStorage aiCalls andb];
    rewrite Hc, (truthy_Some _ Ht); unfold default; cbn [from_option id]; rewrite Hq; repeat split.
Qed.

Lemma loadQuoteByDate'_cached d st text q :
  truthy (FIXED_QUOTES !! dateKeyOf d) = false →
  localStorage st !! cacheKeyOf d = Some text →
  text ≠ "" →
  JSON_parse text = Some q →
  let r := loadQuoteByDate' d false st in
  fst r = Fulfilled ()
  ∧ currentQuote (snd r) = q
  ∧ localStorage (snd r) = localStorage st
  ∧ aiCalls (snd r) = aiCalls st.
Proof.
  intros Hk Hc Ht Hq. cbv zeta. unfold loadQuoteByDate'. rewrite Hk.
  cbn [negb setLoading localStorage aiCalls andb].
  rewrite Hc, (truthy_Some _ Ht); unfold default; cbn [from_option id]; rewrite Hq; repeat split.
Qed.

(** C2 (as amended): for a date whose key is absent from the fixed dataset,
    when the generation call is reached and fails (the request rejects, or
    the response text is missing, empty or does not parse),
    [generateQuoteOfDay] is fulfilled with the hardcoded fallback record, and
    [loadQuoteByDate] is fulfilled as well, in both revisions, and shows the
    fallback record: the failure does not reach the caller. *)
Theorem failed_generation_falls_back (d : Date) (forceRefresh silent : bool) (st : App) :
  FIXED_QUOTES !! dateKeyOf d = None →
  generationFails (ai (aiCalls st)) →
  forceRefresh = true ∨ truthy (localStorage st !! cacheKeyOf d) = false →
  fst (generateQuoteOfDay d (aiCalls st)) = Fulfilled (Some (record fallbackQuote))
  ∧ (let r := loadQuoteByDate d forceRefresh silent st in
     fst r = Fulfilled ()
     ∧ currentQuote (snd r) = Some (record fallbackQuote))
  ∧ (let r := loadQuoteByDate' d forceRefresh st in
     fst r = Fulfilled ()
     ∧ currentQuote (snd r) = Some (record fallbackQuote)).
Proof.
  intros Hk Hf Hc.
  pose proof (truthy_None_lookup _ _ Hk) as Hk'.
  assert (Hq : fst (generateQuoteOfDay d (aiCalls st)) = Fulfilled (Some (record fallbackQuote)))
    by (rewrite generateQuoteOfDay_fallback by assumption; reflexivity).
  split; [exact Hq|]. split.
  - destruct (loadQuoteByDate_generates d forceRefresh silent st _ Hk' Hc Hq)
      as (H1 & H2 & _).
    cbv zeta. rewrite H1, H2. repeat split.
  - destruct (loadQuoteByDate'_generates d forceRefresh st _ Hk' Hc Hq)
      as (H1 & H2 & _).
    cbv zeta. rewrite H1, H2. repeat split.
Qed.

(** C3: for a date absent from the fixed dataset, with [q] the value
    generation yields: a first load with no cache entry sends one request,
    shows [q] and stores its serialisation under the cache key of the date;
    a following load with [forceRefresh = false] shows exactly [q] again
    (the JSON collaborator reads back what it wrote) and sends no request;
    and a load with [forceRefresh = true] sends a request whatever the cache
    holds.  Both revisions of [loadQuoteByDate]. *)
Theorem generation_is_cached (d : Date) (forceRefresh silent silent2 : bool) (st : App) :
  FIXED_QUOTES !! dateKeyOf d = None →
  ∃ q,
    fst (generateQuoteOfDay d (aiCalls st)) = Fulfilled q
    ∧ (let first := snd (loadQuoteByDate d forceRefresh silent st) in
       let second := loadQuoteByDate d false silent2 first in
       let forced := snd (loadQuoteByDate d true silent st) in
       (localStorage st !! cacheKeyOf d = None →
        aiCalls first = S (aiCalls st)
        ∧ currentQuote first = q
        ∧ localStorage first !! cacheKeyOf d = Some (JSON_stringify q)
        ∧ (JSON_stringify q ≠ "" → JSON_parse (JSON_stringify q) = Some q →
           fst second = Fulfilled ()
           ∧ currentQuote (snd second) = q
           ∧ aiCalls (snd second) = aiCalls first))
       ∧ aiCalls forced = S (aiCalls st)
       ∧ currentQuote forced = q
       ∧ localStorage forced !! cacheKeyOf d = Some (JSON_stringify q))
    ∧ (let first := snd (loadQuoteByDate' d forceRefresh st) in
       let second := loadQuoteByDate' d false first in
       let forced := snd (loadQuoteByDate' d true st) in
       (localStorage st !! cacheKeyOf d = None →
        aiCalls first = S (aiCalls st)
        ∧ currentQuote first = q
        ∧ localStorage first !! cacheKeyOf d = Some (JSON_stringify q)
        ∧ (JSON_stringify q ≠ "" → JSON_parse (JSON_stringify q) = Some q →
           fst second = Fulfilled ()
           ∧ currentQuote (snd second) = q
           ∧ aiCalls (snd second) = aiCalls first))
       ∧ aiCalls forced = S (aiCalls st)
       ∧ currentQuote forced = q
       ∧ localStorage forced !! cacheKeyOf d = Some (JSON_stringify q)).
Proof.
  intros Hk. pose proof (truthy_None_lookup _ _ Hk) as Hk'.
  destruct (generateQuoteOfDay_settles d (aiCalls st)) as (q & Hq).
  exists q. split; [exact Hq|]. cbv zeta. split.
  - split.
    + intros Hnone.
      destruct (loadQuoteByDate_generates d forceRefresh silent st q Hk'
                  (or_intror (truthy_None_lookup _ _ Hnone)) Hq)
        as (_ & H2 & _ & H4 & H5).
      rewrite H5, H2, H4, lookup_insert_eq.
      do 3 (split; [reflexivity|]). intros Hne Hrt.
      destruct (loadQuoteByDate_cached d silent2
                  (snd (loadQuoteByDate d forceRefresh silent st)) (JSON_stringify q) q Hk')
        as (G1 & G2 & _ & G4);
        [rewrite H4; apply lookup_insert_eq | exact Hne | exact Hrt | ].
      rewrite G1, G2, G4, H5. repeat split.
    + destruct (loadQuoteByDate_generates d true silent st q Hk' (or_introl eq_refl) Hq)
        as (_ & H2 & _ & H4 & H5).
      rewrite H5, H2, H4, lookup_insert_eq. repeat split.
  - split.
    + intros Hnone.
      destruct (loadQuoteByDate'_generates d forceRefresh st q Hk'
                  (or_intror (truthy_None_lookup _ _ Hnone)) Hq)
        as (_ & H2 & _ & H4 & H5).
      rewrite H5, H2, H4, lookup_insert_eq.
      do 3 (split; [reflexivity|]). intros Hne Hrt.
      destruct (loadQuoteByDate'_cached d (snd (loadQuoteByDate' d forceRefresh st)) (JSON_stringify q) q Hk')
        as (G1 & G2 & _ & G4);
        [rewrite H4; apply lookup_insert_eq | exact Hne | exact Hrt | ].
      rewrite G1, G2, G4, H5. repeat split.
    + destruct (loadQuoteByDate'_generates d true st q Hk' (or_introl eq_refl) Hq)
        as (_ & H2 & _ & H4 & H5).
      rewrite H5, H2, H4, lookup_insert_eq. repeat split.
Qed.

Lemma isQuote_record (q : Quote) : isQuote (Some (record q)) = true.
Proof.
  unfold isQuote, record. cbn [ownProperty String.eqb Ascii.eqb Bool.eqb isString andb].
  cbn. induction (tags q) as [|t l IH]; [reflexivity | exact IH].
Qed.

(** C9 (as amended): [generateQuoteOfDay] always settles as fulfilled, never
    as rejected.  For a date with a non-empty fixed text the value is the
    record of that text.  Otherwise a request is sent: when it fails (it
    rejects, or the response text is missing, empty or does not parse) the
    value is the hardcoded fallback record; when the response text parses,
    the value is what [JSON.parse] returned, as it is: nothing makes it a
    record of [Quote].  Hence whenever [loadQuoteByDate] reaches the
    generation call, the body of its [try] runs to its end (the value is
    shown, the key selected, the cache written) and its [catch] branch is
    not taken. *)
Theorem generateQuoteOfDay_never_rejects (d : Date) (calls : nat) :
  ∃ q,
    fst (generateQuoteOfDay d calls) = Fulfilled q
    ∧ (∀ text, FIXED_QUOTES !! dateKeyOf d = Some text → text ≠ "" →
         q = Some (record (fixedQuote text)) ∧ isQuote q = true)
    ∧ (truthy (FIXED_QUOTES !! dateKeyOf d) = false →
       generationFails (ai calls) →
       q = Some (record
                   {| quote := "위대한 업적은 대개 커다란 희생을 치른 결과이다.";
                      author := ""; meaning := ""; tags := [] |})
       ∧ isQuote q = true)
    ∧ (truthy (FIXED_QUOTES !! dateKeyOf d) = false →
       ∀ jsonText v,
         ai calls = AiResponds (Some jsonText) → jsonText ≠ "" →
         JSON_parse jsonText = Some v →
         q = v)
    ∧ (∀ forceRefresh silent st,
         aiCalls st = calls →
         truthy (FIXED_QUOTES !! dateKeyOf d) = false →
         forceRefresh = true ∨ truthy (localStorage st !! cacheKeyOf d) = false →
         (let r := loadQuoteByDate d forceRefresh silent st in
          fst r = Fulfilled ()
          ∧ currentQuote (snd r) = q
          ∧ selectedDateKey (snd r) = Some (dateKeyOf d)
          ∧ localStorage (snd r) !! cacheKeyOf d = Some (JSON_stringify q))
         ∧ (let r := loadQuoteByDate' d forceRefresh st in
            fst r = Fulfilled ()
            ∧ currentQuote (snd r) = q
            ∧ selectedDateKey (snd r) = Some (dateKeyOf d)
            ∧ localStorage (snd r) !! cacheKeyOf d = Some (JSON_stringify q))).
Proof.
  destruct (generateQuoteOfDay_settles d calls) as (q & Hq).
  exists q. split; [exact Hq|]. split; [|split; [|split]].
  - intros text Hk Ht. rewrite (generateQuoteOfDay_fixed d text calls Hk Ht) in Hq.
    cbn [fst] in Hq. injection Hq as <-. split; [reflexivity | apply isQuote_record].
  - intros Hk Hf. rewrite generateQuoteOfDay_fallback in Hq by assumption.
    cbn [fst] in Hq. injection Hq as <-. split; [reflexivity | apply isQuote_record].
  - intros Hk jsonText v Hai Ht Hv.
    rewrite generateQuoteOfDay_generated in Hq by exact Hk.
    cbn [fst] in Hq. unfold requestQuote in Hq. rewrite Hai in Hq.
    cbn [await_generateContent] in Hq.
    change (mret (Some jsonText) ≫= _) with
      (if negb (truthy (Some jsonText)) then throw (Error "Empty response")
       else match JSON_parse (default "" (Some jsonText)) with
            | Some v0 => mret v0
            | None => @throw (option Value) SyntaxError
            end) in Hq.
    rewrite (truthy_Some _ Ht) in Hq. cbn [negb] in Hq.
    change (default "" (Some jsonText)) with jsonText in Hq. rewrite Hv in Hq.
    injection Hq as <-. reflexivity.
  - intros forceRefresh silent st <- Hk Hc. split.
    + destruct (loadQuoteByDate_generates d forceRefresh silent st q Hk Hc Hq)
        as (H1 & H2 & H3 & H4 & _).
      cbv zeta. rewrite H1, H2, H3, H4, lookup_insert_eq. repeat split.
    + destruct (loadQuoteByDate'_generates d forceRefresh st q Hk Hc Hq)
        as (H1 & H2 & H3 & H4 & _).
      cbv zeta. rewrite H1, H2, H3, H4, lookup_insert_eq. repeat split.
Qed.

End Resolver.

(** ** Notes and favourites *)

Section Handlers.

Context {dataset : Dataset} {generation : Generation}.
Context {JSON_Quote : JSON (option Value)}.
Context {JSON_favorites : JSON (list StoredQuote)}.
Context {JSON_notes : JSON (gmap string string)}.

(** Case analysis over every branch of a handler. *)
Ltac branches :=
  repeat match goal with
         | |- context [if ?b then _ else _] => destruct b
         | |- context [match ?x with _ => _ end] => destruct x
         end.

(** What the quote handlers leave alone. *)
Lemma loadQuoteByDate_keeps d forceRefresh silent st :
  let st' := snd (loadQuoteByDate d forceRefresh silent st) in
  notes st' = notes st ∧ noteText st' = noteText st ∧ favorites st' = favorites st.
Proof.
  cbv zeta. unfold loadQuoteByDate, generateQuoteOfDay. branches; repeat split.
Qed.

Lemma loadQuoteByDate'_keeps d forceRefresh st :
  let st' := snd (loadQuoteByDate' d forceRefresh st) in
  notes st' = notes st ∧ noteText st' = noteText st ∧ favorites st' = favorites st.
Proof.
  cbv zeta. unfold loadQuoteByDate', generateQuoteOfDay. branches; repeat split.
Qed.

Lemma handleBookNavigate_keeps now dir st :
  let st' := handleBookNavigate now dir st in
  notes st' = notes st ∧ noteText st' = noteText st ∧ favorites st' = favorites st.
Proof.
  cbv zeta. unfold handleBookNavigate.
  destruct (negb (truthy (selectedDateKey st))); [repeat split|].
  cbv zeta.
  match goal with
  | |- context [loadQuoteByDate ?d ?f ?s ?st0] =>
      destruct (loadQuoteByDate_keeps d f s st0) as (-> & -> & ->)
  end.
  repeat split.
Qed.

Lemma handleBookNavigate'_keeps now dir st :
  let st' := handleBookNavigate' now dir st in
  notes st' = notes st ∧ noteText st' = noteText st ∧ favorites st' = favorites st.
Proof.
  cbv zeta. unfold handleBookNavigate'.
  destruct (negb (truthy (selectedDateKey st))); [repeat split|].
  cbv zeta.
  match goal with
  | |- context [loadQuoteByDate' ?d ?f ?st0] =>
      destruct (loadQuoteByDate'_keeps d f st0) as (-> & -> & ->)
  end.
  repeat split.
Qed.

Lemma toggleFavorite_keeps now millis st :
  let st' := toggleFavorite now millis st in
  notes st' = notes st ∧ noteText st' = noteText st.
Proof. cbv zeta. unfold toggleFavorite. branches; repeat split. Qed.

Lemma removeFavorite_keeps i st :
  let st' := removeFavorite i st in
  notes st' = notes st ∧ noteText st' = noteText st.
Proof. cbv zeta. unfold removeFavorite. branches; repeat split. Qed.

(** The two branches of [handleSaveNote]. *)
Lemma handleSaveNote_blank now st :
  trim (noteText st) = "" →
  notes (handleSaveNote now st) = delete (currentNoteDateKey now st) (notes st).
Proof. intros H. unfold handleSaveNote. rewrite H. reflexivity. Qed.

Lemma handleSaveNote_text now st :
  trim (noteText st) ≠ "" →
  notes (handleSaveNote now st)
  = <[currentNoteDateKey now st := appendSignature (trim (noteText st)) (DateAt now)]>
      (notes st).
Proof.
  intros H. unfold handleSaveNote.
  destruct (trim (noteText st)) eqn:Ht; [congruence|]. reflexivity.
Qed.

Lemma handleSaveNote_noteText now st : noteText (handleSaveNote now st) = noteText st.
Proof. unfold handleSaveNote. branches; reflexivity. Qed.

Lemma appendSignature_oneSignature t now :
  fourDigitYear now → hasSignature (trim t) = false →
  oneSignature (appendSignature (trim t) (DateAt now)).
Proof.
  intros Hnow Ht. pose proof (signature_accepted _ Hnow) as Hs.
  unfold oneSignature, appendSignature.
  rewrite hasSignature_app, stripSignature_app, trim_idempotent by exact Hs.
  repeat split; exact Ht.
Qed.

Lemma dispatch_keeps_signed e st :
  plainEvent e →
  notesSigned st ∧ editorPlain (noteText st) →
  notesSigned (dispatch e st) ∧ editorPlain (noteText (dispatch e st)).
Proof.
  intros He [Hn Ht]. destruct e as [d f s|d f|now dir|now dir|now ms|i|now|text|now];
    cbn [dispatch plainEvent] in *.
  - destruct (loadQuoteByDate_keeps d f s st) as (H1 & H2 & _).
    unfold notesSigned. cbv zeta in *. rewrite H1, H2. auto.
  - destruct (loadQuoteByDate'_keeps d f st) as (H1 & H2 & _).
    unfold notesSigned. cbv zeta in *. rewrite H1, H2. auto.
  - destruct (handleBookNavigate_keeps now dir st) as (H1 & H2 & _).
    unfold notesSigned. cbv zeta in *. rewrite H1, H2. auto.
  - destruct (handleBookNavigate'_keeps now dir st) as (H1 & H2 & _).
    unfold notesSigned. cbv zeta in *. rewrite H1, H2. auto.
  - destruct (toggleFavorite_keeps now ms st) as (H1 & H2).
    unfold notesSigned. cbv zeta in *. rewrite H1, H2. auto.
  - destruct (removeFavorite_keeps i st) as (H1 & H2).
    unfold notesSigned. cbv zeta in *. rewrite H1, H2. auto.
  - split; [exact Hn|].
    unfold handleOpenNote, editorPlain. cbn [noteText setIsNoteModalOpen setNoteText].
    destruct (notes st !! currentNoteDateKey now st) as [n|] eqn:Hk.
    + apply (Hn _ _ Hk).
    + reflexivity.
  - split; [exact Hn | exact He].
  - split; [|rewrite handleSaveNote_noteText; exact Ht].
    destruct (decide (trim (noteText st) = "")) as [Hb|Hb].
    + intros k n. rewrite (handleSaveNote_blank _ _ Hb).
      intros Hk. apply lookup_delete_Some in Hk as [_ Hk]. exact (Hn _ _ Hk).
    + intros k n. rewrite (handleSaveNote_text _ _ Hb).
      intros Hk. apply lookup_insert_Some in Hk as [[_ <-]|[_ Hk]].
      * apply appendSignature_oneSignature; assumption.
      * exact (Hn _ _ Hk).
Qed.

Lemma run_cons e es st : run (e :: es) st = run es (dispatch e st).
Proof. reflexivity. Qed.

(** C5 (as amended): along every sequence of events (notes opened, edited
    and saved, for any dates, with quotes loaded, pages turned and favourites
    toggled in between), provided the text left in the editor never ends
    with a signature once trimmed and every save happens in a year of four
    digits, every stored note keeps exactly one trailing signature: it
    ends with one, and what is left when that one is stripped ends with
    none. *)
Theorem notes_keep_one_signature (es : list Event) (st : App) :
  notesSigned st →
  editorPlain (noteText st) →
  Forall plainEvent es →
  notesSigned (run es st).
Proof.
  intros Hn Ht Hes. revert st Hn Ht.
  induction Hes as [|e es He Hes IH]; intros st Hn Ht; [exact Hn|].
  rewrite run_cons.
  destruct (dispatch_keeps_signed e st He (conj Hn Ht)) as [Hn' Ht'].
  apply IH; assumption.
Qed.

(** C7: when the trimmed text of the editor is empty, [handleSaveNote]
    deletes the entry of the displayed date from the notes: a date that had
    a note has none afterwards, and nothing is stored in its place. *)
Theorem blank_note_is_deleted (now : Z) (st : App) (old : string) :
  notes st !! currentNoteDateKey now st = Some old →
  trim (noteText st) = "" →
  notes (handleSaveNote now st) !! currentNoteDateKey now st = None
  ∧ notes (handleSaveNote now st) = delete (currentNoteDateKey now st) (notes st).
Proof.
  intros _ Hb. rewrite (handleSaveNote_blank _ _ Hb).
  split; [apply lookup_delete_eq | reflexivity].
Qed.

Lemma cacheKeyOf_not_NOTES_KEY d : cacheKeyOf d ≠ NOTES_KEY.
Proof. unfold cacheKeyOf, NOTES_KEY. rewrite !str_app_cons. discriminate. Qed.

(** C10: [handleSaveNote] changes at most the note of the displayed date.
    On both of its paths the note of every other date key is unchanged, and
    so are the favourites, every local-storage entry other than the notes
    entry (the cache entries of all dates, the bookmark and the stored
    favourites among them), the quote shown and the selected key. *)
Theorem handleSaveNote_frame (now : Z) (st : App) :
  let st' := handleSaveNote now st in
  (∀ k, k ≠ currentNoteDateKey now st → notes st' !! k = notes st !! k)
  ∧ favorites st' = favorites st
  ∧ (∀ k, k ≠ NOTES_KEY → localStorage st' !! k = localStorage st !! k)
  ∧ (∀ d, localStorage st' !! cacheKeyOf d = localStorage st !! cacheKeyOf d)
  ∧ localStorage st' !! BOOKMARK_KEY = localStorage st !! BOOKMARK_KEY
  ∧ localStorage st' !! FAVORITES_KEY = localStorage st !! FAVORITES_KEY
  ∧ currentQuote st' = currentQuote st
  ∧ selectedDateKey st' = selectedDateKey st.
Proof.
  cbv zeta.
  assert (Hls : ∀ k, k ≠ NOTES_KEY →
            localStorage (handleSaveNote now st) !! k = localStorage st !! k).
  { intros k Hk. unfold handleSaveNote.
    destruct (negb (truthy (Some (trim (noteText st)))));
      cbn [localStorage setIsNoteModalOpen showToast setItem setNotes];
      apply lookup_insert_ne; congruence. }
  split.
  { intros k Hk.
    destruct (decide (trim (noteText st) = "")) as [Hb|Hb].
    - rewrite (handleSaveNote_blank _ _ Hb). apply lookup_delete_ne. congruence.
    - rewrite (handleSaveNote_text _ _ Hb). apply lookup_insert_ne. congruence. }
  split; [unfold handleSaveNote; branches; reflexivity|].
  split; [exact Hls|].
  split; [intros d; apply Hls, cacheKeyOf_not_NOTES_KEY|].
  split; [apply Hls; discriminate|].
  split; [apply Hls; discriminate|].
  split; unfold handleSaveNote; branches; reflexivity.
Qed.

(** *** Values that show a text *)

Lemma textOf_record (q : Quote) : textOf (record q) = Some (quote q).
Proof. reflexivity. Qed.

Lemma quoteOf_textOf v t : textOf v = Some t → quoteOf v = Holds (Some (VString t)).
Proof.
  unfold textOf. destruct (quoteOf v) as [|[[]|]]; try discriminate.
  intros H. injection H as ->. reflexivity.
Qed.

(** A value with a [quote] property is an object, hence truthy. *)
Lemma textOf_truthy v t : textOf v = Some t → truthyValue (Some v) = true.
Proof. destruct v; try discriminate. reflexivity. Qed.

(** Against a text, [===] is equality of texts, whatever object holds it. *)
Lemma strictEquals_hasText same f v t :
  textOf v = Some t →
  strictEquals same (quoteOf (data f)) (quoteOf v) = hasText t f.
Proof.
  intros Hv. rewrite (quoteOf_textOf v t Hv). unfold hasText, textOf.
  destruct (quoteOf (data f)) as [|[[]|]]; reflexivity.
Qed.

Lemma savedAs_text shown v t l :
  textOf v = Some t → savedAs shown v l = existsb (hasText t) l.
Proof.
  intros Hv. induction l as [|f l IH]; [reflexivity|].
  cbn [savedAs existsb]. rewrite (strictEquals_hasText _ f v t Hv), IH. reflexivity.
Qed.

Lemma othersThan_text shown v t l :
  textOf v = Some t →
  othersThan shown v l = List.filter (fun f => negb (hasText t f)) l.
Proof.
  intros Hv. induction l as [|f l IH]; [reflexivity|].
  cbn [othersThan List.filter]. rewrite (strictEquals_hasText _ f v t Hv), IH.
  destruct (hasText t f); reflexivity.
Qed.

Lemma othersThanCard_text i fav t j l :
  textOf (data fav) = Some t →
  othersThanCard i fav j l = List.filter (fun f => negb (hasText t f)) l.
Proof.
  intros Hv. revert j. induction l as [|f l IH]; intros j; [reflexivity|].
  cbn [othersThanCard List.filter].
  rewrite (strictEquals_hasText _ f (data fav) t Hv), IH.
  destruct (hasText t f); reflexivity.
Qed.

Lemma existsb_favoriteTexts (t : string) (l : list StoredQuote) :
  existsb (hasText t) l = true ↔ In t (favoriteTexts l).
Proof.
  unfold favoriteTexts. rewrite existsb_exists, <- list_elem_of_In, list_elem_of_omap.
  unfold hasText. split.
  - intros (f & Hin & Hf). exists f. split; [apply list_elem_of_In, Hin|].
    destruct (textOf (data f)) as [t'|]; [|discriminate].
    apply String.eqb_eq in Hf. congruence.
  - intros (f & Hin & Hf). exists f. split; [apply list_elem_of_In, Hin|].
    rewrite Hf. apply String.eqb_refl.
Qed.

(** *** What a filter leaves *)

Lemma favoriteTexts_cons f l :
  favoriteTexts (f :: l)
  = match textOf (data f) with
    | Some t => t :: favoriteTexts l
    | None => favoriteTexts l
    end.
Proof. reflexivity. Qed.

Lemma favoriteTexts_sublist l1 l2 :
  l1 `sublist_of` l2 → favoriteTexts l1 `sublist_of` favoriteTexts l2.
Proof.
  induction 1 as [|f l1 l2 _ IH|f l1 l2 _ IH]; rewrite ?favoriteTexts_cons.
  - constructor.
  - destruct (textOf (data f)); [constructor|]; exact IH.
  - destruct (textOf (data f)); [constructor|]; exact IH.
Qed.

Lemma othersThan_sublist shown v l : othersThan shown v l `sublist_of` l.
Proof.
  induction l as [|f l IH]; cbn [othersThan]; [constructor|].
  destruct (strictEquals _ _ _); constructor; exact IH.
Qed.

Lemma othersThanCard_sublist i fav j l : othersThanCard i fav j l `sublist_of` l.
Proof.
  revert j. induction l as [|f l IH]; intros j; cbn [othersThanCard]; [constructor|].
  destruct (strictEquals _ _ _); constructor; apply IH.
Qed.

Lemma savedAs_false_text shown v t l :
  textOf v = Some t → savedAs shown v l = false → ¬ In t (favoriteTexts l).
Proof.
  intros Hv Hs Hin. apply existsb_favoriteTexts in Hin.
  rewrite (savedAs_text shown v t l Hv) in Hs. congruence.
Qed.

(** The favourites after [toggleFavorite], for a value on screen that shows
    the text [t]. *)
Lemma toggleFavorite_removes now millis st cur t :
  currentQuote st = Some cur →
  textOf cur = Some t →
  In t (favoriteTexts (favorites st)) →
  favorites (toggleFavorite now millis st)
  = List.filter (fun f => negb (hasText t f)) (favorites st).
Proof.
  intros Hc Ht Hin. apply existsb_favoriteTexts in Hin.
  unfold toggleFavorite.
  rewrite Hc, (textOf_truthy _ _ Ht), (savedAs_text _ _ _ _ Ht), Hin.
  cbn [negb favorites setItem setLastFavoriteIsShown setFavorites].
  apply (othersThan_text _ _ _ _ Ht).
Qed.

Lemma toggleFavorite_appends now millis st cur :
  currentQuote st = Some cur →
  truthyValue (Some cur) = true →
  savedAs (lastFavoriteIsShown st) cur (favorites st) = false →
  ∃ f, data f = cur ∧ favorites (toggleFavorite now millis st) = (favorites st ++ [f])%list.
Proof.
  intros Hc Ht Hs. unfold toggleFavorite. rewrite Hc, Ht, Hs.
  eexists. split; [|reflexivity]. reflexivity.
Qed.

Lemma toggleFavorite_idle now millis st :
  currentQuote st = None → toggleFavorite now millis st = st.
Proof. intros Hc. unfold toggleFavorite. rewrite Hc. reflexivity. Qed.

Lemma toggleFavorite_NoDup now millis st :
  NoDup (favoriteTexts (favorites st)) →
  NoDup (favoriteTexts (favorites (toggleFavorite now millis st))).
Proof.
  intros Hnd. unfold toggleFavorite.
  destruct (currentQuote st) as [cur|] eqn:Hc; [|exact Hnd].
  destruct (truthyValue (Some cur)); cbn [negb]; [|exact Hnd].
  destruct (savedAs (lastFavoriteIsShown st) cur (favorites st)) eqn:Hs;
    cbn [favorites setItem setLastFavoriteIsShown setFavorites].
  - apply (sublist_NoDup _ _ Hnd), favoriteTexts_sublist, othersThan_sublist.
  - unfold favoriteTexts. rewrite omap_app. fold (favoriteTexts (favorites st)).
    match goal with
    | |- NoDup (_ ++ omap _ [?f]) =>
        change (omap (λ f0, textOf (data f0)) [f]) with (favoriteTexts [f]);
        rewrite (favoriteTexts_cons f []); cbn [data]
    end.
    destruct (textOf cur) as [t|] eqn:Ht; [|rewrite app_nil_r; exact Hnd].
    change (favoriteTexts []) with (@nil string).
    apply NoDup_app. split; [exact Hnd|]. split; [|apply NoDup_singleton].
    intros x Hx Hx'. apply list_elem_of_singleton in Hx'. subst x.
    apply (savedAs_false_text _ _ _ _ Ht Hs), list_elem_of_In, Hx.
Qed.

Lemma dispatch_keeps_NoDup e st :
  NoDup (favoriteTexts (favorites st)) →
  NoDup (favoriteTexts (favorites (dispatch e st))).
Proof.
  intros Hnd. destruct e as [d f s|d f|now dir|now dir|now ms|i|now|text|now];
    cbn [dispatch].
  - destruct (loadQuoteByDate_keeps d f s st) as (_ & _ & H). cbv zeta in H.
    rewrite H. exact Hnd.
  - destruct (loadQuoteByDate'_keeps d f st) as (_ & _ & H). cbv zeta in H.
    rewrite H. exact Hnd.
  - destruct (handleBookNavigate_keeps now dir st) as (_ & _ & H). cbv zeta in H.
    rewrite H. exact Hnd.
  - destruct (handleBookNavigate'_keeps now dir st) as (_ & _ & H). cbv zeta in H.
    rewrite H. exact Hnd.
  - apply toggleFavorite_NoDup, Hnd.
  - unfold removeFavorite. destruct (favorites st !! i); [|exact Hnd].
    cbn [favorites showToast setItem setLastFavoriteIsShown setFavorites].
    apply (sublist_NoDup _ _ Hnd), favoriteTexts_sublist, othersThanCard_sublist.
  - exact Hnd.
  - exact Hnd.
  - unfold handleSaveNote. branches; exact Hnd.
Qed.

(** C8: the favourites are keyed by quote text and kept in insertion
    order.  Starting from favourites without two entries of the same text
    (the empty list of a first start among them), no two entries share a
    text after any sequence of events; toggling a quote whose text is
    stored removes every entry with that text and keeps the others in order;
    toggling a quote whose text is not stored appends exactly one entry, for
    that quote, at the end.  A quote here is any value on screen whose
    [quote] is a text, a record of [Quote] among them. *)
Theorem favorites_keyed_by_text (es : list Event) (st : App) :
  NoDup (favoriteTexts (favorites st)) →
  NoDup (favoriteTexts (favorites (run es st)))
  ∧ (∀ now millis st0 cur t,
       currentQuote st0 = Some cur →
       textOf cur = Some t →
       (In t (favoriteTexts (favorites st0)) →
        favorites (toggleFavorite now millis st0)
        = List.filter (fun f => negb (hasText t f)) (favorites st0)
        ∧ ¬ In t (favoriteTexts (favorites (toggleFavorite now millis st0))))
       ∧ (¬ In t (favoriteTexts (favorites st0)) →
          ∃ f, data f = cur
               ∧ favorites (toggleFavorite now millis st0) = (favorites st0 ++ [f])%list)).
Proof.
  intros Hnd. split.
  - revert st Hnd. induction es as [|e es IH]; intros st Hnd; [exact Hnd|].
    rewrite run_cons. apply IH, dispatch_keeps_NoDup, Hnd.
  - intros now millis st0 cur t Hc Ht. split.
    + intros Hin. rewrite (toggleFavorite_removes _ _ _ _ _ Hc Ht Hin).
      split; [reflexivity|].
      intros Hin'. apply existsb_favoriteTexts, existsb_exists in Hin'.
      destruct Hin' as (f & Hfin & Hf).
      apply filter_In in Hfin as [_ Hneq]. rewrite Hf in Hneq. discriminate Hneq.
    + intros Hin. apply toggleFavorite_appends; [exact Hc | exact (textOf_truthy _ _ Ht) |].
      rewrite (savedAs_text _ _ _ _ Ht).
      destruct (existsb (hasText t) (favorites st0)) eqn:He; [|reflexivity].
      apply existsb_favoriteTexts in He. contradiction.
Qed.

End Handlers.

(** ** The properties on concrete inputs *)

(** 5 March 2024 has a year of four digits. *)
Lemma fourDigitYear_2024_3_5 : fourDigitYear (days_from_civil 2024 3 5).
Proof. exists 2024. split; [reflexivity | lia]. Defined.

(** C1 at 5 March with a dataset that has a text for 3/5, a forced refresh
    and a service that is down. *)
Lemma fixed_quote_resolution_witness :
  generateQuoteOfDay (dataset := sampleDataset) (generation := aiDown)
    (JSON_Quote := stubJSON_Quote) (civil 2024 3 5) 0
  = (Fulfilled (Some (record (fixedQuote "오늘의 문장"))), 0%nat)
  ∧ currentQuote
      (snd (loadQuoteByDate (dataset := sampleDataset) (generation := aiDown)
              (JSON_Quote := stubJSON_Quote) (civil 2024 3 5) true false initialApp))
    = Some (record (fixedQuote "오늘의 문장")).
Proof.
  destruct (fixed_quote_resolution (dataset := sampleDataset) (generation := aiDown)
              (JSON_Quote := stubJSON_Quote)
              (civil 2024 3 5) "오늘의 문장" true false initialApp 0)
    as (H1 & (_ & H2 & _) & _).
  - vm_compute. reflexivity.
  - discriminate.
  - split; [exact H1 | exact H2].
Defined.

(** C1 as stated fails for a key whose text in the dataset is empty: the
    key is present, yet generation is invoked and its quote is shown. *)
Lemma blank_fixed_text_is_not_served :
  @FIXED_QUOTES blankEntryDataset !! dateKeyOf (civil 2025 1 1) = Some ""
  ∧ generateQuoteOfDay (dataset := blankEntryDataset)
      (generation := aiAnswers "Qgenerated") (JSON_Quote := stubJSON_Quote)
      (civil 2025 1 1) 0
    = (Fulfilled (Some (record (fixedQuote "generated"))), 1%nat)
  ∧ currentQuote
      (snd (loadQuoteByDate (dataset := blankEntryDataset)
              (generation := aiAnswers "Qgenerated") (JSON_Quote := stubJSON_Quote)
              (civil 2025 1 1) false false initialApp))
    = Some (record (fixedQuote "generated"))
  ∧ aiCalls
      (snd (loadQuoteByDate (dataset := blankEntryDataset)
              (generation := aiAnswers "Qgenerated") (JSON_Quote := stubJSON_Quote)
              (civil 2025 1 1) false false initialApp))
    = 1%nat.
Proof. vm_compute. repeat split. Qed.

(** C2 on 1 January with an empty dataset, an empty cache and a service
    that is down. *)
Lemma failed_generation_falls_back_witness :
  fst (loadQuoteByDate (dataset := emptyDataset) (generation := aiDown)
         (JSON_Quote := stubJSON_Quote) (civil 2025 1 1) false false initialApp)
  = Fulfilled ()
  ∧ currentQuote
      (snd (loadQuoteByDate (dataset := emptyDataset) (generation := aiDown)
              (JSON_Quote := stubJSON_Quote) (civil 2025 1 1) false false initialApp))
    = Some (record fallbackQuote).
Proof.
  destruct (failed_generation_falls_back (dataset := emptyDataset) (generation := aiDown)
              (JSON_Quote := stubJSON_Quote) (civil 2025 1 1) false false initialApp)
    as (_ & (H1 & H2) & _).
  - reflexivity.
  - exact I.
  - right. reflexivity.
  - split; [exact H1 | exact H2].
Defined.

(** C2 as stated fails twice.  With a service that fails once and answers
    from then on, the failed generation leaves the fallback record in the
    cache entry of the date, and the next load serves it from there: no
    second request is sent, and the fallback is shown again.  And a payload
    that parses is not a failure to the code, however it is formed: for the
    response text [42] the number 42 is returned and shown, not the
    fallback. *)
Lemma failed_generation_is_cached :
  @FIXED_QUOTES emptyDataset !! dateKeyOf (civil 2025 1 1) = None
  ∧ localStorage initialApp !! cacheKeyOf (civil 2025 1 1) = None
  ∧ localStorage
      (snd (loadQuoteByDate (dataset := emptyDataset) (generation := aiRecovers)
              (JSON_Quote := stubJSON_Quote) (civil 2025 1 1) false false initialApp))
    !! "quote_cache_v5_1_1"
    = Some (JSON_stringify (JSON := stubJSON_Quote) (Some (record fallbackQuote)))
  ∧ aiCalls
      (snd (loadQuoteByDate (dataset := emptyDataset) (generation := aiRecovers)
              (JSON_Quote := stubJSON_Quote) (civil 2025 1 1) false false
              (snd (loadQuoteByDate (dataset := emptyDataset) (generation := aiRecovers)
                      (JSON_Quote := stubJSON_Quote) (civil 2025 1 1) false false
                      initialApp))))
    = 1%nat
  ∧ currentQuote
      (snd (loadQuoteByDate (dataset := emptyDataset) (generation := aiRecovers)
              (JSON_Quote := stubJSON_Quote) (civil 2025 1 1) false false
              (snd (loadQuoteByDate (dataset := emptyDataset) (generation := aiRecovers)
                      (JSON_Quote := stubJSON_Quote) (civil 2025 1 1) false false
                      initialApp))))
    = Some (record fallbackQuote)
  ∧ aiRecovers 1%nat = AiResponds (Some "Qrecovered")
  ∧ fst (generateQuoteOfDay (dataset := emptyDataset) (generation := aiAnswers "42")
           (JSON_Quote := stubJSON_Quote) (civil 2025 1 1) 0)
    = Fulfilled (Some (VNumber 42))
  ∧ currentQuote
      (snd (loadQuoteByDate (dataset := emptyDataset) (generation := aiAnswers "42")
              (JSON_Quote := stubJSON_Quote) (civil 2025 1 1) false false initialApp))
    = Some (VNumber 42)
  ∧ isQuote (Some (VNumber 42)) = false.
Proof. vm_compute. repeat split. Qed.

(** C3 on 1 January with an empty dataset, an empty cache and a service
    that answers. *)
Lemma generation_is_cached_witness :
  ∃ q,
    currentQuote
      (snd (loadQuoteByDate (dataset := emptyDataset) (generation := aiAnswers "Qhello")
              (JSON_Quote := stubJSON_Quote) (civil 2025 1 1) false true initialApp))
    = q
    ∧ currentQuote
        (snd (loadQuoteByDate (dataset := emptyDataset)
                (generation := aiAnswers "Qhello") (JSON_Quote := stubJSON_Quote)
                (civil 2025 1 1) false false
                (snd (loadQuoteByDate (dataset := emptyDataset)
                        (generation := aiAnswers "Qhello") (JSON_Quote := stubJSON_Quote)
                        (civil 2025 1 1) false true initialApp))))
      = q
    ∧ aiCalls
        (snd (loadQuoteByDate (dataset := emptyDataset)
                (generation := aiAnswers "Qhello") (JSON_Quote := stubJSON_Quote)
                (civil 2025 1 1) false false
                (snd (loadQuoteByDate (dataset := emptyDataset)
                        (generation := aiAnswers "Qhello") (JSON_Quote := stubJSON_Quote)
                        (civil 2025 1 1) false true initialApp))))
      = 1%nat.
Proof.
  destruct (generation_is_cached (dataset := emptyDataset)
              (generation := aiAnswers "Qhello") (JSON_Quote := stubJSON_Quote)
              (civil 2025 1 1) false true false initialApp)
    as (q & Hq & ((Hfirst & _) & _)); [reflexivity|].
  destruct (Hfirst eq_refl) as (Hcalls & Hcur & _ & Hsecond).
  assert (Hq' : q = Some (record (fixedQuote "hello"))).
  { vm_compute in Hq. injection Hq as <-. reflexivity. }
  destruct Hsecond as (_ & Hcur2 & Hcalls2).
  - rewrite Hq'. discriminate.
  - rewrite Hq'. reflexivity.
  - exists q. split; [exact Hcur|]. split; [exact Hcur2|].
    rewrite Hcalls2. exact Hcalls.
Defined.

(** C9 as stated fails for a response text that parses to something other
    than a record.  On 1 January with an empty dataset: for the text [null]
    the promise is fulfilled with [null], which is then put on screen and
    written to the cache; for a text that denotes an object with a [quote]
    property only, with that object.  Neither is a record of [Quote], and
    neither is the fallback. *)
Lemma generateQuoteOfDay_returns_what_parses :
  @FIXED_QUOTES emptyDataset !! dateKeyOf (civil 2025 1 1) = None
  ∧ fst (generateQuoteOfDay (dataset := emptyDataset) (generation := aiAnswers "null")
           (JSON_Quote := stubJSON_Quote) (civil 2025 1 1) 0)
    = Fulfilled None
  ∧ isQuote None = false
  ∧ currentQuote
      (snd (loadQuoteByDate (dataset := emptyDataset) (generation := aiAnswers "null")
              (JSON_Quote := stubJSON_Quote) (civil 2025 1 1) false false initialApp))
    = None
  ∧ localStorage
      (snd (loadQuoteByDate (dataset := emptyDataset) (generation := aiAnswers "null")
              (JSON_Quote := stubJSON_Quote) (civil 2025 1 1) false false initialApp))
    !! "quote_cache_v5_1_1"
    = Some "null"
  ∧ fst (generateQuoteOfDay (dataset := emptyDataset) (generation := aiAnswers "Ppartial")
           (JSON_Quote := stubJSON_Quote) (civil 2025 1 1) 0)
    = Fulfilled (Some (VObject [("quote", Some (VString "partial"))]))
  ∧ isQuote (Some (VObject [("quote", Some (VString "partial"))])) = false.
Proof. vm_compute. repeat split. Qed.

(** C4 on the text of the specification. *)
Lemma signature_round_trip_law_witness :
  stripSignature (appendSignature "hello" (civil 2024 3 5)) = "hello".
Proof.
  apply signature_round_trip_law; [reflexivity | exact fourDigitYear_2024_3_5].
Defined.

(** C4 as stated fails in the year 10000: the signature has a year of five
    digits, the regular expression does not recognise it, and stripping
    leaves the text with its signature. *)
Lemma signature_round_trip_fails_in_year_10000 :
  hasSignature "hello" = false
  ∧ getFullYear (civil 10000 1 1) = Num 10000
  ∧ stripSignature (appendSignature "hello" (civil 10000 1 1))
    = "hello" +:+ String LF (String LF " — 10000. 1. 1.")
  ∧ String.eqb (stripSignature (appendSignature "hello" (civil 10000 1 1))) "hello"
    = false.
Proof. vm_compute. repeat split. Qed.

(** C5 on two saves of different texts for 5 March 2024, the note reopened
    in between. *)
Lemma notes_keep_one_signature_witness :
  notesSigned
    (run (dataset := emptyDataset) (generation := aiDown)
       (JSON_Quote := stubJSON_Quote) (JSON_favorites := stubJSON_favorites)
       (JSON_notes := stubJSON_notes)
       [EditNote "first"; SaveNote (days_from_civil 2024 3 5);
        OpenNote (days_from_civil 2024 3 5);
        EditNote " second "; SaveNote (days_from_civil 2024 3 5)]
       initialApp).
Proof.
  apply notes_keep_one_signature.
  - intros k n Hk. cbn [notes initialApp] in Hk. rewrite lookup_empty in Hk.
    discriminate Hk.
  - reflexivity.
  - repeat constructor; try reflexivity; exact fourDigitYear_2024_3_5.
Defined.

(** The note those two saves leave. *)
Example two_saves_leave_one_signature :
  notes
    (run (dataset := emptyDataset) (generation := aiDown)
       (JSON_Quote := stubJSON_Quote) (JSON_favorites := stubJSON_favorites)
       (JSON_notes := stubJSON_notes)
       [EditNote "first"; SaveNote (days_from_civil 2024 3 5);
        OpenNote (days_from_civil 2024 3 5);
        EditNote " second "; SaveNote (days_from_civil 2024 3 5)]
       initialApp)
  !! "2024-03-05"
  = Some ("second" +:+ String LF (String LF " — 2024. 3. 5.")).
Proof. vm_compute. reflexivity. Qed.

(** C5 as stated fails in two ways.  A text typed with a signature at its
    end is stored with a second one after it.  And in the year 10000 the
    stored signature is not recognised: the note is reopened with it, and
    saving again appends another. *)
Lemma signatures_are_compounded :
  notes
    (run (dataset := emptyDataset) (generation := aiDown)
       (JSON_Quote := stubJSON_Quote) (JSON_favorites := stubJSON_favorites)
       (JSON_notes := stubJSON_notes)
       [EditNote ("a" +:+ String LF (String LF " — 2024. 1. 1."));
        SaveNote (days_from_civil 2024 3 5)]
       initialApp)
  !! "2024-03-05"
  = Some ("a" +:+ String LF (String LF " — 2024. 1. 1.")
              +:+ String LF (String LF " — 2024. 3. 5."))
  ∧ hasSignature
      (stripSignature
         ("a" +:+ String LF (String LF " — 2024. 1. 1.")
              +:+ String LF (String LF " — 2024. 3. 5.")))
    = true
  ∧ notes
      (run (dataset := emptyDataset) (generation := aiDown)
         (JSON_Quote := stubJSON_Quote) (JSON_favorites := stubJSON_favorites)
         (JSON_notes := stubJSON_notes)
         [EditNote "a"; SaveNote (days_from_civil 10000 1 1);
          OpenNote (days_from_civil 10000 1 1); SaveNote (days_from_civil 10000 1 1)]
         initialApp)
    !! "10000-01-01"
    = Some ("a" +:+ String LF (String LF " — 10000. 1. 1.")
                +:+ String LF (String LF " — 10000. 1. 1."))
  ∧ hasSignature
      ("a" +:+ String LF (String LF " — 10000. 1. 1.")
           +:+ String LF (String LF " — 10000. 1. 1."))
    = false.
Proof. vm_compute. repeat split. Qed.

(** C7 on a note of 5 March 2024 saved again with three spaces. *)
Lemma blank_note_is_deleted_witness :
  trim "   " = ""
  ∧ notes
      (handleSaveNote (JSON_notes := stubJSON_notes) (days_from_civil 2024 3 5)
         (setNoteText "   "
            (setNotes {[ "2024-03-05" := "old" +:+ String LF (String LF " — 2024. 3. 1.") ]}
               initialApp)))
    !! "2024-03-05"
    = None.
Proof.
  split; [reflexivity|].
  apply (blank_note_is_deleted (JSON_notes := stubJSON_notes) (days_from_civil 2024 3 5)
           (setNoteText "   "
              (setNotes {[ "2024-03-05" := "old" +:+ String LF (String LF " — 2024. 3. 1.") ]}
                 initialApp))
           ("old" +:+ String LF (String LF " — 2024. 3. 1."))).
  - vm_compute. reflexivity.
  - reflexivity.
Defined.

(** C8 from the list of a first start: a quote saved, another saved, the
    first removed. *)
Lemma favorites_keyed_by_text_witness :
  NoDup
    (favoriteTexts
       (favorites
          (run (dataset := sampleDataset) (generation := aiAnswers "Qgenerated")
             (JSON_Quote := stubJSON_Quote) (JSON_favorites := stubJSON_favorites)
             (JSON_notes := stubJSON_notes)
             [Load (civil 2024 3 5) false true; ToggleFavorite (days_from_civil 2024 3 5) 1;
              Load (civil 2024 3 6) false false; ToggleFavorite (days_from_civil 2024 3 5) 2;
              Load (civil 2024 3 5) false false; ToggleFavorite (days_from_civil 2024 3 5) 3]
             initialApp))).
Proof.
  apply (favorites_keyed_by_text (dataset := sampleDataset)
           (generation := aiAnswers "Qgenerated")
           (JSON_Quote := stubJSON_Quote) (JSON_favorites := stubJSON_favorites)
           (JSON_notes := stubJSON_notes)).
  apply NoDup_nil_2.
Defined.

(** The favourites those events leave: the second quote only. *)
Example toggled_favorites :
  favoriteTexts
    (favorites
       (run (dataset := sampleDataset) (generation := aiAnswers "Qgenerated")
          (JSON_Quote := stubJSON_Quote) (JSON_favorites := stubJSON_favorites)
          (JSON_notes := stubJSON_notes)
          [Load (civil 2024 3 5) false true; ToggleFavorite (days_from_civil 2024 3 5) 1;
           Load (civil 2024 3 6) false false; ToggleFavorite (days_from_civil 2024 3 5) 2;
           Load (civil 2024 3 5) false false; ToggleFavorite (days_from_civil 2024 3 5) 3]
          initialApp))
  = ["generated"].
Proof. vm_compute. reflexivity. Qed.

(** C6 fails on 31 January 2025.  The page of today, 1/31, is shown; one
    step forward shows 2/1; the step back reads the key 2/1 into today's
    date, where February has no 31st day, so [getDateFromKey] yields 1 March
    and the step back ends on 2/28, not on 1/31.  Both revisions. *)
Lemma book_round_trip_breaks_on_the_31st :
  let now := days_from_civil 2025 1 31 in
  let shown :=
    snd (loadQuoteByDate (dataset := emptyDataset) (generation := aiDown)
           (JSON_Quote := stubJSON_Quote) (DateAt now) false true initialApp) in
  let forward :=
    handleBookNavigate (dataset := emptyDataset) (generation := aiDown)
      (JSON_Quote := stubJSON_Quote) now next shown in
  let back :=
    handleBookNavigate (dataset := emptyDataset) (generation := aiDown)
      (JSON_Quote := stubJSON_Quote) now prev forward in
  let forward' :=
    handleBookNavigate' (dataset := emptyDataset) (generation := aiDown)
      (JSON_Quote := stubJSON_Quote) now next shown in
  let back' :=
    handleBookNavigate' (dataset := emptyDataset) (generation := aiDown)
      (JSON_Quote := stubJSON_Quote) now prev forward' in
  selectedDateKey shown = Some "1/31"
  ∧ selectedDateKey forward = Some "2/1"
  ∧ localStorage forward !! BOOKMARK_KEY = Some "2/1"
  ∧ getDateFromKey now "2/1" = civil 2025 3 1
  ∧ selectedDateKey back = Some "2/28"
  ∧ localStorage back !! BOOKMARK_KEY = Some "2/28"
  ∧ selectedDateKey forward' = Some "2/1"
  ∧ selectedDateKey back' = Some "2/28".
Proof. vm_compute. repeat split. Qed.

(** Away from the end of a month the same steps do return, across the
    turn of the year as well: on 15 June 2025, from 12/31 forward to 1/1 and
    back to 12/31. *)
Example book_round_trip_over_new_year :
  let now := days_from_civil 2025 6 15 in
  let shown := setSelectedDateKey (Some "12/31") initialApp in
  let forward :=
    handleBookNavigate (dataset := emptyDataset) (generation := aiDown)
      (JSON_Quote := stubJSON_Quote) now next shown in
  let back :=
    handleBookNavigate (dataset := emptyDataset) (generation := aiDown)
      (JSON_Quote := stubJSON_Quote) now prev forward in
  selectedDateKey forward = Some "1/1" ∧ selectedDateKey back = Some "12/31".
Proof. vm_compute. repeat split. Qed.

(** * More of the program *)

(** ** The calendar *)

Lemma all_ok : forall_from (Z.to_nat 400) 0 year_ok = true.
Proof. vm_compute. reflexivity. Qed.

Lemma forall_from_Z n i P j :
  forall_from (Z.to_nat n) i P = true → i <= j < i + n → P j = true.
Proof.
  intros H Hj. apply (forall_from_spec _ _ _ H). rewrite Z2Nat.id by lia. lia.
Qed.

Lemma isLeap_era k r : isLeap (k * 400 + r) = isLeap r.
Proof.
  unfold isLeap.
  replace ((k * 400 + r) mod 4) with (r mod 4)
    by (replace (k * 400 + r) with (r + (k * 100) * 4) by lia; symmetry; apply Z_mod_plus_full).
  replace ((k * 400 + r) mod 100) with (r mod 100)
    by (replace (k * 400 + r) with (r + (k * 4) * 100) by lia; symmetry; apply Z_mod_plus_full).
  replace ((k * 400 + r) mod 400) with (r mod 400)
    by (replace (k * 400 + r) with (r + k * 400) by lia; symmetry; apply Z_mod_plus_full).
  reflexivity.
Qed.

Lemma date_ok_all yoe m d :
  0 <= yoe < 400 → 1 <= m <= 12 → 1 <= d <= 31 → date_ok yoe m d = true.
Proof.
  intros Hy Hm Hd.
  pose proof (forall_from_Z 400 0 year_ok yoe all_ok ltac:(lia)) as H1.
  unfold year_ok in H1.
  pose proof (forall_from_Z 12 1 _ m H1 ltac:(lia)) as H2. cbv beta in H2.
  exact (forall_from_Z 31 1 _ d H2 ltac:(lia)).
Qed.

Lemma daysInMonth_le y m : daysInMonth y m <= 31.
Proof. unfold daysInMonth. repeat destruct (_ =? _); repeat destruct (_ && _); cbn; try destruct (isLeap y); lia. Qed.

(** Encoding and decoding relative to a 400-year era. *)
Lemma days_from_civil_era y m d :
  let y' := if m <=? 2 then y - 1 else y in
  days_from_civil y m d = y' / 400 * 146097 + doe_of (y' mod 400) m d - 719468.
Proof.
  cbv zeta. unfold days_from_civil, doe_of.
  set (y' := if m <=? 2 then y - 1 else y).
  rewrite (Z.mod_eq y' 400) by lia.
  replace (y' - 400 * (y' / 400)) with (y' - y' / 400 * 400) by lia. lia.
Qed.

Lemma civil_from_days_era era doe :
  0 <= doe < 146097 →
  civil_from_days (era * 146097 + doe - 719468)
  = let '(yoe, m, d) := decode doe in
    (if m <=? 2 then yoe + era * 400 + 1 else yoe + era * 400, m, d).
Proof.
  intros Hdoe. unfold civil_from_days, decode.
  replace (era * 146097 + doe - 719468 + 719468) with (doe + era * 146097) by lia.
  rewrite Z.div_add by lia. rewrite (Z.div_small doe) by lia.
  replace (doe + era * 146097 - (0 + era) * 146097) with doe by lia.
  reflexivity.
Qed.

(** The calendar round trip on every valid date. *)
Lemma civil_from_days_from_civil y m d :
  1 <= m <= 12 → 1 <= d <= daysInMonth y m →
  civil_from_days (days_from_civil y m d) = (y, m, d).
Proof.
  intros Hm Hd.
  pose proof (daysInMonth_le y m) as Hle.
  rewrite days_from_civil_era. cbv zeta.
  set (y' := if m <=? 2 then y - 1 else y).
  assert (Hyoe : 0 <= y' mod 400 < 400) by (apply Z.mod_pos_bound; lia).
  pose proof (date_ok_all (y' mod 400) m d Hyoe Hm ltac:(lia)) as Hok.
  unfold date_ok in Hok.
  assert (Hleap : isLeap (if m <=? 2 then y' mod 400 + 1 else y' mod 400) = isLeap y).
  { rewrite <- (isLeap_era (y' / 400)). f_equal.
    pose proof (Z.div_mod y' 400 ltac:(lia)). subst y'.
    destruct (m <=? 2); lia. }
  assert (Hdim : daysInMonth (if m <=? 2 then y' mod 400 + 1 else y' mod 400) m
                 = daysInMonth y m).
  { unfold daysInMonth. rewrite Hleap. reflexivity. }
  rewrite Hdim in Hok.
  replace ((1 <=? d) && (d <=? daysInMonth y m)) with true in Hok
    by (symmetry; apply andb_true_iff; split; [apply Z.leb_le | apply Z.leb_le]; lia).
  apply andb_true_iff in Hok as [Hr Hdec]. apply andb_true_iff in Hr as [Hr1 Hr2].
  apply Z.leb_le in Hr1. apply Z.ltb_lt in Hr2.
  rewrite civil_from_days_era by lia.
  destruct (decode (doe_of (y' mod 400) m d)) as [[yoe' m'] d'].
  apply andb_true_iff in Hdec as [Hdec Hd']. apply andb_true_iff in Hdec as [Hy' Hm'].
  apply Z.eqb_eq in Hy', Hm', Hd'. subst yoe' m' d'.
  pose proof (Z.div_mod y' 400 ltac:(lia)). subst y'.
  match goal with
  | |- (?a, _, _) = _ => replace a with y by (destruct (m <=? 2); lia)
  end.
  reflexivity.
Qed.

Lemma days_from_civil_day y m d k :
  days_from_civil y m (d + k) = days_from_civil y m d + k.
Proof. unfold days_from_civil. lia. Qed.

(** [lia] with division and remainder by constants. *)
Ltac Zify.zify_post_hook ::= Z.to_euclidean_division_equations.

Lemma isLeap_spec y :
  isLeap y = true ↔ y mod 4 = 0 ∧ (y mod 100 ≠ 0 ∨ y mod 400 = 0).
Proof.
  unfold isLeap. rewrite andb_true_iff, orb_true_iff, negb_true_iff.
  rewrite !Z.eqb_eq, Z.eqb_neq. reflexivity.
Qed.

Lemma month_cases m : 1 <= m <= 12 →
  m = 1 ∨ m = 2 ∨ m = 3 ∨ m = 4 ∨ m = 5 ∨ m = 6 ∨ m = 7 ∨ m = 8 ∨ m = 9
  ∨ m = 10 ∨ m = 11 ∨ m = 12.
Proof. lia. Qed.

(** The day number in closed form. *)
Lemma days_from_civil_closed y m d :
  let y' := if m <=? 2 then y - 1 else y in
  days_from_civil y m d
  = 365 * y' + y' / 4 - y' / 100 + y' / 400
    + (153 * (if 2 <? m then m - 3 else m + 9) + 2) / 5 + d - 1 - 719468.
Proof.
  cbv zeta. unfold days_from_civil.
  set (y' := if m <=? 2 then y - 1 else y).
  set (era := y' / 400).
  assert (H4 : y' / 4 = 100 * era + (y' - era * 400) / 4).
  { replace y' with ((y' - era * 400) + (100 * era) * 4) at 1 by lia.
    rewrite Z.div_add by lia. lia. }
  assert (H100 : y' / 100 = 4 * era + (y' - era * 400) / 100).
  { replace y' with ((y' - era * 400) + (4 * era) * 100) at 1 by lia.
    rewrite Z.div_add by lia. lia. }
  lia.
Qed.

(** Deciding the closed conditions of a goal by evaluation. *)
Ltac decide_conditions :=
  repeat match goal with
         | |- context [if ?b then _ else _] =>
             let v := eval vm_compute in b in
             match v with
             | true => change b with true
             | false => change b with false
             end; cbv iota
         end.

(** The day after the last day of a month is the first of the next. *)
Lemma days_from_civil_month_end y m :
  1 <= m < 12 →
  days_from_civil y m (daysInMonth y m) + 1 = days_from_civil y (m + 1) 1.
Proof.
  intros Hm. rewrite !days_from_civil_closed. cbv zeta.
  destruct (month_cases m ltac:(lia)) as [->|[->|[->|[->|[->|[->|[->|[->|[->|[->|[->| ->]]]]]]]]]]];
    try lia; unfold daysInMonth; decide_conditions; try lia.
  destruct (isLeap y) eqn:Hl.
  - apply isLeap_spec in Hl. lia.
  - assert (Hn : ¬ (y mod 4 = 0 ∧ (y mod 100 ≠ 0 ∨ y mod 400 = 0)))
      by (rewrite <- isLeap_spec, Hl; discriminate).
    lia.
Qed.

Lemma days_from_civil_year_end y :
  days_from_civil y 12 31 + 1 = days_from_civil (y + 1) 1 1.
Proof.
  rewrite !days_from_civil_closed. cbv zeta. decide_conditions.
  replace (y + 1 - 1) with y by lia. lia.
Qed.
Lemma keys_parse_all : forall_from 12 1 keys_parse = true.
Proof. vm_compute. reflexivity. Qed.

Lemma keyText_parses m d :
  1 <= m <= 12 → 1 <= d <= 31 →
  map Number (split_slash (keyText m d)) = [Num m; Num d].
Proof.
  intros Hm Hd.
  pose proof (forall_from_Z 12 1 keys_parse m keys_parse_all ltac:(lia)) as H.
  unfold keys_parse in H.
  pose proof (forall_from_Z 31 1 _ d H ltac:(lia)) as H'. cbv beta in H'.
  destruct (map Number (split_slash (keyText m d))) as [|[|m'] [|[|d'] [|]]]; try discriminate.
  apply andb_true_iff in H' as [Hm' Hd']. apply Z.eqb_eq in Hm', Hd'. congruence.
Qed.

Lemma daysInMonth_ge y m : 1 <= m <= 12 → 28 <= daysInMonth y m.
Proof.
  intros Hm.
  destruct (month_cases m Hm) as [->|[->|[->|[->|[->|[->|[->|[->|[->|[->|[->| ->]]]]]]]]]]];
    unfold daysInMonth; decide_conditions; try destruct (isLeap y); lia.
Qed.

Lemma MakeDay_civil y m d : 1 <= m <= 12 → MakeDay y (m - 1) d = days_from_civil y m d.
Proof.
  intros Hm. unfold MakeDay.
  replace ((m - 1) / 12) with 0 by lia. replace ((m - 1) mod 12 + 1) with m by lia.
  replace (y + 0) with y by lia.
  replace d with (1 + (d - 1)) at 2 by lia. rewrite days_from_civil_day. lia.
Qed.

Lemma dateKeyOf_civil y m d :
  1 <= m <= 12 → 1 <= d <= daysInMonth y m →
  dateKeyOf (civil y m d) = keyText m d.
Proof.
  intros Hm Hd. unfold dateKeyOf, civil, getMonth, getDate.
  rewrite civil_from_days_from_civil by assumption. cbn [add to_string].
  replace (m - 1 + 1) with m by lia. reflexivity.
Qed.

(** A key of the current year, read while today's day of month exists in
    the month of the key. *)
Lemma getDateFromKey_civil now y m0 d0 m d :
  civil_from_days now = (y, m0, d0) →
  1 <= m <= 12 →
  1 <= d <= daysInMonth y m →
  d0 <= daysInMonth y m →
  getDateFromKey now (keyText m d) = civil y m d.
Proof.
  intros Hnow Hm Hd Hd0.
  pose proof (daysInMonth_le y m) as Hle.
  unfold getDateFromKey. rewrite keyText_parses by lia.
  cbn [nth sub setMonth]. rewrite Hnow.
  rewrite MakeDay_civil by lia. cbn [setDate].
  destruct (civil_from_days_range now) as (y' & m' & d' & Hc & _ & Hd').
  rewrite Hnow in Hc. injection Hc as <- <- <-.
  rewrite civil_from_days_from_civil by lia.
  rewrite MakeDay_civil by lia. reflexivity.
Qed.

Lemma getDateFromKey_dateKeyOf now y m0 d0 m d :
  civil_from_days now = (y, m0, d0) →
  1 <= m <= 12 →
  1 <= d <= daysInMonth y m →
  d0 <= daysInMonth y m →
  dateKeyOf (getDateFromKey now (keyText m d)) = keyText m d.
Proof.
  intros Hnow Hm Hd Hd0.
  rewrite (getDateFromKey_civil now y m0 d0 m d) by assumption.
  apply dateKeyOf_civil; assumption.
Qed.

(** X1: [getDateFromKey] reads a key into the current year.  Let today be
    a day of year [y] whose day of month [d0] exists in month [m] (as it
    does whenever [d0] is at most 28).  Then the key M/D of a day of year
    [y] is read as that day of year [y], and [dateKeyOf] writes the date
    back as the same key. *)
Theorem getDateFromKey_in_current_year (now y m0 d0 m d : Z) :
  civil_from_days now = (y, m0, d0) →
  1 <= m <= 12 →
  1 <= d <= daysInMonth y m →
  d0 <= daysInMonth y m →
  getDateFromKey now (keyText m d) = civil y m d
  ∧ getFullYear (getDateFromKey now (keyText m d)) = Num y
  ∧ dateKeyOf (getDateFromKey now (keyText m d)) = keyText m d.
Proof.
  intros Hnow Hm Hd Hd0.
  split; [apply (getDateFromKey_civil now y m0 d0); assumption|]. split.
  - rewrite (getDateFromKey_civil now y m0 d0 m d) by assumption.
    unfold civil, getFullYear. rewrite civil_from_days_from_civil by assumption.
    reflexivity.
  - apply (getDateFromKey_dateKeyOf now y m0 d0); assumption.
Qed.

Lemma daysInMonth_pos y m : 1 <= m <= 12 → 1 <= daysInMonth y m.
Proof. intros Hm. pose proof (daysInMonth_ge y m Hm). lia. Qed.

(** The calendar date of the next and of the previous day. *)
Lemma civil_from_days_succ y m d :
  1 <= m <= 12 → 1 <= d <= daysInMonth y m →
  ∃ y', civil_from_days (days_from_civil y m d + 1)
        = (y', fst (dayAfter y m d), snd (dayAfter y m d)).
Proof.
  intros Hm Hd. unfold dayAfter.
  destruct (Z.ltb_spec d (daysInMonth y m)) as [Hlt|Hge]; cbn [fst snd].
  - exists y. rewrite <- days_from_civil_day.
    apply civil_from_days_from_civil; lia.
  - assert (d = daysInMonth y m) as -> by lia.
    destruct (Z.ltb_spec m 12) as [Hm'|Hm']; cbn [fst snd].
    + exists y. rewrite days_from_civil_month_end by lia.
      apply civil_from_days_from_civil; [lia|].
      pose proof (daysInMonth_pos y (m + 1) ltac:(lia)). lia.
    + assert (m = 12) as -> by lia. exists (y + 1).
      replace (daysInMonth y 12) with 31 by reflexivity.
      rewrite days_from_civil_year_end.
      apply civil_from_days_from_civil; [lia|].
      unfold daysInMonth; decide_conditions; lia.
Qed.

Lemma civil_from_days_pred y m d :
  1 <= m <= 12 → 1 <= d <= daysInMonth y m →
  ∃ y', civil_from_days (days_from_civil y m d - 1)
        = (y', fst (dayBefore y m d), snd (dayBefore y m d)).
Proof.
  intros Hm Hd. unfold dayBefore.
  destruct (Z.ltb_spec 1 d) as [Hlt|Hge]; cbn [fst snd].
  - exists y. replace (days_from_civil y m d - 1) with (days_from_civil y m d + -1) by lia.
    rewrite <- days_from_civil_day. replace (d + -1) with (d - 1) by lia.
    apply civil_from_days_from_civil; lia.
  - assert (d = 1) as -> by lia.
    destruct (Z.ltb_spec 1 m) as [Hm'|Hm']; cbn [fst snd].
    + exists y. pose proof (days_from_civil_month_end y (m - 1) ltac:(lia)) as He.
      replace (m - 1 + 1) with m in He by lia.
      replace (days_from_civil y m 1 - 1)
        with (days_from_civil y (m - 1) (daysInMonth y (m - 1))) by lia.
      apply civil_from_days_from_civil; [lia|].
      pose proof (daysInMonth_pos y (m - 1) ltac:(lia)). lia.
    + assert (m = 1) as -> by lia. exists (y - 1).
      pose proof (days_from_civil_year_end (y - 1)) as He.
      replace (y - 1 + 1) with y in He by lia.
      replace (days_from_civil y 1 1 - 1) with (days_from_civil (y - 1) 12 31) by lia.
      apply civil_from_days_from_civil; [lia|].
      unfold daysInMonth; decide_conditions; lia.
Qed.

(** The neighbour of a valid date is one, in the same year's calendar, and
    going there and back returns. *)
Lemma neighbour_valid dir y m d :
  1 <= m <= 12 → 1 <= d <= daysInMonth y m →
  1 <= fst (neighbour dir y m d) <= 12
  ∧ 1 <= snd (neighbour dir y m d) <= daysInMonth y (fst (neighbour dir y m d)).
Proof.
  intros Hm Hd. destruct dir; cbn [neighbour]; unfold dayAfter, dayBefore.
  - destruct (Z.ltb_spec d (daysInMonth y m)); cbn [fst snd]; [lia|].
    destruct (Z.ltb_spec m 12); cbn [fst snd].
    + pose proof (daysInMonth_pos y (m + 1) ltac:(lia)). lia.
    + pose proof (daysInMonth_pos y 1 ltac:(lia)). lia.
  - destruct (Z.ltb_spec 1 d); cbn [fst snd]; [lia|].
    destruct (Z.ltb_spec 1 m); cbn [fst snd].
    + pose proof (daysInMonth_pos y (m - 1) ltac:(lia)). lia.
    + replace (daysInMonth y 12) with 31 by reflexivity. lia.
Qed.

Lemma neighbour_back dir y m d :
  1 <= m <= 12 → 1 <= d <= daysInMonth y m →
  neighbour (opposite dir) y (fst (neighbour dir y m d)) (snd (neighbour dir y m d))
  = (m, d).
Proof.
  intros Hm Hd. destruct dir; cbn [neighbour opposite]; unfold dayAfter, dayBefore.
  - destruct (Z.ltb_spec d (daysInMonth y m)); cbn [fst snd].
    + destruct (Z.ltb_spec 1 (d + 1)); [f_equal; lia | lia].
    + destruct (Z.ltb_spec m 12); cbn [fst snd]; cbn [Z.ltb Z.compare].
      * destruct (Z.ltb_spec 1 (m + 1)); [|lia].
        replace (m + 1 - 1) with m by lia. f_equal. lia.
      * replace (daysInMonth y 12) with 31 in * by reflexivity.
        assert (m = 12) by lia. subst m. replace (daysInMonth y 12) with 31 in * by reflexivity.
        f_equal; lia.
  - destruct (Z.ltb_spec 1 d); cbn [fst snd].
    + destruct (Z.ltb_spec (d - 1) (daysInMonth y m)); [f_equal; lia | lia].
    + destruct (Z.ltb_spec 1 m); cbn [fst snd].
      * rewrite Z.ltb_irrefl.
        destruct (Z.ltb_spec (m - 1) 12); [|lia]. f_equal; lia.
      * replace (daysInMonth y 12) with 31 by reflexivity.
        rewrite Z.ltb_irrefl. cbn [Z.ltb Z.compare Pos.compare Pos.compare_cont].
        f_equal; lia.
Qed.

Lemma keyText_truthy m d : truthy (Some (keyText m d)) = true.
Proof.
  unfold keyText. destruct (dec m) as [|c r]; [reflexivity|].
  rewrite str_app_cons. reflexivity.
Qed.

Lemma cacheKeyOf_not_BOOKMARK_KEY d : cacheKeyOf d ≠ BOOKMARK_KEY.
Proof. unfold cacheKeyOf, BOOKMARK_KEY. rewrite !str_app_cons. discriminate. Qed.

Lemma cacheKeyOf_not_FAVORITES_KEY d : cacheKeyOf d ≠ FAVORITES_KEY.
Proof. unfold cacheKeyOf, FAVORITES_KEY. rewrite !str_app_cons. discriminate. Qed.

Section Navigation.

Context {dataset : Dataset} {generation : Generation}.
Context {JSON_Quote : JSON (option Value)}.

Ltac branches :=
  repeat match goal with
         | |- context [if ?b then _ else _] => destruct b
         | |- context [match ?x with _ => _ end] => destruct x
         end.

(** A load writes no local-storage entry but the cache entry of its date. *)
Lemma loadQuoteByDate_storage d forceRefresh silent st k :
  k ≠ cacheKeyOf d →
  localStorage (snd (loadQuoteByDate d forceRefresh silent st)) !! k = localStorage st !! k.
Proof.
  intros Hk. unfold loadQuoteByDate, generateQuoteOfDay.
  branches; cbn; try reflexivity; apply lookup_insert_ne; congruence.
Qed.

Lemma loadQuoteByDate'_storage d forceRefresh st k :
  k ≠ cacheKeyOf d →
  localStorage (snd (loadQuoteByDate' d forceRefresh st)) !! k = localStorage st !! k.
Proof.
  intros Hk. unfold loadQuoteByDate', generateQuoteOfDay.
  branches; cbn; try reflexivity; apply lookup_insert_ne; congruence.
Qed.

(** The date a page turn computes. *)
Lemma turned_page now dir y m0 d0 m d :
  civil_from_days now = (y, m0, d0) →
  d0 <= 28 →
  1 <= m <= 12 → 1 <= d <= daysInMonth y m →
  let currentDate := getDateFromKey now (keyText m d) in
  dateKeyOf
    (setDate currentDate
       (add (getDate currentDate) (match dir with next => Num 1 | prev => Num (-1) end)))
  = keyText (fst (neighbour dir y m d)) (snd (neighbour dir y m d)).
Proof.
  intros Hnow Hd0 Hm Hd. cbv zeta.
  pose proof (daysInMonth_ge y m Hm) as Hge.
  rewrite (getDateFromKey_civil now y m0 d0 m d Hnow Hm Hd ltac:(lia)).
  unfold civil, getDate, setDate. rewrite civil_from_days_from_civil by assumption.
  unfold dateKeyOf, getMonth, getDate.
  destruct dir; cbn [add neighbour]; rewrite MakeDay_civil by lia.
  - rewrite days_from_civil_day.
    destruct (civil_from_days_succ y m d Hm Hd) as (y' & ->).
    cbn [add to_string]. rewrite Z.sub_add. reflexivity.
  - replace (d + -1) with (d + (-1)) by lia. rewrite days_from_civil_day.
    replace (days_from_civil y m d + -1) with (days_from_civil y m d - 1) by lia.
    destruct (civil_from_days_pred y m d Hm Hd) as (y' & ->).
    cbn [add to_string]. rewrite Z.sub_add. reflexivity.
Qed.

Lemma handleBookNavigate_bookmark now dir st y m0 d0 m d :
  civil_from_days now = (y, m0, d0) →
  d0 <= 28 →
  1 <= m <= 12 → 1 <= d <= daysInMonth y m →
  selectedDateKey st = Some (keyText m d) →
  localStorage (handleBookNavigate now dir st) !! BOOKMARK_KEY
  = Some (keyText (fst (neighbour dir y m d)) (snd (neighbour dir y m d)))
  ∧ localStorage (handleBookNavigate' now dir st) !! BOOKMARK_KEY
    = Some (keyText (fst (neighbour dir y m d)) (snd (neighbour dir y m d))).
Proof.
  intros Hnow Hd0 Hm Hd Hsel.
  pose proof (turned_page now dir y m0 d0 m d Hnow Hd0 Hm Hd) as Hturn. cbv zeta in Hturn.
  unfold handleBookNavigate, handleBookNavigate'.
  rewrite Hsel, keyText_truthy. cbn [negb default from_option id]. unfold default. cbn [from_option id].
  split.
  - rewrite loadQuoteByDate_storage by (intros E; symmetry in E; revert E; apply cacheKeyOf_not_BOOKMARK_KEY).
    cbn [localStorage setItem]. rewrite lookup_insert_eq, Hturn. reflexivity.
  - rewrite loadQuoteByDate'_storage by (intros E; symmetry in E; revert E; apply cacheKeyOf_not_BOOKMARK_KEY).
    cbn [localStorage setItem]. rewrite lookup_insert_eq.
    destruct dir; [exact (f_equal Some Hturn)|].
    rewrite <- Hturn. unfold sub, add.
    destruct (getDate (getDateFromKey now (keyText m d))); reflexivity.
Qed.

(** X2: a page turn is undone by the turn in the opposite direction.  On a
    day of month up to the 28th, with the page of a day of the current year
    selected, [handleBookNavigate] in one direction and then, once the page
    it loaded is the selected one, in the opposite direction leaves the
    bookmark at the key one started from; so in both revisions, and across
    the turn of the year (12/31 forward to 1/1 and back). *)
Theorem book_navigation_returns (now y m0 d0 m d : Z) (dir : Direction) (st : App) :
  civil_from_days now = (y, m0, d0) →
  d0 <= 28 →
  1 <= m <= 12 →
  1 <= d <= daysInMonth y m →
  selectedDateKey st = Some (keyText m d) →
  (let there := handleBookNavigate now dir st in
   selectedDateKey there = localStorage there !! BOOKMARK_KEY →
   localStorage (handleBookNavigate now (opposite dir) there) !! BOOKMARK_KEY
   = Some (keyText m d))
  ∧ (let there := handleBookNavigate' now dir st in
     selectedDateKey there = localStorage there !! BOOKMARK_KEY →
     localStorage (handleBookNavigate' now (opposite dir) there) !! BOOKMARK_KEY
     = Some (keyText m d)).
Proof.
  intros Hnow Hd0 Hm Hd Hsel. cbv zeta.
  destruct (handleBookNavigate_bookmark now dir st y m0 d0 m d Hnow Hd0 Hm Hd Hsel)
    as [Hb Hb'].
  destruct (neighbour_valid dir y m d Hm Hd) as [Hnm Hnd].
  pose proof (neighbour_back dir y m d Hm Hd) as Hback.
  split; intros Hthere.
  - rewrite Hb in Hthere.
    destruct (handleBookNavigate_bookmark now (opposite dir) _ y m0 d0 _ _
                Hnow Hd0 Hnm Hnd Hthere) as [-> _].
    rewrite Hback. reflexivity.
  - rewrite Hb' in Hthere.
    destruct (handleBookNavigate_bookmark now (opposite dir) _ y m0 d0 _ _
                Hnow Hd0 Hnm Hnd Hthere) as [_ ->].
    rewrite Hback. reflexivity.
Qed.

End Navigation.

(** ** Choosing a page: the list, the bookmark, the random key *)

Section Pages.

Context {dataset : Dataset} {generation : Generation}.
Context {JSON_Quote : JSON (option Value)}.

(** A load of a date that has a fixed text. *)
Lemma loadQuoteByDate_fixed d text forceRefresh silent st :
  FIXED_QUOTES !! dateKeyOf d = Some text → text ≠ "" →
  let st' := snd (loadQuoteByDate d forceRefresh silent st) in
  currentQuote st' = Some (record (fixedQuote text))
  ∧ selectedDateKey st' = Some (dateKeyOf d)
  ∧ aiCalls st' = aiCalls st
  ∧ localStorage st' = localStorage st.
Proof.
  intros Hk Ht. cbv zeta. unfold loadQuoteByDate.
  rewrite Hk, (truthy_Some _ Ht). destruct silent; repeat split.
Qed.

Lemma loadQuoteByDate'_fixed d text forceRefresh st :
  FIXED_QUOTES !! dateKeyOf d = Some text → text ≠ "" →
  let st' := snd (loadQuoteByDate' d forceRefresh st) in
  currentQuote st' = Some (record (fixedQuote text))
  ∧ selectedDateKey st' = Some (dateKeyOf d)
  ∧ aiCalls st' = aiCalls st
  ∧ loading st' = false.
Proof.
  intros Hk Ht. cbv zeta. unfold loadQuoteByDate'.
  rewrite Hk, (truthy_Some _ Ht). repeat split.
Qed.

(** X3: picking a day shows its fixed text.  When the key picked is that of
    a day of the current year with a non-empty fixed text (and today's day of
    month exists in that month), [handleDateSelect] shows the text, selects
    the key, sends no request, and goes to the main view in daily mode; in
    both revisions. *)
Theorem handleDateSelect_shows_the_day (now y m0 d0 m d : Z) (text : string)
    (scr : Screen) :
  civil_from_days now = (y, m0, d0) →
  1 <= m <= 12 →
  1 <= d <= daysInMonth y m →
  d0 <= daysInMonth y m →
  FIXED_QUOTES !! keyText m d = Some text →
  text ≠ "" →
  (let scr' := handleDateSelect now (keyText m d) scr in
   currentQuote (appState scr') = Some (record (fixedQuote text))
   ∧ selectedDateKey (appState scr') = Some (keyText m d)
   ∧ aiCalls (appState scr') = aiCalls (appState scr)
   ∧ viewMode scr' = ViewMain
   ∧ readingMode scr' = daily)
  ∧ (let scr' := handleDateSelect' now (keyText m d) scr in
     currentQuote (appState scr') = Some (record (fixedQuote text))
     ∧ selectedDateKey (appState scr') = Some (keyText m d)
     ∧ aiCalls (appState scr') = aiCalls (appState scr)
     ∧ viewMode scr' = ViewMain
     ∧ readingMode scr' = daily).
Proof.
  intros Hnow Hm Hd Hd0 Hk Ht. cbv zeta.
  pose proof (getDateFromKey_dateKeyOf now y m0 d0 m d Hnow Hm Hd Hd0) as Hkey.
  rewrite <- Hkey in Hk.
  unfold handleDateSelect, handleDateSelect'. cbn [appState viewMode readingMode]. split.
  - destruct (loadQuoteByDate_fixed _ text false false
                (setSelectedDateKey (Some (keyText m d)) (appState scr)) Hk Ht)
      as (H1 & H2 & H3 & _).
    rewrite H1, H2, H3, Hkey. repeat split.
  - destruct (loadQuoteByDate'_fixed _ text false
                (setSelectedDateKey (Some (keyText m d)) (appState scr)) Hk Ht)
      as (H1 & H2 & H3 & _).
    rewrite H1, H2, H3, Hkey. repeat split.
Qed.


(** The key drawn is a key of the dataset, or 1/1 when there is none. *)
Lemma getRandomQuoteKey_Some randomIndex key :
  getRandomQuoteKey randomIndex = Some key →
  is_Some (FIXED_QUOTES !! key)
  ∨ (FIXED_QUOTES = (∅ : gmap string string) ∧ key = "1/1").
Proof.
  unfold getRandomQuoteKey.
  assert (Hlen : length (map_to_list FIXED_QUOTES).*1 = size FIXED_QUOTES)
    by (rewrite length_fmap; apply length_map_to_list).
  destruct (Nat.eqb_spec (length (map_to_list FIXED_QUOTES).*1) 0) as [H0|H0].
  - intros H. injection H as <-. right. split; [|reflexivity].
    apply map_size_empty_iff. lia.
  - intros Hi. left. apply list_elem_of_lookup_2 in Hi.
    apply list_elem_of_fmap in Hi as ([k v] & -> & Hin).
    apply elem_of_map_to_list in Hin. cbn. eauto.
Qed.

Lemma getRandomQuoteKey_None randomIndex :
  getRandomQuoteKey randomIndex = None →
  (size FIXED_QUOTES <= randomIndex)%nat ∧ FIXED_QUOTES ≠ (∅ : gmap string string).
Proof.
  unfold getRandomQuoteKey.
  assert (Hlen : length (map_to_list FIXED_QUOTES).*1 = size FIXED_QUOTES)
    by (rewrite length_fmap; apply length_map_to_list).
  destruct (Nat.eqb_spec (length (map_to_list FIXED_QUOTES).*1) 0) as [H0|H0];
    [discriminate|].
  intros Hi. split.
  - apply lookup_ge_None in Hi. lia.
  - intros He. apply H0. rewrite Hlen, He. apply map_size_empty.
Qed.

(** X5: [getRandomQuoteKey] draws from the dataset.  The key returned for
    an index is a key of the dataset, or 1/1 when the dataset is empty; no
    key is returned only for an index past the end of a non-empty dataset;
    and every key of the dataset is returned for some index below its
    size. *)
Theorem getRandomQuoteKey_in_dataset (randomIndex : nat) :
  match getRandomQuoteKey randomIndex with
  | Some key =>
      is_Some (FIXED_QUOTES !! key)
      ∨ (FIXED_QUOTES = (∅ : gmap string string) ∧ key = "1/1")
  | None =>
      (size FIXED_QUOTES <= randomIndex)%nat
      ∧ FIXED_QUOTES ≠ (∅ : gmap string string)
  end
  ∧ ∀ key, is_Some (FIXED_QUOTES !! key) →
           ∃ i, (i < size FIXED_QUOTES)%nat ∧ getRandomQuoteKey i = Some key.
Proof.
  split.
  - destruct (getRandomQuoteKey randomIndex) as [key|] eqn:Hr.
    + apply (getRandomQuoteKey_Some randomIndex), Hr.
    + apply getRandomQuoteKey_None, Hr.
  - intros key [text Hk].
    assert (Hlen : length (map_to_list FIXED_QUOTES).*1 = size FIXED_QUOTES)
      by (rewrite length_fmap; apply length_map_to_list).
    assert (Hin : key ∈ (map_to_list FIXED_QUOTES).*1).
    { apply list_elem_of_fmap. exists (key, text). split; [reflexivity|].
      apply elem_of_map_to_list. exact Hk. }
    apply list_elem_of_lookup_1 in Hin as [i Hi].
    pose proof (lookup_lt_Some _ _ _ Hi) as Hlt.
    exists i. split; [lia|].
    unfold getRandomQuoteKey.
    destruct (Nat.eqb_spec (length (map_to_list FIXED_QUOTES).*1) 0) as [H0|H0]; [lia|].
    exact Hi.
Qed.

(** X6: random mode shows a fixed quote.  On a day of month up to the 28th,
    over a dataset whose keys are days of the current year with non-empty
    texts, [loadRandomQuote] with an index below the size of the dataset
    completes, shows the fixed text of the key drawn, selects that key, and
    sends no request; in both revisions. *)
Theorem random_quote_is_fixed (now y m0 d0 : Z) (randomIndex : nat) (st : App) :
  civil_from_days now = (y, m0, d0) →
  d0 <= 28 →
  datasetOfYear y →
  (randomIndex < size FIXED_QUOTES)%nat →
  ∃ key text,
    getRandomQuoteKey randomIndex = Some key
    ∧ FIXED_QUOTES !! key = Some text
    ∧ (∃ st', loadRandomQuote now randomIndex st = Completes st'
              ∧ currentQuote st' = Some (record (fixedQuote text))
              ∧ selectedDateKey st' = Some key
              ∧ aiCalls st' = aiCalls st)
    ∧ (∃ st', loadRandomQuote' now randomIndex st = Completes st'
              ∧ currentQuote st' = Some (record (fixedQuote text))
              ∧ selectedDateKey st' = Some key
              ∧ aiCalls st' = aiCalls st).
Proof.
  intros Hnow Hd0 Hds Hi.
  destruct (getRandomQuoteKey randomIndex) as [key|] eqn:Hr;
    [|apply getRandomQuoteKey_None in Hr; lia].
  destruct (getRandomQuoteKey_Some _ _ Hr) as [[text Hk]|[He _]];
    [|rewrite He, map_size_empty in Hi; lia].
  destruct (Hds key text Hk) as (Ht & m & d & -> & Hm & Hd).
  pose proof (daysInMonth_ge y m Hm) as Hge.
  pose proof (getDateFromKey_dateKeyOf now y m0 d0 m d Hnow Hm Hd ltac:(lia)) as Hdk.
  exists (keyText m d), text. split; [reflexivity|]. split; [exact Hk|].
  rewrite <- Hdk in Hk. unfold loadRandomQuote, loadRandomQuote'. rewrite Hr. split.
  - eexists. split; [reflexivity|].
    destruct (loadQuoteByDate_fixed _ text false false st Hk Ht) as (H1 & H2 & H3 & _).
    rewrite H1, H2, H3, Hdk. repeat split.
  - eexists. split; [reflexivity|].
    destruct (loadQuoteByDate'_fixed _ text false st Hk Ht) as (H1 & H2 & H3 & _).
    rewrite H1, H2, H3, Hdk. repeat split.
Qed.

End Pages.

(** ** The cards of the notes view *)

(** The content and the match of the regular expression split the text. *)
Lemma stripSignature_matchSignature s :
  match matchSignature s with
  | Some sig => s = stripSignature s +:+ sig ∧ DATE_SIGNATURE_REGEX sig = true
  | None => stripSignature s = s
  end.
Proof.
  induction s as [|c s IH].
  - cbn [matchSignature stripSignature].
    destruct (DATE_SIGNATURE_REGEX "") eqn:H; [discriminate H | reflexivity].
  - cbn [matchSignature stripSignature].
    destruct (DATE_SIGNATURE_REGEX (String c s)) eqn:H.
    + split; [reflexivity | exact H].
    + destruct (matchSignature s) as [sig|].
      * destruct IH as [IH Hsig]. split; [|exact Hsig].
        rewrite str_app_cons, <- IH. reflexivity.
      * rewrite IH. reflexivity.
Qed.

(** X7: a note card splits the stored text.  Both revisions of the notes
    view show the same content; the stored text is the content followed by
    what the signature pattern matched, if anything; and a text without a
    signature is shown whole, with an empty signature label. *)
Theorem note_card_splits_the_text (fullText : string) :
  noteContent' fullText = noteContent fullText
  ∧ fullText = noteContent fullText +:+ default "" (matchSignature fullText)
  ∧ (hasSignature fullText = false →
     noteContent fullText = fullText
     ∧ noteRecordedAt fullText = ""
     ∧ noteSignature' fullText = "").
Proof.
  pose proof (stripSignature_matchSignature fullText) as H.
  unfold noteContent', noteContent, noteRecordedAt, noteSignature', hasSignature.
  destruct (matchSignature fullText) as [sig|].
  - destruct H as [H _]. split; [reflexivity|]. split; [exact H | discriminate].
  - split; [symmetry; exact H|]. split.
    + rewrite H. cbn [default from_option id]. unfold default. cbn.
      symmetry. apply str_app_nil_r.
    + intros _. split; [exact H|]. split; reflexivity.
Qed.

(** Evaluating the closed conditions of a goal. *)
Ltac decide_booleans :=
  repeat match goal with
         | |- context [(?a =? ?b)%N] =>
             let v := eval vm_compute in (a =? b)%N in
             match v with
             | true => change (a =? b)%N with true
             | false => change (a =? b)%N with false
             end
         | |- context [(?a <=? ?b)%N] =>
             let v := eval vm_compute in (a <=? b)%N in
             match v with
             | true => change (a <=? b)%N with true
             | false => change (a <=? b)%N with false
             end
         end.

Lemma trimEnd_full_stop s : trimEnd (s +:+ ".") = s +:+ ".".
Proof.
  unfold trimEnd, trimStartRev. rewrite rev_app_distr.
  change (String.rev ".") with ".". rewrite str_app_cons, str_app_nil_l.
  assert (H : ∀ r, dropSpace is_ws1 (λ a b, is_ws2 b a) (λ a b c, is_ws3 c b a) (String "." r)
                   = String "." r).
  { intros [|c2 [|c3 r]]; cbn [dropSpace];
      replace (is_ws1 ".") with false by reflexivity;
      try replace (is_ws2 c2 ".") with false
        by (unfold is_ws2; change (N_of_ascii ".") with 46%N; decide_booleans;
            rewrite andb_false_r; reflexivity);
      try replace (is_ws3 c3 c2 ".") with false
        by (unfold is_ws3; change (N_of_ascii ".") with 46%N; cbv zeta; decide_booleans;
            cbn [andb orb]; rewrite !andb_false_r; reflexivity);
      reflexivity. }
  rewrite H, rev_cons, rev_involutive. reflexivity.
Qed.

Lemma is_digit_eqb c x : is_digit c = true → is_digit x = false → Ascii.eqb c x = false.
Proof. intros Hc Hx. destruct (Ascii.eqb_spec c x) as [->|]; [congruence | reflexivity]. Qed.

Lemma replaceDotSpace_digit c r :
  is_digit c = true → replaceDotSpace (String c r) = String c (replaceDotSpace r).
Proof.
  intros Hc. cbn [replaceDotSpace].
  rewrite (is_digit_eqb c "." Hc eq_refl). cbn [andb].
  destruct r; reflexivity.
Qed.

Lemma replaceDotSpace_oneOrTwoDigits n r :
  oneOrTwoDigits n = true → replaceDotSpace (n +:+ r) = n +:+ replaceDotSpace r.
Proof.
  intros Hn.
  destruct (oneOrTwoDigits_inv _ Hn) as [(a & -> & Ha)|(a & b & -> & Ha & Hb)];
    rewrite !str_app_cons, !str_app_nil_l, ?replaceDotSpace_digit by assumption;
    reflexivity.
Qed.

Lemma replaceDotSpace_fourDigits n r :
  fourDigits n = true → replaceDotSpace (n +:+ r) = n +:+ replaceDotSpace r.
Proof.
  intros Hn.
  destruct (fourDigits_inv _ Hn) as (a & b & c & e & -> & Ha & Hb & Hc & He).
  rewrite !str_app_cons, !str_app_nil_l, !replaceDotSpace_digit by assumption.
  reflexivity.
Qed.

Lemma dropFinalDot_full_stop s : dropFinalDot (s +:+ ".") = s.
Proof.
  unfold dropFinalDot. rewrite rev_app_distr.
  change (String.rev ".") with ".". rewrite str_app_cons, str_app_nil_l.
  apply rev_involutive.
Qed.

(** The label of a signature text. *)
Lemma recordedAt_signatureText y m d :
  fourDigits y = true → oneOrTwoDigits m = true → oneOrTwoDigits d = true →
  dropFinalDot
    (replaceDotSpace (removeFirst (String LF (String LF " — ")) (signatureText y m d)))
  = y +:+ "-" +:+ m +:+ "-" +:+ d.
Proof.
  intros Hy Hm Hd. unfold signatureText.
  replace (removeFirst (String LF (String LF " — "))
             (String LF (String LF " — ") +:+ y +:+ ". " +:+ m +:+ ". " +:+ d +:+ "."))
    with (y +:+ ". " +:+ m +:+ ". " +:+ d +:+ ".")
    by (destruct y; reflexivity).
  rewrite replaceDotSpace_fourDigits by exact Hy.
  change (replaceDotSpace (". " +:+ m +:+ ". " +:+ d +:+ "."))
    with (String "-" (replaceDotSpace (m +:+ ". " +:+ d +:+ "."))).
  rewrite replaceDotSpace_oneOrTwoDigits by exact Hm.
  change (replaceDotSpace (". " +:+ d +:+ "."))
    with (String "-" (replaceDotSpace (d +:+ "."))).
  rewrite replaceDotSpace_oneOrTwoDigits by exact Hd.
  change (replaceDotSpace ".") with ".".
  replace (y +:+ String "-" (m +:+ String "-" (d +:+ ".")))
    with ((y +:+ "-" +:+ m +:+ "-" +:+ d) +:+ ".")
    by (rewrite !str_app_assoc; reflexivity).
  apply dropFinalDot_full_stop.
Qed.

Lemma trim_signatureText y m d :
  trim (signatureText y m d) = "— " +:+ y +:+ ". " +:+ m +:+ ". " +:+ d +:+ ".".
Proof.
  unfold trim, signatureText.
  replace (trimStart (String LF (String LF " — ") +:+ y +:+ ". " +:+ m +:+ ". " +:+ d +:+ "."))
    with ("— " +:+ y +:+ ". " +:+ m +:+ ". " +:+ d +:+ ".")
    by reflexivity.
  replace ("— " +:+ y +:+ ". " +:+ m +:+ ". " +:+ d +:+ ".")
    with (("— " +:+ y +:+ ". " +:+ m +:+ ". " +:+ d) +:+ ".")
    by (rewrite !str_app_assoc; reflexivity).
  apply trimEnd_full_stop.
Qed.

(** X8: the card of a saved note.  For a text [t] signed by
    [handleSaveNote] on a day of a year of four digits, both revisions show
    [t] as the content; the first shows the label Y-M-D after RECORDED AT,
    the second the signature [— Y. M. D.], month and day not padded. *)
Theorem saved_note_card (t : string) (now y m d : Z) :
  civil_from_days now = (y, m, d) →
  1000 <= y <= 9999 →
  let stored := appendSignature t (DateAt now) in
  noteContent stored = t
  ∧ noteContent' stored = t
  ∧ noteRecordedAt stored = dec y +:+ "-" +:+ dec m +:+ "-" +:+ dec d
  ∧ noteSignature' stored = "— " +:+ dec y +:+ ". " +:+ dec m +:+ ". " +:+ dec d +:+ ".".
Proof.
  intros Hnow Hy. cbv zeta.
  assert (Hfour : fourDigitYear now).
  { exists y. split; [|exact Hy]. unfold getFullYear. rewrite Hnow. reflexivity. }
  pose proof (signature_accepted now Hfour) as Hacc.
  destruct (civil_from_days_range now) as (y' & m' & d' & Hc & Hm & Hd).
  rewrite Hnow in Hc. injection Hc as <- <- <-.
  assert (Hsig : signature (DateAt now) = signatureText (dec y) (dec m) (dec d)).
  { unfold signature, getFullYear, getMonth, getDate. rewrite Hnow.
    cbn [add to_string]. rewrite Z.sub_add. reflexivity. }
  unfold noteContent, noteContent', noteRecordedAt, noteSignature', appendSignature.
  rewrite matchSignature_app, stripSignature_app by exact Hacc.
  rewrite Hsig.
  split; [reflexivity|]. split; [reflexivity|]. split.
  - apply recordedAt_signatureText;
      [apply dec_fourDigits; lia | apply dec_oneOrTwoDigits; lia
      | apply dec_oneOrTwoDigits; lia].
  - apply trim_signatureText.
Qed.

(** ** From a note back to its page *)

Lemma padded_parse_all : forall_from 12 1 padded_parse = true.
Proof. vm_compute. reflexivity. Qed.

Lemma padded_parts m d :
  1 <= m <= 12 → 1 <= d <= 31 →
  ∃ pm pd,
    split_dash (padStart2 (dec m) +:+ "-" +:+ padStart2 (dec d)) = [pm; pd]
    ∧ Number pm = Num m ∧ Number pd = Num d
    ∧ map Number (split_slash (pm +:+ "/" +:+ pd)) = [Num m; Num d].
Proof.
  intros Hm Hd.
  pose proof (forall_from_Z 12 1 padded_parse m padded_parse_all ltac:(lia)) as H.
  unfold padded_parse in H.
  pose proof (forall_from_Z 31 1 _ d H ltac:(lia)) as H'. cbv beta in H'.
  destruct (split_dash _) as [|pm [|pd [|]]]; try discriminate.
  exists pm, pd. split; [reflexivity|].
  destruct (Number pm) as [|m1]; [discriminate|].
  destruct (Number pd) as [|d1]; [discriminate|].
  destruct (map Number _) as [|[|m2] [|[|d2] [|]]]; try discriminate.
  repeat (apply andb_true_iff in H' as [H' ?]).
  repeat match goal with E : (_ =? _) = true |- _ => apply Z.eqb_eq in E end.
  subst. auto.
Qed.

Lemma split_dash_fourDigits y r :
  fourDigits y = true →
  split_dash (y +:+ "-" +:+ r) = y :: split_dash r.
Proof.
  intros Hy.
  destruct (fourDigits_inv _ Hy) as (a & b & c & e & -> & Ha & Hb & Hc & He).
  rewrite !str_app_cons, !str_app_nil_l.
  cbn [split_dash].
  rewrite (is_digit_eqb a "-" Ha eq_refl), (is_digit_eqb b "-" Hb eq_refl),
    (is_digit_eqb c "-" Hc eq_refl), (is_digit_eqb e "-" He eq_refl).
  change (Ascii.eqb "-" "-") with true. cbv iota.
  destruct (split_dash r); reflexivity.
Qed.

Lemma getLocalDateString_parts z y m d :
  civil_from_days z = (y, m, d) → 1000 <= y <= 9999 →
  ∃ pm pd,
    split_dash (getLocalDateString (DateAt z)) = [dec y; pm; pd]
    ∧ Number pm = Num m ∧ Number pd = Num d
    ∧ map Number (split_slash (pm +:+ "/" +:+ pd)) = [Num m; Num d].
Proof.
  intros Hz Hy.
  destruct (civil_from_days_range z) as (y' & m' & d' & Hc & Hm & Hd).
  rewrite Hz in Hc. injection Hc as <- <- <-.
  destruct (padded_parts m d ltac:(lia) ltac:(lia)) as (pm & pd & Hs & Hpm & Hpd & Hk).
  exists pm, pd. split; [|auto].
  unfold getLocalDateString, getFullYear, getMonth, getDate. rewrite Hz.
  cbn [add to_string]. rewrite Z.sub_add.
  rewrite split_dash_fourDigits by (apply dec_fourDigits; exact Hy).
  rewrite Hs. reflexivity.
Qed.

(** X9: the link of a card leads to the page of its day.  For the date
    text [getLocalDateString] writes for a day of a year of four digits, the
    key the second revision computes from it is the key [dateKeyOf] gives
    the day; the key of the first revision keeps the padding, and
    [getDateFromKey] reads it as it reads the key of the day. *)
Theorem note_link_leads_to_its_page (z y m d : Z) :
  civil_from_days z = (y, m, d) →
  1000 <= y <= 9999 →
  let dateStr := getLocalDateString (DateAt z) in
  noteQuoteKey dateStr = dateKeyOf (DateAt z)
  ∧ ∀ now, getDateFromKey now (noteLinkKey dateStr) = getDateFromKey now (dateKeyOf (DateAt z)).
Proof.
  intros Hz Hy. cbv zeta.
  destruct (getLocalDateString_parts z y m d Hz Hy) as (pm & pd & Hs & Hpm & Hpd & Hk).
  destruct (civil_from_days_range z) as (y' & m' & d' & Hc & Hm & Hd).
  rewrite Hz in Hc. injection Hc as <- <- <-.
  assert (Hkey : dateKeyOf (DateAt z) = keyText m d).
  { unfold dateKeyOf, getMonth, getDate. rewrite Hz. cbn [add to_string].
    rewrite Z.sub_add. reflexivity. }
  split.
  - unfold noteQuoteKey. rewrite Hs, Hkey. cbn [map]. rewrite Hpm, Hpd. reflexivity.
  - intros now. unfold noteLinkKey. rewrite Hs, Hkey.
    change (template ([dec y; pm; pd] !! 1%nat)) with pm.
    change (template ([dec y; pm; pd] !! 2%nat)) with pd.
    unfold getDateFromKey. rewrite Hk, keyText_parses by lia. reflexivity.
Qed.

(** ** Saving and reopening a note; the star of the card *)

Section Cards.

Context {dataset : Dataset} {generation : Generation}.
Context {JSON_Quote : JSON (option Value)}.
Context {JSON_favorites : JSON (list StoredQuote)}.
Context {JSON_notes : JSON (gmap string string)}.

Lemma handleSaveNote_selectedDateKey now st :
  selectedDateKey (handleSaveNote now st) = selectedDateKey st.
Proof. unfold handleSaveNote. destruct (negb _); reflexivity. Qed.

Lemma handleSaveNote_currentNoteDateKey now st :
  currentNoteDateKey now (handleSaveNote now st) = currentNoteDateKey now st.
Proof.
  unfold currentNoteDateKey, displayDate. rewrite handleSaveNote_selectedDateKey. reflexivity.
Qed.

Lemma signature_not_empty t now : truthy (Some (appendSignature t now)) = true.
Proof.
  unfold appendSignature, signature, signatureText.
  destruct t; [|reflexivity]. rewrite str_app_nil_l, !str_app_cons. reflexivity.
Qed.

(** X10: a saved note comes back in the editor.  In a year of four digits,
    after [handleSaveNote] the modal is closed, the note mark of the card is
    on exactly when the trimmed text is not empty, and [handleOpenNote] on
    the same day puts the trimmed text that was saved, without signature,
    back into the editor and opens the modal. *)
Theorem saved_note_reopens (now : Z) (st : App) :
  fourDigitYear now →
  let st' := handleSaveNote now st in
  noteText (handleOpenNote now st') = trim (noteText st)
  ∧ isNoteModalOpen st' = false
  ∧ isNoteModalOpen (handleOpenNote now st') = true
  ∧ hasNote now st' = truthy (Some (trim (noteText st))).
Proof.
  intros Hnow. cbv zeta.
  unfold handleOpenNote, hasNote. rewrite handleSaveNote_currentNoteDateKey.
  destruct (trim (noteText st)) as [|c t] eqn:Ht.
  - rewrite handleSaveNote_blank by exact Ht.
    rewrite lookup_delete_eq.
    unfold handleSaveNote. rewrite Ht. repeat split.
  - rewrite handleSaveNote_text by (rewrite Ht; discriminate).
    rewrite lookup_insert_eq, Ht. cbn [default from_option id setNoteText setIsNoteModalOpen noteText].
    split; [|split; [|split]].
    + cbn. apply signature_round_trip, Hnow.
    + unfold handleSaveNote. rewrite Ht. reflexivity.
    + reflexivity.
    + rewrite signature_not_empty. reflexivity.
Qed.

Lemma existsb_filter_negb {A} (p : A → bool) (l : list A) :
  existsb p (List.filter (fun x => negb (p x)) l) = false.
Proof.
  induction l as [|x l IH]; [reflexivity|].
  cbn [List.filter]. destruct (p x) eqn:Hp; cbn [negb]; [exact IH|].
  cbn [existsb]. rewrite Hp, IH. reflexivity.
Qed.

Lemma filter_negb_none {A} (p : A → bool) (l : list A) :
  existsb p l = false → List.filter (fun x => negb (p x)) l = l.
Proof.
  induction l as [|x l IH]; [reflexivity|].
  cbn [existsb List.filter]. intros H. apply orb_false_iff in H as [Hx Hl].
  rewrite Hx, IH by exact Hl. reflexivity.
Qed.

Lemma toggleFavorite_currentQuote now millis st :
  currentQuote (toggleFavorite now millis st) = currentQuote st.
Proof.
  unfold toggleFavorite. destruct (currentQuote st) as [cur|] eqn:Hc; [|exact Hc].
  destruct (truthyValue (Some cur)); cbn [negb]; [|exact Hc].
  destruct (savedAs _ _ _); exact Hc.
Qed.

Lemma isCurrentSaved_text st cur t :
  currentQuote st = Some cur → textOf cur = Some t →
  isCurrentSaved st = existsb (hasText t) (favorites st).
Proof.
  intros Hc Ht. unfold isCurrentSaved.
  rewrite Hc, (textOf_truthy _ _ Ht). apply savedAs_text, Ht.
Qed.

Lemma toggleFavorite_unsaved now millis st cur t :
  currentQuote st = Some cur → textOf cur = Some t →
  existsb (hasText t) (favorites st) = false →
  ∃ f, hasText t f = true
       ∧ favorites (toggleFavorite now millis st) = (favorites st ++ [f])%list.
Proof.
  intros Hc Ht He.
  destruct (toggleFavorite_appends now millis st cur Hc (textOf_truthy _ _ Ht))
    as (f & Hf & Hfav).
  { rewrite (savedAs_text _ _ _ _ Ht). exact He. }
  exists f. split; [|exact Hfav].
  unfold hasText. rewrite Hf, Ht. apply String.eqb_refl.
Qed.

(** X11: the star follows [toggleFavorite].  With a quote on screen (a value
    whose [quote] is a text, a record of [Quote] among them), the star of the
    card ([isCurrentSaved]) is inverted by a toggle; and when the quote was
    not saved, a second toggle restores the favourites as they were. *)
Theorem toggleFavorite_flips_the_star (now millis now2 millis2 : Z) (st : App)
    (cur : Value) (t : string) :
  currentQuote st = Some cur →
  textOf cur = Some t →
  isCurrentSaved (toggleFavorite now millis st) = negb (isCurrentSaved st)
  ∧ (isCurrentSaved st = false →
     favorites (toggleFavorite now2 millis2 (toggleFavorite now millis st)) = favorites st).
Proof.
  intros Hc Ht.
  pose proof (toggleFavorite_currentQuote now millis st) as Hc'. rewrite Hc in Hc'.
  rewrite (isCurrentSaved_text _ _ _ Hc' Ht), (isCurrentSaved_text _ _ _ Hc Ht).
  destruct (existsb (hasText t) (favorites st)) eqn:He.
  - split; [|discriminate]. cbn [negb].
    rewrite (toggleFavorite_removes now millis st cur t Hc Ht)
      by (apply existsb_favoriteTexts, He).
    apply (existsb_filter_negb (hasText t)).
  - destruct (toggleFavorite_unsaved now millis st cur t Hc Ht He) as (f & Hf & Hfav).
    assert (He' : existsb (hasText t) (favorites (toggleFavorite now millis st)) = true).
    { rewrite Hfav, existsb_app, He. cbn [existsb]. rewrite Hf. reflexivity. }
    split; [exact He'|]. intros _.
    rewrite (toggleFavorite_removes now2 millis2 _ cur t Hc' Ht)
      by (apply existsb_favoriteTexts, He').
    rewrite Hfav, List.filter_app, (filter_negb_none (hasText t)) by exact He.
    cbn [List.filter]. rewrite Hf. cbn [negb]. apply app_nil_r.
Qed.

End Cards.

(** ** The cache key of a day *)

Lemma cache_keys_differ_all : forall_from 12 1 cache_keys_differ = true.
Proof. vm_compute. reflexivity. Qed.

Lemma cacheKeyOf_DateAt z :
  ∃ m d, 1 <= m <= 12 ∧ 1 <= d <= 31
         ∧ cacheKeyOf (DateAt z) = cacheKeyText (dec m) (dec d)
         ∧ dateKeyOf (DateAt z) = keyText m d.
Proof.
  destruct (civil_from_days_range z) as (y & m & d & Hc & Hm & Hd).
  exists m, d. split; [lia|]. split; [lia|].
  unfold cacheKeyOf, dateKeyOf, getMonth, getDate. rewrite Hc.
  cbn [add to_string]. rewrite Z.sub_add. split; reflexivity.
Qed.

(** X12: the cache key separates the days.  Two dates, valid or not, have
    the same cache key exactly when they have the same date key, that is the
    same month and day. *)
Theorem cacheKeyOf_separates_days (d1 d2 : Date) :
  cacheKeyOf d1 = cacheKeyOf d2 ↔ dateKeyOf d1 = dateKeyOf d2.
Proof.
  assert (Hday : ∀ m1 e1 m2 e2,
             1 <= m1 <= 12 → 1 <= e1 <= 31 → 1 <= m2 <= 12 → 1 <= e2 <= 31 →
             cacheKeyText (dec m1) (dec e1) ≠ cacheKeyText "NaN" "NaN"
             ∧ (cacheKeyText (dec m1) (dec e1) = cacheKeyText (dec m2) (dec e2) →
                m1 = m2 ∧ e1 = e2)).
  { intros m1 e1 m2 e2 Hm1 He1 Hm2 He2.
    pose proof (forall_from_Z 12 1 cache_keys_differ m1 cache_keys_differ_all ltac:(lia)) as H.
    unfold cache_keys_differ in H.
    pose proof (forall_from_Z 31 1 _ e1 H ltac:(lia)) as H1. cbv beta in H1.
    apply andb_true_iff in H1 as [Hnan H1].
    pose proof (forall_from_Z 12 1 _ m2 H1 ltac:(lia)) as H2. cbv beta in H2.
    pose proof (forall_from_Z 31 1 _ e2 H2 ltac:(lia)) as H3. cbv beta in H3.
    split.
    - apply negb_true_iff, String.eqb_neq in Hnan. exact Hnan.
    - intros Heq. apply String.eqb_eq in Heq. rewrite Heq in H3. cbn [implb] in H3.
      apply andb_true_iff in H3 as [Ha Hb]. apply Z.eqb_eq in Ha, Hb. auto. }
  assert (Hkey : ∀ m e, 1 <= m <= 12 → 1 <= e <= 31 → keyText m e ≠ "NaN/NaN").
  { intros m e Hm He Heq.
    pose proof (keyText_parses m e Hm He) as Hp. rewrite Heq in Hp. discriminate Hp. }
  destruct d1 as [|z1], d2 as [|z2].
  - split; reflexivity.
  - destruct (cacheKeyOf_DateAt z2) as (m & e & Hm & He & -> & ->).
    change (cacheKeyOf InvalidDate) with (cacheKeyText "NaN" "NaN").
    change (dateKeyOf InvalidDate) with "NaN/NaN".
    split; intros H; exfalso.
    + apply (Hday m e m e Hm He Hm He). symmetry. exact H.
    + apply (Hkey m e Hm He). symmetry. exact H.
  - destruct (cacheKeyOf_DateAt z1) as (m & e & Hm & He & -> & ->).
    change (cacheKeyOf InvalidDate) with (cacheKeyText "NaN" "NaN").
    change (dateKeyOf InvalidDate) with "NaN/NaN".
    split; intros H; exfalso.
    + apply (Hday m e m e Hm He Hm He). exact H.
    + apply (Hkey m e Hm He). exact H.
  - destruct (cacheKeyOf_DateAt z1) as (m1 & e1 & Hm1 & He1 & -> & ->).
    destruct (cacheKeyOf_DateAt z2) as (m2 & e2 & Hm2 & He2 & -> & ->).
    split; intros H.
    + destruct (Hday m1 e1 m2 e2 Hm1 He1 Hm2 He2) as [_ Hd].
      destruct (Hd H) as [-> ->]. reflexivity.
    + pose proof (keyText_parses m1 e1 Hm1 He1) as Hp1.
      pose proof (keyText_parses m2 e2 Hm2 He2) as Hp2.
      rewrite H in Hp1. rewrite Hp1 in Hp2. injection Hp2 as -> ->. reflexivity.
Qed.

(** ** What the storage keeps *)

Lemma BOOKMARK_KEY_not_FAVORITES_KEY : BOOKMARK_KEY ≠ FAVORITES_KEY.
Proof. discriminate. Qed.

Lemma BOOKMARK_KEY_not_NOTES_KEY : BOOKMARK_KEY ≠ NOTES_KEY.
Proof. discriminate. Qed.

Lemma FAVORITES_KEY_not_NOTES_KEY : FAVORITES_KEY ≠ NOTES_KEY.
Proof. discriminate. Qed.

Lemma Try_bind_Completes {A B} (a : A) (k : A → Try B) : Completes a ≫= k = k a.
Proof. reflexivity. Qed.

Section Persistence.

Context {dataset : Dataset} {generation : Generation}.
Context {JSON_Quote : JSON (option Value)}.
Context {JSON_favorites : JSON (list StoredQuote)}.
Context {JSON_notes : JSON (gmap string string)}.

Lemma persisted_frame st st' :
  favorites st' = favorites st → notes st' = notes st →
  localStorage st' !! FAVORITES_KEY = localStorage st !! FAVORITES_KEY →
  localStorage st' !! NOTES_KEY = localStorage st !! NOTES_KEY →
  persisted st → persisted st'.
Proof. unfold persisted. intros -> -> -> ->. auto. Qed.

Lemma loadQuoteByDate_persisted d forceRefresh silent st :
  persisted st → persisted (snd (loadQuoteByDate d forceRefresh silent st)).
Proof.
  destruct (loadQuoteByDate_keeps d forceRefresh silent st) as (Hn & _ & Hf).
  apply persisted_frame; [exact Hf | exact Hn | |];
    apply loadQuoteByDate_storage; intros H; symmetry in H;
    [exact (cacheKeyOf_not_FAVORITES_KEY _ H) | exact (cacheKeyOf_not_NOTES_KEY _ H)].
Qed.

Lemma loadQuoteByDate'_persisted d forceRefresh st :
  persisted st → persisted (snd (loadQuoteByDate' d forceRefresh st)).
Proof.
  destruct (loadQuoteByDate'_keeps d forceRefresh st) as (Hn & _ & Hf).
  apply persisted_frame; [exact Hf | exact Hn | |];
    apply loadQuoteByDate'_storage; intros H; symmetry in H;
    [exact (cacheKeyOf_not_FAVORITES_KEY _ H) | exact (cacheKeyOf_not_NOTES_KEY _ H)].
Qed.

Lemma setItem_BOOKMARK_persisted key st :
  persisted st → persisted (setItem BOOKMARK_KEY key st).
Proof.
  apply persisted_frame; try reflexivity; cbn [localStorage setItem];
    apply lookup_insert_ne;
    [exact BOOKMARK_KEY_not_FAVORITES_KEY | exact BOOKMARK_KEY_not_NOTES_KEY].
Qed.

Lemma setFavorites_persisted l shown st :
  persisted st →
  persisted (setItem FAVORITES_KEY (JSON_stringify l)
               (setLastFavoriteIsShown shown (setFavorites l st))).
Proof.
  unfold persisted.
  cbn [localStorage setItem setLastFavoriteIsShown setFavorites favorites notes].
  rewrite lookup_insert_eq, lookup_insert_ne by exact FAVORITES_KEY_not_NOTES_KEY.
  intros [_ H]. split; [reflexivity | exact H].
Qed.

Lemma setNotes_persisted m st :
  persisted st → persisted (setItem NOTES_KEY (JSON_stringify m) (setNotes m st)).
Proof.
  unfold persisted. cbn [localStorage setItem setNotes favorites notes].
  rewrite lookup_insert_eq, lookup_insert_ne
    by (intros H; symmetry in H; exact (FAVORITES_KEY_not_NOTES_KEY H)).
  intros [H _]. split; [exact H | reflexivity].
Qed.

Lemma dispatch_keeps_persisted e st : persisted st → persisted (dispatch e st).
Proof.
  intros Hp. destruct e as [d f s|d f|now dir|now dir|now millis|i|now|text|now];
    cbn [dispatch].
  - apply loadQuoteByDate_persisted, Hp.
  - apply loadQuoteByDate'_persisted, Hp.
  - unfold handleBookNavigate. destruct (negb _); [exact Hp|]. cbv zeta.
    apply loadQuoteByDate_persisted, setItem_BOOKMARK_persisted, Hp.
  - unfold handleBookNavigate'. destruct (negb _); [exact Hp|]. cbv zeta.
    apply loadQuoteByDate'_persisted, setItem_BOOKMARK_persisted, Hp.
  - unfold toggleFavorite. destruct (currentQuote st) as [cur|]; [|exact Hp].
    destruct (truthyValue (Some cur)); cbn [negb]; [|exact Hp].
    cbv zeta. destruct (savedAs _ _ _);
      apply (setFavorites_persisted _ _ (showToast _ st)), Hp.
  - unfold removeFavorite. destruct (favorites st !! i) as [fav|]; [|exact Hp].
    cbv zeta.
    match goal with
    | |- persisted (showToast _ ?st0) =>
        apply (persisted_frame st0); try reflexivity
    end.
    apply setFavorites_persisted, Hp.
  - exact Hp.
  - exact Hp.
  - unfold handleSaveNote. destruct (negb _); cbv zeta;
      match goal with
      | |- persisted (setIsNoteModalOpen _ (showToast _ ?st0)) =>
          apply (persisted_frame st0); try reflexivity
      end;
      apply setNotes_persisted, Hp.
Qed.

(** X13: the storage mirrors the favourites and the notes.  If the stored
    favourites and notes are the serialisations of those of the state (or
    are absent while the state has none), they still are after any sequence
    of events. *)
Theorem storage_mirrors_the_state (es : list Event) (st : App) :
  persisted st → persisted (run es st).
Proof.
  revert st. induction es as [|e es IH]; intros st Hp; [exact Hp|].
  rewrite run_cons. apply IH, dispatch_keeps_persisted, Hp.
Qed.

(** X14: a restart brings the favourites and the notes back.  If the
    storage mirrors the state, and the favourites and the notes of the state
    survive serialisation (a non-empty text that parses back to them), then
    the mount effect run on a fresh component over the same storage
    completes with the same favourites and notes; in both revisions. *)
Theorem mount_restores_the_state (now : Z) (calls : nat) (st : App) :
  persisted st →
  roundTrips (favorites st) →
  roundTrips (notes st) →
  (∃ st', mountEffect now (freshApp (localStorage st) calls) = Completes st'
          ∧ favorites st' = favorites st ∧ notes st' = notes st)
  ∧ (∃ st', mountEffect' now (freshApp (localStorage st) calls) = Completes st'
            ∧ favorites st' = favorites st ∧ notes st' = notes st).
Proof.
  intros [Hf Hn] [Hf1 Hf2] [Hn1 Hn2].
  assert (Hfav :
    (if truthy (localStorage st !! FAVORITES_KEY) then
       match JSON_parse (default "" (localStorage st !! FAVORITES_KEY)) with
       | Some l =>
           mret (setLastFavoriteIsShown false
                   (setFavorites l (freshApp (localStorage st) calls)))
       | None => throw SyntaxError
       end
     else mret (freshApp (localStorage st) calls))
    = Completes (setLastFavoriteIsShown false
                   (setFavorites (favorites st) (freshApp (localStorage st) calls)))).
  { destruct (localStorage st !! FAVORITES_KEY) as [text|].
    - subst text. rewrite (truthy_Some _ Hf1). cbn [default from_option id].
      unfold default. cbn. rewrite Hf2. reflexivity.
    - rewrite Hf. reflexivity. }
  assert (Hnotes : ∀ st0,
    localStorage st0 = localStorage st → notes st0 = ∅ →
    (if truthy (localStorage st0 !! NOTES_KEY) then
       match JSON_parse (default "" (localStorage st0 !! NOTES_KEY)) with
       | Some m => mret (setNotes m st0)
       | None => throw SyntaxError
       end
     else mret st0)
    = Completes (setNotes (notes st) st0)).
  { intros st0 Hs H0. rewrite Hs.
    destruct (localStorage st !! NOTES_KEY) as [text|].
    - subst text. rewrite (truthy_Some _ Hn1). unfold default. cbn. rewrite Hn2. reflexivity.
    - rewrite Hn, <- H0. destruct st0; reflexivity. }
  split.
  - unfold mountEffect.
    change (localStorage (freshApp (localStorage st) calls)) with (localStorage st).
    rewrite Hfav, Try_bind_Completes, Hnotes, Try_bind_Completes by reflexivity.
    eexists. split; [reflexivity|].
    match goal with
    | |- context [loadQuoteByDate ?d ?f ?s ?st0] =>
        destruct (loadQuoteByDate_keeps d f s st0) as (-> & _ & ->)
    end.
    split; reflexivity.
  - unfold mountEffect'.
    change (localStorage (freshApp (localStorage st) calls)) with (localStorage st).
    rewrite Hfav, Try_bind_Completes, Hnotes, Try_bind_Completes by reflexivity.
    eexists. split; [reflexivity|].
    match goal with
    | |- context [loadQuoteByDate' ?d ?f ?st0] =>
        destruct (loadQuoteByDate'_keeps d f st0) as (-> & _ & ->)
    end.
    split; reflexivity.
Qed.

(** X15: a cache entry that does not parse blocks its day.  For a date
    without fixed text whose cache entry is a non-empty text that does not
    parse, [loadQuoteByDate] without forced refresh rejects with the syntax
    error and changes nothing but the loading flag, which it leaves set
    (unless silent); loading again gives the same; with a forced refresh the
    load fulfils, shows the value [generateQuoteOfDay] resolves with and
    overwrites the entry with its serialisation. *)
Theorem corrupt_cache_entry_blocks_the_day (d : Date) (text : string) (silent : bool)
    (st : App) :
  truthy (FIXED_QUOTES !! dateKeyOf d) = false →
  localStorage st !! cacheKeyOf d = Some text →
  text ≠ "" →
  JSON_parse (A := option Value) text = None →
  loadQuoteByDate d false silent st
  = (Rejected SyntaxError, if silent then st else setLoading true st)
  ∧ loadQuoteByDate' d false st = (Rejected SyntaxError, setLoading true st)
  ∧ loadQuoteByDate' d false (snd (loadQuoteByDate' d false st))
    = (Rejected SyntaxError, setLoading true st)
  ∧ ∃ q, fst (generateQuoteOfDay d (aiCalls st)) = Fulfilled q
         ∧ fst (loadQuoteByDate d true silent st) = Fulfilled ()
         ∧ currentQuote (snd (loadQuoteByDate d true silent st)) = q
         ∧ localStorage (snd (loadQuoteByDate d true silent st)) !! cacheKeyOf d
           = Some (JSON_stringify q).
Proof.
  intros Hfix Hc Ht Hp.
  assert (H1 : loadQuoteByDate' d false st = (Rejected SyntaxError, setLoading true st)).
  { unfold loadQuoteByDate'. cbv zeta. rewrite Hfix.
    cbn [localStorage setLoading]. rewrite Hc, (truthy_Some _ Ht).
    cbn [negb andb default from_option id]. unfold default. cbn. rewrite Hp. reflexivity. }
  split; [|split; [exact H1|split]].
  - unfold loadQuoteByDate. cbv zeta. rewrite Hfix.
    destruct silent; cbn [negb localStorage setLoading];
      rewrite Hc, (truthy_Some _ Ht); unfold default; cbn; rewrite Hp; reflexivity.
  - rewrite H1. cbn [snd].
    unfold loadQuoteByDate'. cbv zeta.
    cbn [localStorage setLoading]. rewrite Hfix, Hc, (truthy_Some _ Ht).
    unfold default. cbn. rewrite Hp. reflexivity.
  - destruct (generateQuoteOfDay_settles d (aiCalls st)) as (q & Hq).
    exists q. split; [exact Hq|].
    destruct (loadQuoteByDate_generates d true silent st q Hfix (or_introl eq_refl) Hq)
      as (Ha & Hb & _ & Hs & _).
    split; [exact Ha|]. split; [exact Hb|].
    rewrite Hs. apply lookup_insert_eq.
Qed.

End Persistence.

(** ** The date text of a day *)

Lemma decode_ok_all : forall_from (Z.to_nat 146097) 0 decode_ok = true.
Proof. vm_compute. reflexivity. Qed.

Lemma dec_reads_back_all : forall_from (Z.to_nat 9000) 1000 dec_reads_back = true.
Proof. vm_compute. reflexivity. Qed.

Lemma civil_from_days_injective z1 z2 :
  civil_from_days z1 = civil_from_days z2 → z1 = z2.
Proof.
  assert (Hsplit : ∀ z, ∃ era doe, 0 <= doe < 146097 ∧ z = era * 146097 + doe - 719468).
  { intros z. exists ((z + 719468) / 146097), ((z + 719468) mod 146097).
    split; [apply Z.mod_pos_bound; lia|].
    pose proof (Z.div_mod (z + 719468) 146097 ltac:(lia)). lia. }
  destruct (Hsplit z1) as (era1 & doe1 & Hd1 & ->).
  destruct (Hsplit z2) as (era2 & doe2 & Hd2 & ->).
  rewrite !civil_from_days_era by assumption.
  pose proof (forall_from_Z 146097 0 decode_ok doe1 decode_ok_all ltac:(lia)) as H1.
  pose proof (forall_from_Z 146097 0 decode_ok doe2 decode_ok_all ltac:(lia)) as H2.
  unfold decode_ok in H1, H2.
  destruct (decode doe1) as [[yoe1 m1] e1], (decode doe2) as [[yoe2 m2] e2].
  apply andb_true_iff in H1 as [H1 Hb1]. apply andb_true_iff in H1 as [Hl1 Hu1].
  apply andb_true_iff in H2 as [H2 Hb2]. apply andb_true_iff in H2 as [Hl2 Hu2].
  apply Z.eqb_eq in Hb1, Hb2. apply Z.leb_le in Hl1, Hl2. apply Z.ltb_lt in Hu1, Hu2.
  intros Heq. injection Heq as Hy Hm He. subst m2 e2.
  assert (Hyy : yoe1 + era1 * 400 = yoe2 + era2 * 400) by (destruct (m1 <=? 2); lia).
  assert (era1 = era2) by lia. subst era2.
  assert (yoe1 = yoe2) by lia. subst yoe2.
  rewrite <- Hb1, <- Hb2. reflexivity.
Qed.

Lemma dec_injective y1 y2 :
  1000 <= y1 <= 9999 → 1000 <= y2 <= 9999 → dec y1 = dec y2 → y1 = y2.
Proof.
  intros H1 H2 Heq.
  pose proof (forall_from_Z 9000 1000 dec_reads_back y1 dec_reads_back_all ltac:(lia)) as R1.
  pose proof (forall_from_Z 9000 1000 dec_reads_back y2 dec_reads_back_all ltac:(lia)) as R2.
  unfold dec_reads_back in R1, R2. rewrite Heq in R1.
  destruct (Number (dec y2)) as [|n]; [discriminate|].
  apply Z.eqb_eq in R1, R2. lia.
Qed.

(** X16: the date text identifies the day.  Two days of years of four
    digits for which [getLocalDateString] writes the same text are the same
    day: notes and favourites of different days have different dates. *)
Theorem getLocalDateString_identifies_the_day (z1 z2 : Z) :
  fourDigitYear z1 → fourDigitYear z2 →
  getLocalDateString (DateAt z1) = getLocalDateString (DateAt z2) →
  z1 = z2.
Proof.
  intros (y1 & Hy1 & Hr1) (y2 & Hy2 & Hr2) Heq.
  unfold getFullYear in Hy1, Hy2.
  destruct (civil_from_days z1) as [[y1' m1] e1] eqn:Hc1.
  destruct (civil_from_days z2) as [[y2' m2] e2] eqn:Hc2.
  injection Hy1 as ->. injection Hy2 as ->.
  destruct (getLocalDateString_parts z1 y1 m1 e1 Hc1 Hr1) as (pm1 & pd1 & Hs1 & Hm1 & He1 & _).
  destruct (getLocalDateString_parts z2 y2 m2 e2 Hc2 Hr2) as (pm2 & pd2 & Hs2 & Hm2 & He2 & _).
  rewrite Heq, Hs2 in Hs1. injection Hs1 as Hy Hpm Hpd. subst pm2 pd2.
  rewrite Hm1 in Hm2. rewrite He1 in He2. injection Hm2 as ->. injection He2 as ->.
  apply dec_injective in Hy; [|assumption..]. subst y2.
  apply civil_from_days_injective. rewrite Hc1, Hc2. reflexivity.
Qed.

(** ** The delete button of the favourites view *)

Lemma filter_other_texts (l : list StoredQuote) (i : nat) (fav : StoredQuote) (t : string) :
  NoDup (favoriteTexts l) →
  l !! i = Some fav →
  textOf (data fav) = Some t →
  List.filter (fun f => negb (hasText t f)) l = delete i l.
Proof.
  intros Hnd Hi Ht. revert i Hnd Hi.
  induction l as [|a l IH]; intros i Hnd Hi; [discriminate Hi|].
  rewrite favoriteTexts_cons in Hnd.
  destruct i as [|j].
  - injection Hi as ->. rewrite Ht in Hnd. apply NoDup_cons in Hnd as [Ha Hnd].
    cbn [List.filter]. unfold hasText at 1. rewrite Ht, String.eqb_refl. cbn [negb].
    change (delete 0%nat (fav :: l)) with l.
    apply (filter_negb_none (hasText t)).
    destruct (existsb (hasText t) l) eqn:He; [|reflexivity].
    apply existsb_favoriteTexts, list_elem_of_In in He. contradiction.
  - cbn in Hi. cbn [List.filter].
    assert (Hin : t ∈ favoriteTexts l).
    { apply list_elem_of_In, existsb_favoriteTexts, existsb_exists.
      exists fav. split; [apply list_elem_of_In, list_elem_of_lookup; eauto|].
      unfold hasText. rewrite Ht. apply String.eqb_refl. }
    unfold hasText at 1.
    destruct (textOf (data a)) as [t'|].
    + apply NoDup_cons in Hnd as [Ha Hnd].
      destruct (String.eqb_spec t' t) as [->|Hne]; [contradiction|].
      cbn [negb]. rewrite (IH j Hnd Hi). reflexivity.
    + cbn [negb]. rewrite (IH j Hnd Hi). reflexivity.
Qed.

Lemma delete_past_the_end {A} (l : list A) (i : nat) :
  (length l <= i)%nat → delete i l = l.
Proof.
  revert i. induction l as [|a l IH]; intros i Hi; [destruct i; reflexivity|].
  destruct i as [|j]; cbn in Hi; [lia|].
  cbn. f_equal. apply IH. lia.
Qed.

Section Delete.

Context {JSON_favorites : JSON (list StoredQuote)}.

(** X17: the delete button removes the card it is on.  When no two
    favourites share a text and the card at index [i] shows one (its [quote]
    is a text, as in every record of [Quote]), [removeFavorite] at index [i]
    deletes exactly the entry at [i]: the list is one shorter and is what
    gets stored; at an index past the end it does nothing. *)
Theorem removeFavorite_removes_the_card (i : nat) (st : App) :
  NoDup (favoriteTexts (favorites st)) →
  (∀ fav, favorites st !! i = Some fav → is_Some (textOf (data fav))) →
  favorites (removeFavorite i st) = delete i (favorites st)
  ∧ ((i < length (favorites st))%nat →
     localStorage (removeFavorite i st) !! FAVORITES_KEY
     = Some (JSON_stringify (delete i (favorites st)))
     ∧ length (favorites (removeFavorite i st)) = pred (length (favorites st)))
  ∧ ((length (favorites st) <= i)%nat → removeFavorite i st = st).
Proof.
  intros Hnd Htext. unfold removeFavorite.
  destruct (favorites st !! i) as [fav|] eqn:Hi.
  - destruct (Htext fav eq_refl) as [t Ht].
    cbv zeta.
    cbn [favorites localStorage showToast setItem setLastFavoriteIsShown setFavorites].
    rewrite (othersThanCard_text _ _ _ _ _ Ht), (filter_other_texts _ _ _ _ Hnd Hi Ht).
    pose proof (lookup_lt_Some _ _ _ Hi) as Hlt.
    split; [reflexivity|]. split.
    + intros _. split; [apply lookup_insert_eq|].
      rewrite length_delete by eauto. lia.
    + intros Hge. lia.
  - apply lookup_ge_None in Hi.
    split; [|split].
    + symmetry. apply delete_past_the_end. exact Hi.
    + intros Hlt. lia.
    + reflexivity.
Qed.

End Delete.

(** ** The properties on sample inputs *)

(** The key 12/31 read on 15 June 2025. *)
Lemma getDateFromKey_in_current_year_witness :
  getDateFromKey sampleNow (keyText 12 31) = civil 2025 12 31
  ∧ getFullYear (getDateFromKey sampleNow (keyText 12 31)) = Num 2025
  ∧ dateKeyOf (getDateFromKey sampleNow (keyText 12 31)) = keyText 12 31.
Proof.
  apply (getDateFromKey_in_current_year sampleNow 2025 6 15 12 31).
  - vm_compute. reflexivity.
  - lia.
  - change (daysInMonth 2025 12) with 31. lia.
  - change (daysInMonth 2025 12) with 31. lia.
Defined.

(** From the page 12/31, on 15 June 2025: forward to 1/1 and back. *)
Lemma book_navigation_returns_witness :
  localStorage
    (handleBookNavigate (dataset := emptyDataset) (generation := aiDown)
       (JSON_Quote := stubJSON_Quote) sampleNow prev
       (handleBookNavigate (dataset := emptyDataset) (generation := aiDown)
          (JSON_Quote := stubJSON_Quote) sampleNow next
          (setSelectedDateKey (Some (keyText 12 31)) initialApp)))
  !! BOOKMARK_KEY
  = Some (keyText 12 31)
  ∧ localStorage
      (handleBookNavigate' (dataset := emptyDataset) (generation := aiDown)
         (JSON_Quote := stubJSON_Quote) sampleNow prev
         (handleBookNavigate' (dataset := emptyDataset) (generation := aiDown)
            (JSON_Quote := stubJSON_Quote) sampleNow next
            (setSelectedDateKey (Some (keyText 12 31)) initialApp)))
    !! BOOKMARK_KEY
    = Some (keyText 12 31).
Proof.
  destruct (book_navigation_returns (dataset := emptyDataset) (generation := aiDown)
              (JSON_Quote := stubJSON_Quote) sampleNow 2025 6 15 12 31 next
              (setSelectedDateKey (Some (keyText 12 31)) initialApp))
    as [Ha Hb].
  - vm_compute. reflexivity.
  - lia.
  - lia.
  - change (daysInMonth 2025 12) with 31. lia.
  - reflexivity.
  - split; [apply Ha | apply Hb]; vm_compute; reflexivity.
Defined.

(** The entry 3/5 of the list, picked on 15 June 2025. *)
Lemma handleDateSelect_shows_the_day_witness :
  (currentQuote
     (appState (handleDateSelect (dataset := sampleDataset) (generation := aiDown)
                  (JSON_Quote := stubJSON_Quote) sampleNow (keyText 3 5) sampleScreen))
   = Some (record (fixedQuote "오늘의 문장"))
   ∧ selectedDateKey
       (appState (handleDateSelect (dataset := sampleDataset) (generation := aiDown)
                    (JSON_Quote := stubJSON_Quote) sampleNow (keyText 3 5) sampleScreen))
     = Some (keyText 3 5)
   ∧ aiCalls
       (appState (handleDateSelect (dataset := sampleDataset) (generation := aiDown)
                    (JSON_Quote := stubJSON_Quote) sampleNow (keyText 3 5) sampleScreen))
     = aiCalls (appState sampleScreen)
   ∧ viewMode (handleDateSelect (dataset := sampleDataset) (generation := aiDown)
                 (JSON_Quote := stubJSON_Quote) sampleNow (keyText 3 5) sampleScreen)
     = ViewMain
   ∧ readingMode (handleDateSelect (dataset := sampleDataset) (generation := aiDown)
                    (JSON_Quote := stubJSON_Quote) sampleNow (keyText 3 5) sampleScreen)
     = daily)
  ∧ (currentQuote
       (appState (handleDateSelect' (dataset := sampleDataset) (generation := aiDown)
                    (JSON_Quote := stubJSON_Quote) sampleNow (keyText 3 5) sampleScreen))
     = Some (record (fixedQuote "오늘의 문장"))
     ∧ selectedDateKey
         (appState (handleDateSelect' (dataset := sampleDataset) (generation := aiDown)
                      (JSON_Quote := stubJSON_Quote) sampleNow (keyText 3 5) sampleScreen))
       = Some (keyText 3 5)
     ∧ aiCalls
         (appState (handleDateSelect' (dataset := sampleDataset) (generation := aiDown)
                      (JSON_Quote := stubJSON_Quote) sampleNow (keyText 3 5) sampleScreen))
       = aiCalls (appState sampleScreen)
     ∧ viewMode (handleDateSelect' (dataset := sampleDataset) (generation := aiDown)
                   (JSON_Quote := stubJSON_Quote) sampleNow (keyText 3 5) sampleScreen)
       = ViewMain
     ∧ readingMode (handleDateSelect' (dataset := sampleDataset) (generation := aiDown)
                      (JSON_Quote := stubJSON_Quote) sampleNow (keyText 3 5) sampleScreen)
       = daily).
Proof.
  apply (handleDateSelect_shows_the_day (dataset := sampleDataset) (generation := aiDown)
           (JSON_Quote := stubJSON_Quote) sampleNow 2025 6 15 3 5 "오늘의 문장" sampleScreen).
  - vm_compute. reflexivity.
  - lia.
  - change (daysInMonth 2025 3) with 31. lia.
  - change (daysInMonth 2025 3) with 31. lia.
  - reflexivity.
  - discriminate.
Defined.


(** A dataset of one entry, drawn on 15 June 2025. *)
Lemma random_quote_is_fixed_witness :
  ∃ key text,
    getRandomQuoteKey (dataset := sampleDataset) 0 = Some key
    ∧ @FIXED_QUOTES sampleDataset !! key = Some text
    ∧ (∃ st', loadRandomQuote (dataset := sampleDataset) (generation := aiDown)
                (JSON_Quote := stubJSON_Quote) sampleNow 0 initialApp = Completes st'
              ∧ currentQuote st' = Some (record (fixedQuote text))
              ∧ selectedDateKey st' = Some key
              ∧ aiCalls st' = aiCalls initialApp)
    ∧ (∃ st', loadRandomQuote' (dataset := sampleDataset) (generation := aiDown)
                (JSON_Quote := stubJSON_Quote) sampleNow 0 initialApp = Completes st'
              ∧ currentQuote st' = Some (record (fixedQuote text))
              ∧ selectedDateKey st' = Some key
              ∧ aiCalls st' = aiCalls initialApp).
Proof.
  apply (random_quote_is_fixed (dataset := sampleDataset) (generation := aiDown)
           (JSON_Quote := stubJSON_Quote) sampleNow 2025 6 15 0 initialApp).
  - vm_compute. reflexivity.
  - lia.
  - intros key text H.
    change (({[ "3/5" := "오늘의 문장" ]} : gmap string string) !! key = Some text) in H.
    apply lookup_singleton_Some in H as [<- <-].
    split; [discriminate|].
    exists 3, 5. split; [reflexivity|]. split; [lia|].
    change (daysInMonth 2025 3) with 31. lia.
  - change (size (@FIXED_QUOTES sampleDataset)) with 1%nat. lia.
Defined.

(** The card of a note saved on 5 March 2024. *)
Lemma saved_note_card_witness :
  noteContent (appendSignature "memo" (DateAt (days_from_civil 2024 3 5))) = "memo"
  ∧ noteContent' (appendSignature "memo" (DateAt (days_from_civil 2024 3 5))) = "memo"
  ∧ noteRecordedAt (appendSignature "memo" (DateAt (days_from_civil 2024 3 5)))
    = dec 2024 +:+ "-" +:+ dec 3 +:+ "-" +:+ dec 5
  ∧ noteSignature' (appendSignature "memo" (DateAt (days_from_civil 2024 3 5)))
    = "— " +:+ dec 2024 +:+ ". " +:+ dec 3 +:+ ". " +:+ dec 5 +:+ ".".
Proof.
  apply (saved_note_card "memo" (days_from_civil 2024 3 5) 2024 3 5).
  - vm_compute. reflexivity.
  - lia.
Defined.

(** The note of 5 March 2024. *)
Lemma note_link_leads_to_its_page_witness :
  noteQuoteKey (getLocalDateString (DateAt (days_from_civil 2024 3 5)))
  = dateKeyOf (DateAt (days_from_civil 2024 3 5))
  ∧ ∀ now,
      getDateFromKey now (noteLinkKey (getLocalDateString (DateAt (days_from_civil 2024 3 5))))
      = getDateFromKey now (dateKeyOf (DateAt (days_from_civil 2024 3 5))).
Proof.
  apply (note_link_leads_to_its_page (days_from_civil 2024 3 5) 2024 3 5).
  - vm_compute. reflexivity.
  - lia.
Defined.

(** A note typed with spaces around it, saved and reopened on 5 March 2024. *)
Lemma saved_note_reopens_witness :
  noteText
    (handleOpenNote (days_from_civil 2024 3 5)
       (handleSaveNote (JSON_notes := stubJSON_notes) (days_from_civil 2024 3 5)
          (setNoteText "  memo " initialApp)))
  = trim (noteText (setNoteText "  memo " initialApp))
  ∧ isNoteModalOpen
      (handleSaveNote (JSON_notes := stubJSON_notes) (days_from_civil 2024 3 5)
         (setNoteText "  memo " initialApp))
    = false
  ∧ isNoteModalOpen
      (handleOpenNote (days_from_civil 2024 3 5)
         (handleSaveNote (JSON_notes := stubJSON_notes) (days_from_civil 2024 3 5)
            (setNoteText "  memo " initialApp)))
    = true
  ∧ hasNote (days_from_civil 2024 3 5)
      (handleSaveNote (JSON_notes := stubJSON_notes) (days_from_civil 2024 3 5)
         (setNoteText "  memo " initialApp))
    = truthy (Some (trim (noteText (setNoteText "  memo " initialApp)))).
Proof.
  apply (saved_note_reopens (JSON_notes := stubJSON_notes) (days_from_civil 2024 3 5)
           (setNoteText "  memo " initialApp)).
  exact fourDigitYear_2024_3_5.
Defined.

(** A quote on screen, no favourite yet. *)
Lemma toggleFavorite_flips_the_star_witness :
  isCurrentSaved
    (toggleFavorite (JSON_favorites := stubJSON_favorites) sampleNow 1
       (setCurrentQuote (Some (record (fixedQuote "a"))) initialApp))
  = negb (isCurrentSaved (setCurrentQuote (Some (record (fixedQuote "a"))) initialApp))
  ∧ (isCurrentSaved (setCurrentQuote (Some (record (fixedQuote "a"))) initialApp) = false →
     favorites
       (toggleFavorite (JSON_favorites := stubJSON_favorites) sampleNow 2
          (toggleFavorite (JSON_favorites := stubJSON_favorites) sampleNow 1
             (setCurrentQuote (Some (record (fixedQuote "a"))) initialApp)))
     = favorites (setCurrentQuote (Some (record (fixedQuote "a"))) initialApp)).
Proof.
  apply (toggleFavorite_flips_the_star (JSON_favorites := stubJSON_favorites)
           sampleNow 1 sampleNow 2
           (setCurrentQuote (Some (record (fixedQuote "a"))) initialApp)
           (record (fixedQuote "a")) "a");
    reflexivity.
Defined.

(** A first start: a favourite saved, a note saved, a page turned. *)
Lemma storage_mirrors_the_state_witness :
  @persisted stubJSON_favorites stubJSON_notes
    (run (dataset := emptyDataset) (generation := aiDown)
       (JSON_Quote := stubJSON_Quote) (JSON_favorites := stubJSON_favorites)
       (JSON_notes := stubJSON_notes)
       [Load (DateAt sampleNow) false true; ToggleFavorite sampleNow 1;
        EditNote "memo"; SaveNote sampleNow; BookNavigate sampleNow next]
       initialApp).
Proof.
  apply (storage_mirrors_the_state (dataset := emptyDataset) (generation := aiDown)
           (JSON_Quote := stubJSON_Quote) (JSON_favorites := stubJSON_favorites)
           (JSON_notes := stubJSON_notes)).
  split; reflexivity.
Defined.

(** A restart over a storage that holds one favourite and one note. *)
Lemma mount_restores_the_state_witness :
  (∃ st',
     mountEffect (dataset := emptyDataset) (generation := aiDown)
       (JSON_Quote := stubJSON_Quote)
       (JSON_favorites := recallJSON [sampleFavorite "a"])
       (JSON_notes := recallJSON sampleNotes)
       sampleNow (freshApp (localStorage storedApp) 0)
     = Completes st'
     ∧ favorites st' = favorites storedApp ∧ notes st' = notes storedApp)
  ∧ (∃ st',
       mountEffect' (dataset := emptyDataset) (generation := aiDown)
         (JSON_Quote := stubJSON_Quote)
         (JSON_favorites := recallJSON [sampleFavorite "a"])
         (JSON_notes := recallJSON sampleNotes)
         sampleNow (freshApp (localStorage storedApp) 0)
       = Completes st'
       ∧ favorites st' = favorites storedApp ∧ notes st' = notes storedApp).
Proof.
  apply (mount_restores_the_state (dataset := emptyDataset) (generation := aiDown)
           (JSON_Quote := stubJSON_Quote)
           (JSON_favorites := recallJSON [sampleFavorite "a"])
           (JSON_notes := recallJSON sampleNotes) sampleNow 0 storedApp).
  - split; vm_compute; reflexivity.
  - split; [discriminate | reflexivity].
  - split; [discriminate | reflexivity].
Defined.

(** 1 January 2025 with a cache entry that is no quote. *)
Lemma corrupt_cache_entry_blocks_the_day_witness :
  loadQuoteByDate (dataset := emptyDataset) (generation := aiDown)
    (JSON_Quote := stubJSON_Quote) (civil 2025 1 1) false false
    (setItem (cacheKeyOf (civil 2025 1 1)) "{" initialApp)
  = (Rejected SyntaxError,
     setLoading true (setItem (cacheKeyOf (civil 2025 1 1)) "{" initialApp))
  ∧ loadQuoteByDate' (dataset := emptyDataset) (generation := aiDown)
      (JSON_Quote := stubJSON_Quote) (civil 2025 1 1) false
      (setItem (cacheKeyOf (civil 2025 1 1)) "{" initialApp)
    = (Rejected SyntaxError,
       setLoading true (setItem (cacheKeyOf (civil 2025 1 1)) "{" initialApp))
  ∧ loadQuoteByDate' (dataset := emptyDataset) (generation := aiDown)
      (JSON_Quote := stubJSON_Quote) (civil 2025 1 1) false
      (snd (loadQuoteByDate' (dataset := emptyDataset) (generation := aiDown)
              (JSON_Quote := stubJSON_Quote) (civil 2025 1 1) false
              (setItem (cacheKeyOf (civil 2025 1 1)) "{" initialApp)))
    = (Rejected SyntaxError,
       setLoading true (setItem (cacheKeyOf (civil 2025 1 1)) "{" initialApp))
  ∧ ∃ q,
      fst (generateQuoteOfDay (dataset := emptyDataset) (generation := aiDown)
             (JSON_Quote := stubJSON_Quote) (civil 2025 1 1)
             (aiCalls (setItem (cacheKeyOf (civil 2025 1 1)) "{" initialApp)))
      = Fulfilled q
      ∧ fst (loadQuoteByDate (dataset := emptyDataset) (generation := aiDown)
               (JSON_Quote := stubJSON_Quote) (civil 2025 1 1) true false
               (setItem (cacheKeyOf (civil 2025 1 1)) "{" initialApp))
        = Fulfilled ()
      ∧ currentQuote
          (snd (loadQuoteByDate (dataset := emptyDataset) (generation := aiDown)
                  (JSON_Quote := stubJSON_Quote) (civil 2025 1 1) true false
                  (setItem (cacheKeyOf (civil 2025 1 1)) "{" initialApp)))
        = q
      ∧ localStorage
          (snd (loadQuoteByDate (dataset := emptyDataset) (generation := aiDown)
                  (JSON_Quote := stubJSON_Quote) (civil 2025 1 1) true false
                  (setItem (cacheKeyOf (civil 2025 1 1)) "{" initialApp)))
        !! cacheKeyOf (civil 2025 1 1)
        = Some (JSON_stringify (JSON := stubJSON_Quote) q).
Proof.
  apply (corrupt_cache_entry_blocks_the_day (dataset := emptyDataset) (generation := aiDown)
           (JSON_Quote := stubJSON_Quote) (civil 2025 1 1) "{" false
           (setItem (cacheKeyOf (civil 2025 1 1)) "{" initialApp)).
  - reflexivity.
  - apply lookup_insert_eq.
  - discriminate.
  - reflexivity.
Defined.

(** 5 March 2024 is day 19787. *)
Lemma getLocalDateString_identifies_the_day_witness : days_from_civil 2024 3 5 = 19787.
Proof.
  apply (getLocalDateString_identifies_the_day (days_from_civil 2024 3 5) 19787).
  - exact fourDigitYear_2024_3_5.
  - exists 2024. split; [reflexivity | lia].
  - vm_compute. reflexivity.
Defined.

(** Two favourites, the first deleted. *)
Lemma removeFavorite_removes_the_card_witness :
  favorites
    (removeFavorite (JSON_favorites := stubJSON_favorites) 0
       (setFavorites [sampleFavorite "a"; sampleFavorite "b"] initialApp))
  = delete 0%nat (favorites (setFavorites [sampleFavorite "a"; sampleFavorite "b"] initialApp))
  ∧ ((0 < length (favorites (setFavorites [sampleFavorite "a"; sampleFavorite "b"] initialApp)))%nat →
     localStorage
       (removeFavorite (JSON_favorites := stubJSON_favorites) 0
          (setFavorites [sampleFavorite "a"; sampleFavorite "b"] initialApp))
     !! FAVORITES_KEY
     = Some (JSON_stringify (JSON := stubJSON_favorites)
               (delete 0%nat
                  (favorites (setFavorites [sampleFavorite "a"; sampleFavorite "b"] initialApp))))
     ∧ length
         (favorites
            (removeFavorite (JSON_favorites := stubJSON_favorites) 0
               (setFavorites [sampleFavorite "a"; sampleFavorite "b"] initialApp)))
       = pred (length (favorites (setFavorites [sampleFavorite "a"; sampleFavorite "b"] initialApp))))
  ∧ ((length (favorites (setFavorites [sampleFavorite "a"; sampleFavorite "b"] initialApp)) <= 0)%nat →
     removeFavorite (JSON_favorites := stubJSON_favorites) 0
       (setFavorites [sampleFavorite "a"; sampleFavorite "b"] initialApp)
     = setFavorites [sampleFavorite "a"; sampleFavorite "b"] initialApp).
Proof.
  apply (removeFavorite_removes_the_card (JSON_favorites := stubJSON_favorites) 0
           (setFavorites [sampleFavorite "a"; sampleFavorite "b"] initialApp)).
  - apply NoDup_cons. split.
    + apply not_elem_of_cons. split; [discriminate | apply not_elem_of_nil].
    + apply NoDup_singleton.
  - intros fav Hfav. injection Hfav as <-. exists "a". reflexivity.
Defined.
